(** * Oracle table migration: a shallow embedding of the migration engine

    The development follows the Python sources:
    - [oracle_table_migration/db/schema_validator.py]  (SchemaValidator)
    - [oracle_table_migration/db/oracle_handler.py]    (OracleHandler)
    - [oracle_table_migration/migration/migrator.py]   (TableMigrator)
    - [oracle_table_migration/main.py]                 (main)

    The database itself is external to the repository.  It is modelled as an
    abstract [Driver] whose operations are the calls the code makes on a
    connection handle; every function of the repository is written against
    that interface, threading the migrator object ([self]) explicitly and
    recording the calls made on the two handles as a list of events. *)

From Stdlib Require Import String Ascii List ZArith Lia Bool Arith DecimalString.
From Equations Require Import Equations.
Import ListNotations.
Open Scope string_scope.

Set Implicit Arguments.

(* ===================================================================== *)
(** * Python strings *)
(* ===================================================================== *)

Module PyStr.

(** [str(n)] for an integer. *)
Definition of_Z (z : Z) : string := NilZero.string_of_int (Z.to_int z).

Definition of_nat (n : nat) : string := of_Z (Z.of_nat n).

(** [sep.join(parts)] *)
Definition join (sep : string) (parts : list string) : string :=
  String.concat sep parts.

(** [s.upper()] on the ASCII letters. *)
Definition upper_char (c : ascii) : ascii :=
  let n := nat_of_ascii c in
  if ((97 <=? n) && (n <=? 122))%nat then ascii_of_nat (n - 32) else c.

Fixpoint upper (s : string) : string :=
  match s with
  | EmptyString => EmptyString
  | String c s' => String (upper_char c) (upper s')
  end.

(** [s[:n]] *)
Definition take (n : nat) (s : string) : string := substring 0 n s.

(** [s.startswith(p)] on character lists. *)
Fixpoint starts_with (p s : list ascii) : bool :=
  match p, s with
  | [], _ => true
  | _ :: _, [] => false
  | a :: p', b :: s' => Ascii.eqb a b && starts_with p' s'
  end.

(** [s.replace(old, new)] for a non-empty [old = o :: old']: scan from the
    left, replace every non-overlapping occurrence. *)
Equations? replace_nonempty (o : ascii) (old' new s : list ascii) : list ascii
  by wf (length s) lt :=
replace_nonempty o old' new [] := [];
replace_nonempty o old' new (c :: s') with starts_with (o :: old') (c :: s') := {
  | true => new ++ replace_nonempty o old' new (skipn (length old') s');
  | false => c :: replace_nonempty o old' new s' }.
Proof.
  all: simpl; try lia.
  pose proof (length_skipn (length old') s'). lia.
Qed.

(** [s.replace("", new)]: [new] is inserted before every character and at
    the end. *)
Definition replace_empty (new s : list ascii) : list ascii :=
  new ++ flat_map (fun c => c :: new) s.

Definition replace_chars (old new s : list ascii) : list ascii :=
  match old with
  | [] => replace_empty new s
  | o :: old' => replace_nonempty o old' new s
  end.

Definition replace (s old new : string) : string :=
  string_of_list_ascii
    (replace_chars (list_ascii_of_string old) (list_ascii_of_string new)
                   (list_ascii_of_string s)).

(** [s.split(c)[0]]: the part of [s] before the first [c]. *)
Fixpoint before_first (c : ascii) (s : string) : string :=
  match s with
  | EmptyString => EmptyString
  | String a s' => if Ascii.eqb a c then EmptyString else String a (before_first c s')
  end.

(** White space removed by [str.strip()] (ASCII range). *)
Definition is_space (c : ascii) : bool :=
  let n := nat_of_ascii c in
  (((9 <=? n) && (n <=? 13)) || ((28 <=? n) && (n <=? 32)))%nat.

Fixpoint lstrip (s : string) : string :=
  match s with
  | EmptyString => EmptyString
  | String a s' => if is_space a then lstrip s' else s
  end.

Fixpoint rstrip_with (p : ascii -> bool) (s : string) : string :=
  match s with
  | EmptyString => EmptyString
  | String a s' =>
      match rstrip_with p s' with
      | EmptyString => if p a then EmptyString else String a EmptyString
      | r => String a r
      end
  end.

Definition strip (s : string) : string := rstrip_with is_space (lstrip s).

(** [s.rstrip(",")] *)
Definition rstrip_comma (s : string) : string :=
  rstrip_with (fun a => Ascii.eqb a ","%char) s.

Definition is_digit (c : ascii) : bool :=
  let n := nat_of_ascii c in ((48 <=? n) && (n <=? 57))%nat.

Fixpoint skip_digits (s : string) : string :=
  match s with
  | EmptyString => EmptyString
  | String a s' => if is_digit a then skip_digits s' else s
  end.

(** Truthiness of a string: [if s:] *)
Definition truthy (s : string) : bool :=
  match s with EmptyString => false | _ => true end.

End PyStr.

(* ===================================================================== *)
(** * Python values held in rows *)
(* ===================================================================== *)

(** A cell of a fetched row.  [PyObj s] stands for an object of any other
    class (float, Decimal, datetime, bytes, LOB, ...); the only thing the
    migrator ever does with such an object is call [str()] on it, and [s]
    is what that call returns. *)
Inductive pyval : Type :=
| PyNone
| PyBool (b : bool)
| PyInt (z : Z)
| PyStr (s : string)
| PyObj (str_form : string).

(** [isinstance(v, str)] *)
Definition isinstance_str (v : pyval) : bool :=
  match v with PyStr _ => true | _ => false end.

(** [str(v)] *)
Definition py_str (v : pyval) : string :=
  match v with
  | PyNone => "None"
  | PyBool true => "True"
  | PyBool false => "False"
  | PyInt z => PyStr.of_Z z
  | PyStr s => s
  | PyObj s => s
  end.

Definition Row : Type := list pyval.

(* ===================================================================== *)
(** * Data model *)
(* ===================================================================== *)

(** One dictionary built by [get_table_schema] from a row of
    [user_tab_columns]. *)
Record Column : Type := mkColumn {
  col_name : string;
  data_type : string;
  data_length : option Z;
  data_precision : option Z;
  data_scale : option Z;
  nullable : string
}.

(** [oracle_handler.IndexDefinition] *)
Record IndexDefinition : Type := mkIndex {
  idx_name : string;
  idx_table_name : string;
  idx_columns : list string;
  idx_is_unique : bool;
  idx_tablespace_name : option string
}.

(** The constants of [oracledb] used by [get_column_type]. *)
Inductive db_type : Type :=
| DB_TYPE_NUMBER | DB_TYPE_VARCHAR | DB_TYPE_CHAR | DB_TYPE_DATE
| DB_TYPE_TIMESTAMP | DB_TYPE_CLOB | DB_TYPE_BLOB | DB_TYPE_RAW | DB_TYPE_LONG.

(** Optional integers compare as Python compares [None] and [int]s. *)
Definition opt_Z_eqb (a b : option Z) : bool :=
  match a, b with
  | None, None => true
  | Some x, Some y => Z.eqb x y
  | _, _ => false
  end.

(** [str(x)] of an optional integer inside an f-string. *)
Definition opt_Z_str (a : option Z) : string :=
  match a with None => "None" | Some z => PyStr.of_Z z end.

(** A Python call either returns or raises. *)
Inductive outcome (A : Type) : Type :=
| Returns (a : A)
| Raises (exc : string).
Arguments Raises {A} exc.

(* ===================================================================== *)
(** * The pure part of [TableMigrator] *)
(* ===================================================================== *)

Definition newline : string := String (ascii_of_nat 10) EmptyString.

(** [re.match(r'TIMESTAMP\((\d+)\)', data_type)] *)
Definition timestamp_match (data_type : string) : bool :=
  let lit := "TIMESTAMP(" in
  if prefix lit data_type then
    let rest := substring (String.length lit) (String.length data_type) data_type in
    match rest with
    | String d _ =>
        PyStr.is_digit d &&
        match PyStr.skip_digits rest with
        | String c _ => Ascii.eqb c ")"%char
        | EmptyString => false
        end
    | EmptyString => false
    end
  else false.

(** [TableMigrator.get_column_type] *)
Definition get_column_type (data_type : string) : db_type :=
  if timestamp_match data_type then DB_TYPE_TIMESTAMP
  else
    let base_type := PyStr.strip (PyStr.before_first "("%char data_type) in
    if base_type =? "NUMBER" then DB_TYPE_NUMBER
    else if base_type =? "VARCHAR2" then DB_TYPE_VARCHAR
    else if base_type =? "CHAR" then DB_TYPE_CHAR
    else if base_type =? "DATE" then DB_TYPE_DATE
    else if base_type =? "TIMESTAMP" then DB_TYPE_TIMESTAMP
    else if base_type =? "CLOB" then DB_TYPE_CLOB
    else if base_type =? "BLOB" then DB_TYPE_BLOB
    else if base_type =? "RAW" then DB_TYPE_RAW
    else if base_type =? "LONG" then DB_TYPE_LONG
    else DB_TYPE_VARCHAR.

(** [TableMigrator.convert_value] *)
Definition convert_value (value : pyval) (target_type : string) : pyval :=
  match value with
  | PyNone => PyNone
  | _ =>
      if (target_type =? "VARCHAR2") && negb (isinstance_str value)
      then PyStr (py_str value)
      else value
  end.

(** [TableMigrator.convert_row_values]: [zip] stops at the shorter of the
    row and the column list. *)
Definition convert_row_values (row : Row) (column_types : list Column) : Row :=
  map (fun vc => convert_value (fst vc) (data_type (snd vc)))
      (combine row column_types).

(** [TableMigrator.prepare_insert_statement] *)
Definition prepare_insert_statement (table_name : string)
    (column_names : list string) : string :=
  let placeholders :=
    PyStr.join ", " (map (fun i => ":" ++ PyStr.of_nat (i + 1))
                         (seq 0 (length column_names))) in
  let columns := PyStr.join ", " column_names in
  "INSERT INTO " ++ table_name ++ " (" ++ columns ++ ") VALUES ("
    ++ placeholders ++ ")".

(* ===================================================================== *)
(** * The pure part of [OracleHandler] and [SchemaValidator] *)
(* ===================================================================== *)

(** The index name chosen by [generate_index_ddl] (lines 85-90). *)
Definition new_index_name (index : IndexDefinition) (target_table : string) : string :=
  if (String.length target_table =? String.length (idx_table_name index))%nat
  then idx_name index
  else
    let base_name := PyStr.replace (idx_name index) (idx_table_name index) target_table in
    PyStr.take 30 base_name.

(** [OracleHandler.generate_index_ddl].  On values of the declared types
    nothing in the body can raise, so the [except] branch (which returns the
    empty string) is never taken. *)
Definition generate_index_ddl (index : IndexDefinition) (target_table : string) : string :=
  let columns := PyStr.join ", " (idx_columns index) in
  let ddl := "CREATE " ++ (if idx_is_unique index then "UNIQUE " else "")
             ++ "INDEX " ++ new_index_name index target_table ++ " " in
  ddl ++ "ON " ++ target_table ++ " (" ++ columns ++ ")".

(** The column clause built in the loop of [generate_create_table_sql]. *)
Definition column_definition (col : Column) : string :=
  let col_def := col_name col ++ " " ++ data_type col in
  let col_def :=
    if (data_type col =? "NUMBER") && (match data_precision col with Some _ => true | None => false end)
    then
      match data_scale col with
      | Some s =>
          if (negb (s =? 0)%Z) && (s >? 0)%Z
          then col_def ++ "(" ++ opt_Z_str (data_precision col) ++ "," ++ PyStr.of_Z s ++ ")"
          else col_def ++ "(" ++ opt_Z_str (data_precision col) ++ ")"
      | None => col_def ++ "(" ++ opt_Z_str (data_precision col) ++ ")"
      end
    else if (data_type col =? "VARCHAR2") || (data_type col =? "CHAR")
    then col_def ++ "(" ++ opt_Z_str (data_length col) ++ ")"
    else if data_type col =? "RAW"
    then
      let size := match data_length col with Some l => l | None => 2000%Z end in
      col_def ++ "(" ++ PyStr.of_Z size ++ ")"
    else col_def in
  if nullable col =? "N" then col_def ++ " NOT NULL" else col_def.

(** [sql_parts[-1] = sql_parts[-1].rstrip(',')] *)
Fixpoint rstrip_last (parts : list string) : list string :=
  match parts with
  | [] => []
  | [p] => [PyStr.rstrip_comma p]
  | p :: rest => p :: rstrip_last rest
  end.

(** [generate_create_table_sql] once the source columns are known. *)
Definition create_table_sql_of (table_name : string) (columns : list Column) : string :=
  match columns with
  | [] => ""
  | _ =>
      let sql_parts :=
        ("CREATE TABLE " ++ table_name ++ " (")
          :: map (fun col => "    " ++ column_definition col ++ ",") columns in
      let sql_parts := rstrip_last sql_parts in
      let sql_parts := (sql_parts ++ [")"])%list in
      PyStr.join newline sql_parts
  end.

(** The column comparison in the loop of [schemas_match]: nullability is not
    compared. *)
Definition columns_differ (s_col t_col : Column) : bool :=
  negb (col_name s_col =? col_name t_col)
  || negb (data_type s_col =? data_type t_col)
  || negb (opt_Z_eqb (data_length s_col) (data_length t_col))
  || negb (opt_Z_eqb (data_precision s_col) (data_precision t_col))
  || negb (opt_Z_eqb (data_scale s_col) (data_scale t_col)).


(* ===================================================================== *)
(** * The database behind a connection handle *)
(* ===================================================================== *)

(** A [Driver S] gives, for a handle whose state is an [S], the answer of
    every call that [DatabaseConnection] forwards to [oracledb].
    [execute_query] catches [oracledb.Error] and returns the empty list, so
    the query operations are total; they read the state and leave it as it
    is.  The rows of each query are given with the types of the columns the
    query selects. *)
Record Driver (S : Type) : Type := mkDriver {
  (** [connect()]: [None] when it returns [False]. *)
  connect : S -> option S;
  (** [execute_query] of the [user_tab_columns] query of [get_table_schema],
      bound to the given table name; rows in [column_id] order. *)
  query_tab_columns : S -> string -> list Column;
  (** [execute_query] of the [user_tables] count of [table_exists]:
      [result[0][0]], or [None] for an empty result. *)
  query_tables_count : S -> string -> option Z;
  (** [execute_query(count_query)] in [get_row_count]: [result[0][0]], or
      [None] for an empty result. *)
  query_count : S -> string -> option Z;
  (** [execute_query] of the index query of [get_table_indexes]: rows
      [(index_name, table_name, uniqueness, tablespace_name, columns)]. *)
  query_indexes : S -> string -> list (string * string * string * option string * string);
  (** [execute_non_query(sql)]: executes and commits; [false] on error. *)
  execute_non_query : S -> string -> bool * S;
  (** [connection.cursor().execute(query)]: the result set, or [None] when
      the call raises. *)
  cursor_execute : S -> string -> option (list Row);
  (** [cursor.executemany(stmt, rows)]; [false] when it raises. *)
  executemany : S -> string -> list Row -> bool * S;
  (** [connection.commit()]; [false] when it raises. *)
  commit : S -> bool * S;
  (** [connection.rollback()] *)
  rollback : S -> S
}.

(** A cursor opened by [_get_data_in_chunks] on the source connection. *)
Record Cursor : Type := mkCursor {
  pending : list Row;
  arraysize : nat;
  closed : bool
}.

(** Calls made on the two handles, in the order they are made.  [Tgt]
    events are calls on the target handle, [Src] events calls on the source
    handle or on a cursor of it.
    - [TgtExecuteNonQuery sql ok]: [execute_non_query(sql)] as called by
      [SchemaValidator.drop_table] and [create_table], and what it returned;
    - [TgtSetInputSizes], [TgtExecuteMany], [TgtCommit], [TgtRollback]: the
      calls of the copy on the target cursor and connection ([ok] is false
      when the call raised);
    - [SrcCursorOpen], [SrcCursorArraysize], [SrcCursorExecute],
      [SrcFetchMany size returned], [SrcCursorClose]: the calls of the chunk
      generator, [returned] being the number of rows the fetch gave;
    - [SrcGenerateIndexDdl], [TgtCreateIndex]: [generate_index_ddl(index,
      target_table)] on the source handle and [create_index(ddl)] on the
      target handle. *)
Inductive event : Type :=
| TgtExecuteNonQuery (sql : string) (ok : bool)
| TgtSetInputSizes (types : list db_type)
| TgtExecuteMany (stmt : string) (rows : list Row) (ok : bool)
| TgtCommit (ok : bool)
| TgtRollback
| SrcCursorOpen
| SrcCursorArraysize (n : nat)
| SrcCursorExecute (query : string)
| SrcFetchMany (size returned : nat)
| SrcCursorClose
| SrcGenerateIndexDdl (index : IndexDefinition) (target_table : string)
| TgtCreateIndex (ddl : string).

(** The three methods [_migrate_indexes_for_table] calls on its handles.
    They are looked up on the object at run time, so the migrator is written
    against this interface; [OracleHandler] below is the implementation of
    the repository. *)
Class IndexOps (S : Type) : Type := mkIndexOps {
  h_get_table_indexes : S -> string -> outcome (list IndexDefinition);
  h_generate_index_ddl : S -> IndexDefinition -> string -> outcome string;
  h_create_index : S -> string -> outcome bool * S
}.

(** [migration_settings] *)
Record Settings : Type := mkSettings {
  set_migrate_indexes_globally : option bool;
  set_default_chunk_size : option nat
}.

(** The [TableMigrator] object.  The schema validator that [__init__]
    builds holds the same two handles, so its methods are modelled as
    methods of the migrator acting on [source_conn] and [target_conn]. *)
Record TableMigrator (S : Type) : Type := mkMigrator {
  source_conn : S;
  target_conn : S;
  migrate_indexes_globally : bool
}.

(** An argument of a call: given, or left out at the call site. *)
Inductive supplied (A : Type) : Type :=
| Given (a : A)
| Omitted.
Arguments Omitted {A}.

(** [TableMigrator.__init__(self, source_conn, target_conn,
    migration_settings)]: none of the three parameters has a default, so a
    call that leaves one out raises [TypeError]. *)
Definition TableMigrator_init {S : Type} (source_conn target_conn : supplied S)
    (migration_settings : supplied Settings) : outcome (TableMigrator S) :=
  match source_conn, target_conn, migration_settings with
  | Given s, Given t, Given m =>
      Returns (mkMigrator s t
                 (match set_migrate_indexes_globally m with
                  | Some b => b
                  | None => false
                  end))
  | _, _, _ => Raises "TypeError"
  end.

(** What a method of the migrator leaves behind: its outcome, the object
    after the call, and the calls it made. *)
Record Run (S A : Type) : Type := mkRun {
  result : outcome A;
  final : TableMigrator S;
  trace : list event
}.

Definition M (S A : Type) : Type := TableMigrator S -> Run S A.

Definition ret {S A : Type} (a : A) : M S A :=
  fun self => mkRun (Returns a) self [].

Definition raise {S A : Type} (exc : string) : M S A :=
  fun self => mkRun (Raises exc) self [].

Definition bind {S A B : Type} (m : M S A) (k : A -> M S B) : M S B :=
  fun self =>
    let r := m self in
    match result r with
    | Returns a =>
        let r' := k a (final r) in
        mkRun (result r') (final r') (trace r ++ trace r')
    | Raises exc => mkRun (Raises exc) (final r) (trace r)
    end.

(** [try: m  except Exception as e: handler(e)] *)
Definition try_except {S A : Type} (m : M S A) (handler : string -> M S A) : M S A :=
  fun self =>
    let r := m self in
    match result r with
    | Returns a => r
    | Raises exc =>
        let r' := handler exc (final r) in
        mkRun (result r') (final r') (trace r ++ trace r')
    end.

Definition get_self {S : Type} : M S (TableMigrator S) :=
  fun self => mkRun (Returns self) self [].

(** The migrator whose target handle has become [t]. *)
Definition with_target {S : Type} (self : TableMigrator S) (t : S) : TableMigrator S :=
  mkMigrator (source_conn self) t (migrate_indexes_globally self).

Definition set_target {S : Type} (t : S) : M S unit :=
  fun self => mkRun (Returns tt) (with_target self t) [].

Definition emit {S : Type} (e : event) : M S unit :=
  fun self => mkRun (Returns tt) self [e].

Declare Scope migrator_scope.
Delimit Scope migrator_scope with mig.
Notation "x <- m ;; k" := (bind m (fun x => k))
  (at level 61, m at next level, right associativity) : migrator_scope.
Notation "m ;;; k" := (bind m (fun _ => k))
  (at level 61, right associativity) : migrator_scope.
Open Scope migrator_scope.

(** [s.split(",")] *)
Fixpoint split_commas_aux (cur : string) (s : string) : list string :=
  match s with
  | EmptyString => [cur]
  | String a s' =>
      if Ascii.eqb a ","%char
      then cur :: split_commas_aux EmptyString s'
      else split_commas_aux (cur ++ String a EmptyString) s'
  end.

Definition split_commas (s : string) : list string :=
  split_commas_aux EmptyString s.

Section Engine.

Context {S : Type} (drv : Driver S).

(* --------------------------------------------------------------------- *)
(** ** [SchemaValidator] *)
(* --------------------------------------------------------------------- *)

(** [SchemaValidator.get_table_schema(conn, table_name)] *)
Definition get_table_schema (conn : S) (table_name : string) : list Column :=
  query_tab_columns drv conn (PyStr.upper table_name).

(** [SchemaValidator.table_exists(conn, table_name)] *)
Definition table_exists (conn : S) (table_name : string) : bool :=
  match query_tables_count drv conn (PyStr.upper table_name) with
  | Some n => (n >? 0)%Z
  | None => false
  end.

(** [SchemaValidator.schemas_match(table_name)] *)
Definition schemas_match (source target : S) (table_name : string) : bool :=
  if negb (table_exists source table_name) then false
  else if negb (table_exists target table_name) then false
  else
    let source_schema := get_table_schema source table_name in
    let target_schema := get_table_schema target table_name in
    if negb (length source_schema =? length target_schema)%nat then false
    else
      forallb (fun st => negb (columns_differ (fst st) (snd st)))
              (combine source_schema target_schema).

(** [SchemaValidator.generate_create_table_sql(table_name)] *)
Definition generate_create_table_sql (source : S) (table_name : string) : string :=
  create_table_sql_of table_name (get_table_schema source table_name).

(** [target_conn.execute_non_query(sql)] as called by the schema validator. *)
Definition target_execute_non_query (sql : string) : M S bool :=
  self <- get_self ;;
  let r := execute_non_query drv (target_conn self) sql in
  set_target (snd r) ;;;
  emit (TgtExecuteNonQuery sql (fst r)) ;;;
  ret (fst r).

(** [SchemaValidator.drop_table(table_name)] *)
Definition drop_table (table_name : string) : M S bool :=
  let drop_sql := "DROP TABLE " ++ table_name in
  target_execute_non_query drop_sql.

(** [SchemaValidator.create_table(table_name)] *)
Definition create_table (table_name : string) : M S bool :=
  self <- get_self ;;
  let create_sql := generate_create_table_sql (source_conn self) table_name in
  if negb (PyStr.truthy create_sql) then ret false
  else target_execute_non_query create_sql.

(* --------------------------------------------------------------------- *)
(** ** [OracleHandler] *)
(* --------------------------------------------------------------------- *)

(** [OracleHandler.get_table_indexes(table_name)] *)
Definition get_table_indexes (conn : S) (table_name : string) : list IndexDefinition :=
  map (fun row =>
         match row with
         | (r0, r1, r2, r3, r4) =>
             mkIndex r0 r1 (split_commas r4) (r2 =? "UNIQUE") r3
         end)
      (query_indexes drv conn (PyStr.upper table_name)).

(** [OracleHandler.create_index(index_ddl)] *)
Definition create_index (conn : S) (index_ddl : string) : bool * S :=
  if negb (PyStr.truthy index_ddl) then (false, conn)
  else execute_non_query drv conn index_ddl.

(** The handle of the repository as an implementation of [IndexOps]. *)
Definition OracleHandler : IndexOps S :=
  mkIndexOps
    (fun conn table_name => Returns (get_table_indexes conn table_name))
    (fun _ index target_table => Returns (generate_index_ddl index target_table))
    (fun conn ddl => let r := create_index conn ddl in (Returns (fst r), snd r)).

End Engine.

(* ===================================================================== *)
(** * The chunk generator *)
(* ===================================================================== *)

(** [cursor.fetchmany(size)]: the next [size] rows of the result set, fewer
    when fewer are left, none when none is left. *)
Definition fetchmany (c : Cursor) (size : nat) : list Row * Cursor :=
  (firstn size (pending c),
   mkCursor (skipn size (pending c)) (arraysize c) (closed c)).

(** [cursor.close()] *)
Definition cursor_close (c : Cursor) : Cursor :=
  mkCursor (pending c) (arraysize c) true.

(** One resumption of the generator [_get_data_in_chunks] (lines 166-172):
    it fetches; on an empty fetch it leaves the loop, closes the cursor and
    is exhausted ([None]); otherwise it yields the rows and is suspended. *)
Definition chunks_next (chunk_size : nat) (c : Cursor)
  : option (list Row) * Cursor * list event :=
  let rows := fst (fetchmany c chunk_size) in
  let c' := snd (fetchmany c chunk_size) in
  match rows with
  | [] => (None, cursor_close c', [SrcFetchMany chunk_size 0; SrcCursorClose])
  | _ :: _ => (Some rows, c', [SrcFetchMany chunk_size (length rows)])
  end.

Definition inspect {A : Type} (a : A) : {b : A | a = b} := exist _ a eq_refl.

Definition yield_chunk (rows : list Row) (evs : list event)
    (rest : list (list Row) * Cursor * list event)
  : list (list Row) * Cursor * list event :=
  (rows :: fst (fst rest), snd (fst rest), (evs ++ snd rest)%list).

(** The generator run to exhaustion, as [list(gen)] does: the batches it
    yields, the cursor it leaves, and the calls it made on the cursor. *)
Equations chunks_drain (chunk_size : nat) (c : Cursor)
  : list (list Row) * Cursor * list event
  by wf (length (pending c)) lt :=
chunks_drain chunk_size c with inspect (chunks_next chunk_size c) := {
  | exist _ (None, c', evs) _ => ([], c', evs);
  | exist _ (Some rows, c', evs) Heq =>
      yield_chunk rows evs (chunks_drain chunk_size c') }.
Next Obligation.
  clear - Heq. revert Heq. unfold chunks_next, fetchmany; simpl.
  destruct chunk_size as [|k]; [discriminate|].
  destruct (pending c) as [|r rs]; [discriminate|].
  simpl. intros H. injection H as _ <- _. simpl.
  pose proof (length_skipn k rs). lia.
Qed.

Section Migrator.

Context {S : Type} (drv : Driver S) (ops : IndexOps S).

Definition lift_outcome {A : Type} (o : outcome A) : M S A :=
  match o with
  | Returns a => ret a
  | Raises exc => raise exc
  end.

(** Truthiness of an optional string ([None] and [""] are false). *)
Definition opt_truthy (q : option string) : bool :=
  match q with
  | Some s => PyStr.truthy s
  | None => false
  end.

(** [TableMigrator.get_row_count] *)
Definition get_row_count (table_name : string) (custom_query : option string) : M S Z :=
  self <- get_self ;;
  let count_query :=
    match custom_query with
    | Some q =>
        if PyStr.truthy q then "SELECT COUNT(*) FROM (" ++ q ++ ")"
        else "SELECT COUNT(*) FROM " ++ table_name
    | None => "SELECT COUNT(*) FROM " ++ table_name
    end in
  match query_count drv (source_conn self) count_query with
  | None => raise ("Row count query failed for table " ++ table_name)
  | Some n => ret n
  end.

(** The query chosen by [TableMigrator.get_data]. *)
Definition get_data_query (table_name : string) (custom_query : option string) : string :=
  match custom_query with
  | Some q => if PyStr.truthy q then q else "SELECT * FROM " ++ table_name
  | None => "SELECT * FROM " ++ table_name
  end.

(** The start of the generator [_get_data_in_chunks] (lines 162-164), run
    when the [for] statement asks for the first batch. *)
Definition chunks_start (query : string) (chunk_size : nat) : M S Cursor :=
  self <- get_self ;;
  emit SrcCursorOpen ;;;
  emit (SrcCursorArraysize chunk_size) ;;;
  emit (SrcCursorExecute query) ;;;
  match cursor_execute drv (source_conn self) query with
  | None => raise "DatabaseError"
  | Some rows => ret (mkCursor rows chunk_size false)
  end.

Definition emit_all (evs : list event) : M S unit :=
  fun self => mkRun (Returns tt) self evs.

(** [self.target_conn.cursor.executemany(insert_stmt, converted_chunk)] *)
Definition target_executemany (stmt : string) (rows : list Row) : M S unit :=
  self <- get_self ;;
  let r := executemany drv (target_conn self) stmt rows in
  set_target (snd r) ;;;
  emit (TgtExecuteMany stmt rows (fst r)) ;;;
  if fst r then ret tt else raise "DatabaseError".

(** [self.target_conn.connection.commit()] *)
Definition target_commit : M S unit :=
  self <- get_self ;;
  let r := commit drv (target_conn self) in
  set_target (snd r) ;;;
  emit (TgtCommit (fst r)) ;;;
  if fst r then ret tt else raise "DatabaseError".

(** [self.target_conn.connection.rollback()] *)
Definition target_rollback : M S unit :=
  self <- get_self ;;
  set_target (rollback drv (target_conn self)) ;;;
  emit TgtRollback.

(** The body of the [for] loop of [migrate_table] (lines 277-293): [true]
    when the batch was inserted and committed, [false] when the [except]
    branch rolled back and returned [False]. *)
Definition insert_chunk (insert_stmt : string) (column_types : list Column)
    (chunk : list Row) : M S bool :=
  try_except
    (let converted_chunk := map (fun row => convert_row_values row column_types) chunk in
     target_executemany insert_stmt converted_chunk ;;;
     target_commit ;;;
     ret true)
    (fun _ => target_rollback ;;; ret false).

(** The [for chunk in data_chunks] loop of [migrate_table] (lines 275-293)
    over the suspended generator.  [Some n] is the value of
    [rows_processed] when the generator is exhausted; [None] is the
    [return False] of the [except] branch. *)
Equations copy_chunks (insert_stmt : string) (column_types : list Column)
    (chunk_size : nat) (c : Cursor) (rows_processed : nat) : M S (option nat)
  by wf (length (pending c)) lt :=
copy_chunks insert_stmt column_types chunk_size c rows_processed
  with inspect (chunks_next chunk_size c) := {
  | exist _ (None, c', evs) _ => emit_all evs ;;; ret (Some rows_processed);
  | exist _ (Some chunk, c', evs) Heq =>
      emit_all evs ;;;
      ok <- insert_chunk insert_stmt column_types chunk ;;
      if ok
      then copy_chunks insert_stmt column_types chunk_size c'
                       (rows_processed + length chunk)
      else ret None }.
Next Obligation.
  clear - Heq. revert Heq. unfold chunks_next, fetchmany; simpl.
  destruct chunk_size as [|k]; [discriminate|].
  destruct (pending c) as [|r rs]; [discriminate|].
  simpl. intros H. injection H as _ <- _. simpl.
  pose proof (length_skipn k rs). lia.
Qed.

(** The body of the [for index in indexes] loop (lines 325-344): [true]
    when [success] is left as it is, [false] when it is set to [False]. *)
Definition migrate_one_index (index : IndexDefinition) (target_table : string) : M S bool :=
  try_except
    (self <- get_self ;;
     emit (SrcGenerateIndexDdl index target_table) ;;;
     ddl <- lift_outcome (h_generate_index_ddl (source_conn self) index target_table) ;;
     if negb (PyStr.truthy ddl) then ret false
     else
       emit (TgtCreateIndex ddl) ;;;
       let r := h_create_index (target_conn self) ddl in
       set_target (snd r) ;;;
       created <- lift_outcome (fst r) ;;
       ret created)
    (fun _ => ret false).

Fixpoint migrate_index_loop (indexes : list IndexDefinition) (target_table : string)
    (success : bool) : M S bool :=
  match indexes with
  | [] => ret success
  | index :: rest =>
      ok <- migrate_one_index index target_table ;;
      migrate_index_loop rest target_table (if ok then success else false)
  end.

(** [TableMigrator._migrate_indexes_for_table] *)
Definition _migrate_indexes_for_table (source_table target_table : string) : M S bool :=
  try_except
    (self <- get_self ;;
     indexes <- lift_outcome (h_get_table_indexes (source_conn self) source_table) ;;
     match indexes with
     | [] => ret true
     | _ :: _ => migrate_index_loop indexes target_table true
     end)
    (fun _ => ret false).

(** [TableMigrator.migrate_table], lines 246-303: the row count, the copy
    and the index replication. *)
Definition migrate_table_copy (table_name mode : string) (custom_query : option string)
    (chunk_size : nat) : M S bool :=
  let use_custom := (mode =? "custom") && opt_truthy custom_query in
  counted <- try_except
               (row_count <- (if use_custom
                              then get_row_count table_name custom_query
                              else get_row_count table_name None) ;;
                ret (Some row_count))
               (fun _ => ret None) ;;
  match counted with
  | None => ret false
  | Some row_count =>
      if (row_count =? 0)%Z then ret true
      else
        self <- get_self ;;
        let column_types := get_table_schema drv (source_conn self) table_name in
        let column_names := map col_name column_types in
        let insert_stmt := prepare_insert_statement table_name column_names in
        let input_types := map (fun col => get_column_type (data_type col)) column_types in
        emit (TgtSetInputSizes input_types) ;;;
        let query := if use_custom then custom_query else None in
        c <- chunks_start (get_data_query table_name query) chunk_size ;;
        copied <- copy_chunks insert_stmt column_types chunk_size c 0 ;;
        match copied with
        | None => ret false
        | Some rows_processed =>
            self <- get_self ;;
            (if migrate_indexes_globally self
             then _migrate_indexes_for_table table_name table_name
             else ret true) ;;;
            ret true
        end
  end.

(** [TableMigrator.migrate_table], lines 240-244, followed by the rest. *)
Definition migrate_table_create (table_name mode : string) (custom_query : option string)
    (chunk_size : nat) : M S bool :=
  created <- create_table drv table_name ;;
  if negb created then ret false
  else migrate_table_copy table_name mode custom_query chunk_size.

(** [TableMigrator.migrate_table] *)
Definition migrate_table (table_name mode : string) (custom_query : option string)
    (existing_table_behavior : string) (chunk_size : nat) : M S bool :=
  self <- get_self ;;
  let table_exists := table_exists drv (target_conn self) table_name in
  let schemas_match :=
    if table_exists
    then schemas_match drv (source_conn self) (target_conn self) table_name
    else false in
  if table_exists then
    if existing_table_behavior =? "drop_and_recreate" then
      dropped <- drop_table drv table_name ;;
      if negb dropped then ret false
      else migrate_table_create table_name mode custom_query chunk_size
    else if existing_table_behavior =? "append_if_compatible" then
      if negb schemas_match then ret false
      else migrate_table_copy table_name mode custom_query chunk_size
    else ret false
  else migrate_table_create table_name mode custom_query chunk_size.

(* --------------------------------------------------------------------- *)
(** ** [main] *)
(* --------------------------------------------------------------------- *)

(** One entry of the [tables] list of the configuration file. *)
Record TableConfig : Type := mkTableConfig {
  tc_name : string;
  tc_mode : option string;
  tc_query : option string;
  tc_existing_table_behavior : option string;
  tc_chunk_size : option nat
}.

(** The loaded configuration file. *)
Record Config : Type := mkConfig {
  cfg_tables : option (list TableConfig);
  cfg_default_chunk_size : option nat
}.

(** [ConfigLoader.get_tables_config] *)
Definition get_tables_config (config : Config) : list TableConfig :=
  match cfg_tables config with Some l => l | None => [] end.

(** [ConfigLoader.get_default_chunk_size] *)
Definition get_default_chunk_size (config : Config) : nat :=
  match cfg_default_chunk_size config with Some n => n | None => 10000 end.

(** [ConfigLoader.get_table_config] *)
Definition get_table_config (config : Config) (table_name : string) : option TableConfig :=
  find (fun table => tc_name table =? table_name) (get_tables_config config).

(** [ConfigLoader.get_table_chunk_size] *)
Definition get_table_chunk_size (config : Config) (table_name : string) : nat :=
  let default_size := get_default_chunk_size config in
  match get_table_config config table_name with
  | Some table_config =>
      match tc_chunk_size table_config with
      | Some n => n
      | None => default_size
      end
  | None => default_size
  end.

(** The [for table_config in tables_config] loop of [main] (lines 69-81). *)
Fixpoint main_loop (config : Config) (tables_config : list TableConfig)
    (success_count fail_count : nat) : M S (nat * nat) :=
  match tables_config with
  | [] => ret (success_count, fail_count)
  | table_config :: rest =>
      let table_name := tc_name table_config in
      let mode := match tc_mode table_config with Some m => m | None => "full" end in
      let custom_query := if mode =? "custom" then tc_query table_config else None in
      let existing_table_behavior :=
        match tc_existing_table_behavior table_config with
        | Some b => b
        | None => "drop_and_recreate"
        end in
      let chunk_size := get_table_chunk_size config table_name in
      ok <- migrate_table table_name mode custom_query existing_table_behavior chunk_size ;;
      if ok
      then main_loop config rest (success_count + 1) fail_count
      else main_loop config rest success_count (fail_count + 1)
  end.

(** What a run of [main] shows: the value handed to [sys.exit], the counts
    of the summary panel when it is printed, and the calls made on the two
    handles. *)
Record MainRun : Type := mkMainRun {
  exit_code : Z;
  summary : option (nat * nat);
  main_trace : list event
}.

(** [main].  [config] is the outcome of loading the configuration file;
    [source_db] and [target_db] are the two handles before [connect()].
    The [finally] block only disconnects and does not change the value
    returned. *)
Definition main (config : outcome Config) (source_db target_db : S) : MainRun :=
  match config with
  | Raises _ => mkMainRun 1 None []
  | Returns config =>
      match connect drv source_db with
      | None => mkMainRun 1 None []
      | Some source_db =>
          match connect drv target_db with
          | None => mkMainRun 1 None []
          | Some target_db =>
              (* migrator = TableMigrator(source_db, target_db) *)
              match TableMigrator_init (Given source_db) (Given target_db) Omitted with
              | Raises _ => mkMainRun 1 None []
              | Returns migrator =>
                  let tables_config := get_tables_config config in
                  match tables_config with
                  | [] => mkMainRun 0 None []
                  | _ :: _ =>
                      let r := main_loop config tables_config 0 0 migrator in
                      match result r with
                      | Raises _ => mkMainRun 1 None (trace r)
                      | Returns (success_count, fail_count) =>
                          mkMainRun (if (fail_count =? 0)%nat then 0 else 1)
                                    (Some (success_count, fail_count)) (trace r)
                      end
                  end
              end
          end
      end
  end.

End Migrator.

(* ===================================================================== *)
(** * The substitution of the index rename, as the specification words it *)
(* ===================================================================== *)

(** "Substitute the owning-table substring within the index name with the
    target table name": reading the name from the left, an occurrence of
    [old] is replaced by [new], and a character at which [old] does not
    occur is kept.  [old] is not empty. *)
Inductive substituted (old new : list ascii) : list ascii -> list ascii -> Prop :=
| subst_end : substituted old new [] []
| subst_here s r :
    old <> [] ->
    substituted old new s r ->
    substituted old new (old ++ s) (new ++ r)
| subst_keep c s r :
    PyStr.starts_with old (c :: s) = false ->
    substituted old new s r ->
    substituted old new (c :: s) (c :: r).

(** [ceil(n / k)] *)
Definition ceil_div (n k : nat) : nat := (n + k - 1) / k.

(* ===================================================================== *)
(** * A small scripted database *)
(* ===================================================================== *)

(** A concrete [Driver], used to run the migrator on explicit inputs.  Its
    dictionary views and query answers are tables looked up by name or by
    SQL text; a non-query statement succeeds when the script lists it, and
    leaves the dictionary the script gives for it (a DROP TABLE also empties
    the rows).  The rows held are those of the one table under migration:
    [executemany] adds to the uncommitted rows, [commit] makes them
    committed, [rollback] discards them. *)
Module Toy.

Fixpoint assoc {A : Type} (key : string) (l : list (string * A)) : option A :=
  match l with
  | [] => None
  | (k, v) :: rest => if k =? key then Some v else assoc key rest
  end.

(** The dictionary views [user_tab_columns] and [user_tables]. *)
Record catalog : Type := mkCatalog {
  tab_columns : list (string * list Column);
  tables : list string
}.

Record db : Type := mkDb {
  reachable : bool;
  dictionary : catalog;
  counts : list (string * Z);
  result_sets : list (string * list Row);
  indexes : list (string * list (string * string * string * option string * string));
  script : list (string * catalog);
  committed : list Row;
  uncommitted : list Row;
  inserts_left : nat
}.

Definition with_dictionary (d : db) (c : catalog) : db :=
  mkDb (reachable d) c (counts d) (result_sets d) (indexes d) (script d)
       (committed d) (uncommitted d) (inserts_left d).

Definition with_rows (d : db) (committed' uncommitted' : list Row) (left : nat) : db :=
  mkDb (reachable d) (dictionary d) (counts d) (result_sets d)
       (indexes d) (script d) committed' uncommitted' left.

Definition driver : Driver db :=
  mkDriver
    (fun d => if reachable d then Some d else None)
    (fun d table_name =>
       match assoc table_name (tab_columns (dictionary d)) with
       | Some cols => cols
       | None => []
       end)
    (fun d table_name =>
       Some (if existsb (String.eqb table_name) (tables (dictionary d)) then 1%Z else 0%Z))
    (fun d sql => assoc sql (counts d))
    (fun d table_name =>
       match assoc table_name (indexes d) with Some rows => rows | None => [] end)
    (fun d sql =>
       match assoc sql (script d) with
       | Some c =>
           if prefix "DROP TABLE " sql
           then (true, with_rows (with_dictionary d c) [] [] (inserts_left d))
           else (true, with_dictionary d c)
       | None => (false, d)
       end)
    (fun d sql => assoc sql (result_sets d))
    (fun d stmt rows =>
       match inserts_left d with
       | 0 => (false, d)
       | Datatypes.S n => (true, with_rows d (committed d) (uncommitted d ++ rows) n)
       end)
    (fun d => (true, with_rows d (committed d ++ uncommitted d) [] (inserts_left d)))
    (fun d => with_rows d (committed d) [] (inserts_left d)).

End Toy.

(* ===================================================================== *)
(** * Concrete databases *)
(* ===================================================================== *)

Module Scenario.

Import Toy.

(** A source table [PEOPLE(ID NUMBER(10) NOT NULL, NAME VARCHAR2(50))] with
    three rows and one index. *)
Definition people_columns : list Column :=
  [mkColumn "ID" "NUMBER" (Some 22%Z) (Some 10%Z) (Some 0%Z) "N";
   mkColumn "NAME" "VARCHAR2" (Some 50%Z) None None "Y"].

Definition people_rows : list Row :=
  [[PyInt 1; PyStr "Ann"]; [PyInt 2; PyInt 42]; [PyInt 3; PyNone]].

Definition people_create_sql : string :=
  "CREATE TABLE PEOPLE (" ++ newline ++ "    ID NUMBER(10) NOT NULL," ++ newline
    ++ "    NAME VARCHAR2(50)" ++ newline ++ ")".

Definition people_catalog : catalog :=
  mkCatalog [("PEOPLE", people_columns)] ["PEOPLE"].

Definition source : db :=
  mkDb true people_catalog
       [("SELECT COUNT(*) FROM PEOPLE", 3%Z)]
       [("SELECT * FROM PEOPLE", people_rows)]
       [("PEOPLE", [("IDX_PEOPLE_NAME", "PEOPLE", "NONUNIQUE", None, "NAME");
                    ("PEOPLE_PK", "PEOPLE", "UNIQUE", None, "ID")])]
       [] people_rows [] 0.

(** A target without the table, on which CREATE TABLE and DROP TABLE
    succeed and [inserts] calls of [executemany] succeed. *)
Definition target_absent (inserts : nat) : db :=
  mkDb true (mkCatalog [] []) [] [] []
       [(people_create_sql, people_catalog);
        ("DROP TABLE PEOPLE", mkCatalog [] [])]
       [] [] inserts.

(** A target that has the table with the same columns. *)
Definition target_same (inserts : nat) : db :=
  mkDb true people_catalog [] [] []
       [(people_create_sql, people_catalog);
        ("DROP TABLE PEOPLE", mkCatalog [] []);
        ("CREATE INDEX IDX_PEOPLE_NAME ON PEOPLE (NAME)", people_catalog)]
       [[PyInt 0; PyStr "Zoe"]] [] inserts.

(** A target that has the table with a shorter [NAME] column and one row. *)
Definition target_narrow : db :=
  mkDb true
       (mkCatalog
          [("PEOPLE",
            [mkColumn "ID" "NUMBER" (Some 22%Z) (Some 10%Z) (Some 0%Z) "N";
             mkColumn "NAME" "VARCHAR2" (Some 20%Z) None None "Y"])]
          ["PEOPLE"])
       [("SELECT COUNT(*) FROM PEOPLE", 1%Z)] [] []
       [(people_create_sql, people_catalog);
        ("DROP TABLE PEOPLE", mkCatalog [] [])]
       [[PyInt 0; PyStr "Zoe"]] [] 5.

(** A source table [NOTES] whose only column was created with the quoted
    lower-case name ["body"], and a target on which the CREATE TABLE
    statement generated for it succeeds; as the statement names the column
    without quotes, the target dictionary lists it as [BODY]. *)
Definition notes_create_sql : string :=
  "CREATE TABLE NOTES (" ++ newline ++ "    body VARCHAR2(10)" ++ newline ++ ")".

Definition notes_source : db :=
  mkDb true
       (mkCatalog [("NOTES", [mkColumn "body" "VARCHAR2" (Some 10%Z) None None "Y"])]
                  ["NOTES"])
       [("SELECT COUNT(*) FROM NOTES", 1%Z)]
       [("SELECT * FROM NOTES", [[PyStr "x"]])]
       [] [] [[PyStr "x"]] [] 0.

Definition notes_target : db :=
  mkDb true (mkCatalog [] []) [] [] []
       [(notes_create_sql,
         mkCatalog [("NOTES", [mkColumn "BODY" "VARCHAR2" (Some 10%Z) None None "Y"])]
                   ["NOTES"])]
       [] [] 5.

Definition migrator (source target : db) (indexes : bool) : TableMigrator db :=
  mkMigrator source target indexes.

(** [migrate_table] with the handle of the repository on the scripted
    database. *)
Definition migrate (table_name mode : string) (custom_query : option string)
    (behavior : string) (chunk_size : nat) : M db bool :=
  migrate_table driver (OracleHandler driver) table_name mode custom_query
                behavior chunk_size.

End Scenario.

(* ===================================================================== *)
(** * Properties of runs used in the statements below *)
(* ===================================================================== *)

Section RunProperties.

Context {S : Type} (drv : Driver S) (ops : IndexOps S).

(** Every call recorded by [m] satisfies [P]. *)
Definition traces {A : Type} (P : event -> Prop) (m : M S A) : Prop :=
  forall self, Forall P (trace (m self)).

(** [m] always returns, it never raises. *)
Definition total {A : Type} (m : M S A) : Prop :=
  forall self, exists a, result (m self) = Returns a.

(** A run with the calls [evs] made before it. *)
Definition preceded_by {A : Type} (evs : list event) (r : Run S A) : Run S A :=
  mkRun (result r) (final r) (evs ++ trace r).

(** The migrator after [execute_non_query(sql)] on the target handle. *)
Definition after_non_query (self : TableMigrator S) (sql : string) : TableMigrator S :=
  with_target self (snd (execute_non_query drv (target_conn self) sql)).

(** "CREATE the target from the source schema", then copy: the statement
    generated from the source columns is executed on the target; when it
    succeeds the run goes on with the copy, when it fails (or when the
    source has no columns to create the table from) the run ends there
    with [False]. *)
Definition creates_from_source (table_name mode : string) (custom_query : option string)
    (chunk_size : nat) (self : TableMigrator S) (run : Run S bool) : Prop :=
  let create_sql := generate_create_table_sql drv (source_conn self) table_name in
  if PyStr.truthy create_sql then
    if fst (execute_non_query drv (target_conn self) create_sql) then
      run = preceded_by [TgtExecuteNonQuery create_sql true]
              (migrate_table_copy drv ops table_name mode custom_query chunk_size
                 (after_non_query self create_sql))
    else
      run = mkRun (Returns false) (after_non_query self create_sql)
                  [TgtExecuteNonQuery create_sql false]
  else run = mkRun (Returns false) self [].

Definition is_non_query (e : event) : Prop :=
  match e with TgtExecuteNonQuery _ _ => True | _ => False end.

(** The pieces of [migrate_table]'s copy stage, named. *)

Definition uses_custom (mode : string) (custom_query : option string) : bool :=
  (mode =? "custom") && opt_truthy custom_query.

(** The query whose count [migrate_table] asks for. *)
Definition copy_count_query (table_name mode : string)
    (custom_query : option string) : string :=
  match custom_query with
  | Some q =>
      if uses_custom mode custom_query
      then "SELECT COUNT(*) FROM (" ++ q ++ ")"
      else "SELECT COUNT(*) FROM " ++ table_name
  | None => "SELECT COUNT(*) FROM " ++ table_name
  end.

(** The query whose rows [migrate_table] copies. *)
Definition copy_query (table_name mode : string) (custom_query : option string) : string :=
  get_data_query table_name
    (if uses_custom mode custom_query then custom_query else None).

(** [column_types] of line 257. *)
Definition copy_columns (self : TableMigrator S) (table_name : string) : list Column :=
  get_table_schema drv (source_conn self) table_name.

(** [insert_stmt] of line 259. *)
Definition copy_statement (self : TableMigrator S) (table_name : string) : string :=
  prepare_insert_statement table_name (map col_name (copy_columns self table_name)).

(** The calls made between the row count and the first fetch. *)
Definition copy_prologue (self : TableMigrator S) (table_name mode : string)
    (custom_query : option string) (chunk_size : nat) : list event :=
  [TgtSetInputSizes
     (map (fun col => get_column_type (data_type col)) (copy_columns self table_name));
   SrcCursorOpen;
   SrcCursorArraysize chunk_size;
   SrcCursorExecute (copy_query table_name mode custom_query)].

(** The end of [migrate_table] (lines 295-303) after the loop [loop]. *)
Definition copy_epilogue (table_name : string) (loop : Run S (option nat)) : Run S bool :=
  match result loop with
  | Raises exc => mkRun (Raises exc) (final loop) (trace loop)
  | Returns None => mkRun (Returns false) (final loop) (trace loop)
  | Returns (Some _) =>
      if migrate_indexes_globally (final loop) then
        let ix := _migrate_indexes_for_table ops table_name table_name (final loop) in
        match result ix with
        | Returns _ => mkRun (Returns true) (final ix) (trace loop ++ trace ix)
        | Raises exc => mkRun (Raises exc) (final ix) (trace loop ++ trace ix)
        end
      else mkRun (Returns true) (final loop) (trace loop)
  end.

(** The calls the copy stage can make, for the statement [stmt], the
    column list [cols] and the result set [rows] of the copied query. *)
Inductive copy_event (stmt : string) (cols : list Column) (rows : list Row)
  : event -> Prop :=
| ce_sizes types : copy_event stmt cols rows (TgtSetInputSizes types)
| ce_open : copy_event stmt cols rows SrcCursorOpen
| ce_arraysize n : copy_event stmt cols rows (SrcCursorArraysize n)
| ce_execute q : copy_event stmt cols rows (SrcCursorExecute q)
| ce_fetch size returned : copy_event stmt cols rows (SrcFetchMany size returned)
| ce_close : copy_event stmt cols rows SrcCursorClose
| ce_insert chunk ok :
    incl chunk rows ->
    copy_event stmt cols rows
      (TgtExecuteMany stmt (map (fun row => convert_row_values row cols) chunk) ok)
| ce_commit ok : copy_event stmt cols rows (TgtCommit ok)
| ce_rollback : copy_event stmt cols rows TgtRollback
| ce_generate index target_table :
    copy_event stmt cols rows (SrcGenerateIndexDdl index target_table)
| ce_create_index ddl : copy_event stmt cols rows (TgtCreateIndex ddl).

(** The result set of the copied query ([[]] when the query raises). *)
Definition copy_rows (self : TableMigrator S) (table_name mode : string)
    (custom_query : option string) : list Row :=
  match cursor_execute drv (source_conn self) (copy_query table_name mode custom_query) with
  | Some rows => rows
  | None => []
  end.

(** A call that is neither the close of the cursor, nor a rollback, nor a
    fetch that returned no rows. *)
Definition quiet (e : event) : Prop :=
  e <> SrcCursorClose /\ e <> TgtRollback
  /\ forall size, e <> SrcFetchMany size 0.

(** A call that is neither the close of the cursor nor a fetch that
    returned no rows. *)
Definition no_close (e : event) : Prop :=
  e <> SrcCursorClose /\ forall size, e <> SrcFetchMany size 0.

(** The two shapes of the calls of a run: an empty fetch followed at once
    by the close, with no other close, empty fetch or rollback around them;
    or no close and no empty fetch at all, in which case a rollback means
    that the run returned [False]. *)
Definition close_discipline {A : Type} (failed : A -> Prop) (run : Run S A) : Prop :=
  (exists body rest size,
      trace run = (body ++ [SrcFetchMany size 0; SrcCursorClose] ++ rest)%list
      /\ Forall quiet body /\ Forall quiet rest)
  \/ (Forall no_close (trace run)
      /\ (In TgtRollback (trace run) ->
          exists a, result run = Returns a /\ failed a)).


(** The DDL statements handed to [create_index], in call order. *)
Definition created (t : list event) : list string :=
  flat_map (fun e => match e with
                     | TgtCreateIndex ddl => [ddl]
                     | _ => []
                     end) t.


End RunProperties.

(* ===================================================================== *)
(** * Further notions used to describe the code *)
(* ===================================================================== *)

(** The calls the copy loop makes for a batch that is inserted and
    committed: the fetch that gave it, [executemany] of its converted rows,
    and the commit. *)
Definition batch_events (stmt : string) (cols : list Column) (k : nat)
    (chunk : list Row) : list event :=
  [SrcFetchMany k (length chunk);
   TgtExecuteMany stmt (map (fun row => convert_row_values row cols) chunk) true;
   TgtCommit true].

(** The rows handed to an [executemany] that succeeded and was followed at
    once by a commit that succeeded. *)
Fixpoint committed_rows (t : list event) : list Row :=
  match t with
  | [] => []
  | TgtExecuteMany _ rows true :: t' =>
      match t' with
      | TgtCommit true :: _ => (rows ++ committed_rows t')%list
      | _ => committed_rows t'
      end
  | _ :: t' => committed_rows t'
  end.

Definition is_execute_many (e : event) : Prop :=
  match e with TgtExecuteMany _ _ _ => True | _ => False end.

Definition is_index_event (e : event) : Prop :=
  match e with
  | SrcGenerateIndexDdl _ _ => True
  | TgtCreateIndex _ => True
  | _ => False
  end.

(** The fields of a column that [schemas_match] compares. *)
Definition column_key (col : Column)
  : string * string * option Z * option Z * option Z :=
  (col_name col, data_type col, data_length col, data_precision col, data_scale col).

(** [old in s]: [old] occurs somewhere in [s]. *)
Fixpoint occurs_at_some_position (old s : list ascii) : bool :=
  match s with
  | [] => PyStr.starts_with old []
  | _ :: s' => PyStr.starts_with old s || occurs_at_some_position old s'
  end.

(** [c in s] for a character. *)
Fixpoint has_char (c : ascii) (s : string) : bool :=
  match s with
  | EmptyString => false
  | String a s' => Ascii.eqb a c || has_char c s'
  end.

(** [TableMigrator.get_column_names] *)
Definition get_column_names {S : Type} (drv : Driver S) (self : TableMigrator S)
    (table_name : string) : list string :=
  let schema := get_table_schema drv (source_conn self) table_name in
  map col_name schema.

Section TableOutcomes.

Context {S : Type} (drv : Driver S) (ops : IndexOps S).

(** The call of [migrate_table] that the loop of [main] makes for one entry
    of the configuration (lines 70-78). *)
Definition migrate_configured (config : Config) (table_config : TableConfig) : M S bool :=
  let table_name := tc_name table_config in
  let mode := match tc_mode table_config with Some m => m | None => "full" end in
  let custom_query := if mode =? "custom" then tc_query table_config else None in
  let existing_table_behavior :=
    match tc_existing_table_behavior table_config with
    | Some b => b
    | None => "drop_and_recreate"
    end in
  let chunk_size := get_table_chunk_size config table_name in
  migrate_table drv ops table_name mode custom_query existing_table_behavior chunk_size.

(** What [migrate_table] gives for each configured table when the tables
    are taken one after the other starting from [self], up to and including
    the first one that raises. *)
Fixpoint table_outcomes (config : Config) (tables_config : list TableConfig)
    (self : TableMigrator S) : list (outcome bool) :=
  match tables_config with
  | [] => []
  | table_config :: rest =>
      let r := migrate_configured config table_config self in
      match result r with
      | Returns b => Returns b :: table_outcomes config rest (final r)
      | Raises exc => [Raises exc]
      end
  end.

Definition returned (b : bool) (o : outcome bool) : bool :=
  match o with
  | Returns b' => Bool.eqb b b'
  | Raises _ => false
  end.

Definition raised {A : Type} (o : outcome A) : bool :=
  match o with Returns _ => false | Raises _ => true end.

End TableOutcomes.

(* ===================================================================== *)
(** * [DatabaseConnection] over the [oracledb] library *)
(* ===================================================================== *)

(** [db/connection.py].  The library is external: [Oracledb W] gives, for a
    world [W] (server and session), what each library call does.  A call
    either succeeds or raises [oracledb.Error] ([false], or [None] for
    [fetchall]); these are the only exceptions the library raises. *)
Module Connection.

Definition params : Type := list (string * pyval).

Record Oracledb (W : Type) : Type := mkOracledb {
  (** [oracledb.connect(user=..., password=..., dsn=...)] *)
  ora_connect : W -> option string -> option string -> option string -> bool * W;
  (** [connection.cursor()] *)
  ora_cursor : W -> bool * W;
  (** [cursor.execute(sql)] and [cursor.execute(sql, params)] *)
  ora_execute : W -> string -> option params -> bool * W;
  (** [cursor.fetchall()] *)
  ora_fetchall : W -> option (list Row) * W;
  (** [connection.commit()] *)
  ora_commit : W -> bool * W;
  (** [cursor.close()] *)
  ora_cursor_close : W -> bool * W;
  (** [connection.close()] *)
  ora_connection_close : W -> bool * W
}.

(** The library calls, with whether they succeeded. *)
Inductive call : Type :=
| CallConnect (user password dsn : option string) (ok : bool)
| CallCursor (ok : bool)
| CallExecute (sql : string) (bound : option params) (ok : bool)
| CallFetchall (ok : bool)
| CallCommit (ok : bool)
| CallCursorClose (ok : bool)
| CallConnectionClose (ok : bool).

(** The attributes of a [DatabaseConnection] object; [connection] and
    [cursor] tell whether the attribute holds an object or [None]. *)
Record handle : Type := mkHandle {
  username : option string;
  password : option string;
  dsn : option string;
  schema : option string;
  connection : bool;
  cursor : bool
}.

(** A configuration dictionary and its [get]. *)
Definition config : Type := list (string * option string).

Fixpoint get (key : string) (c : config) : option string :=
  match c with
  | [] => None
  | (k, v) :: rest => if k =? key then v else get key rest
  end.

(** [ConfigLoader.get_source_db_config] and [get_target_db_config]: the
    three values come from the environment. *)
Definition get_source_db_config (getenv : string -> option string) : config :=
  [("username", getenv "SOURCE_DB_USERNAME");
   ("password", getenv "SOURCE_DB_PASSWORD");
   ("dsn", getenv "SOURCE_DB_DSN")].

Definition get_target_db_config (getenv : string -> option string) : config :=
  [("username", getenv "TARGET_DB_USERNAME");
   ("password", getenv "TARGET_DB_PASSWORD");
   ("dsn", getenv "TARGET_DB_DSN")].

(** [DatabaseConnection.__init__] *)
Definition init (c : config) : handle :=
  mkHandle (get "username" c) (get "password" c) (get "dsn" c) (get "schema" c)
           false false.

(** What a method leaves behind. *)
Record step (W A : Type) : Type := mkStep {
  value : outcome A;
  handle_after : handle;
  world_after : W;
  calls : list call
}.

Definition set_connection (h : handle) : handle :=
  mkHandle (username h) (password h) (dsn h) (schema h) true (cursor h).

Definition set_cursor (h : handle) : handle :=
  mkHandle (username h) (password h) (dsn h) (schema h) (connection h) true.

(** Truthiness of a parameter dictionary: [None] and [{}] are false. *)
Definition params_truthy (p : option params) : bool :=
  match p with
  | Some (_ :: _) => true
  | _ => false
  end.

Section Methods.

Context {W : Type} (lib : Oracledb W).

(** [DatabaseConnection.connect] *)
Definition connect (h : handle) (w : W) : step W bool :=
  let r1 := ora_connect lib w (username h) (password h) (dsn h) in
  let c1 := CallConnect (username h) (password h) (dsn h) (fst r1) in
  if negb (fst r1) then mkStep (Returns false) h (snd r1) [c1]
  else
    let h1 := set_connection h in
    let r2 := ora_cursor lib (snd r1) in
    if negb (fst r2) then mkStep (Returns false) h1 (snd r2) [c1; CallCursor false]
    else
      let h2 := set_cursor h1 in
      if opt_truthy (schema h) then
        let sql := "ALTER SESSION SET CURRENT_SCHEMA = "
                   ++ match schema h with Some s => s | None => "None" end in
        let r3 := ora_execute lib (snd r2) sql None in
        mkStep (Returns (fst r3)) h2 (snd r3)
               [c1; CallCursor true; CallExecute sql None (fst r3)]
      else mkStep (Returns true) h2 (snd r2) [c1; CallCursor true].

(** [DatabaseConnection.disconnect] *)
Definition disconnect (h : handle) (w : W) : step W unit :=
  let r1 := if cursor h then ora_cursor_close lib w else (true, w) in
  let calls1 := if cursor h then [CallCursorClose (fst r1)] else [] in
  if negb (fst r1) then mkStep (Returns tt) h (snd r1) calls1
  else if connection h then
    let r2 := ora_connection_close lib (snd r1) in
    mkStep (Returns tt) h (snd r2) (calls1 ++ [CallConnectionClose (fst r2)])
  else mkStep (Returns tt) h (snd r1) calls1.

(** The argument of [cursor.execute]: the parameters are passed only when
    they are truthy. *)
Definition bound_params (p : option params) : option params :=
  if params_truthy p then p else None.

(** [DatabaseConnection.execute_query].  With [self.cursor] still [None]
    the attribute lookup raises [AttributeError], which the [except
    oracledb.Error] clause does not catch. *)
Definition execute_query (h : handle) (w : W) (query : string) (p : option params)
  : step W (list Row) :=
  if negb (cursor h) then mkStep (Raises "AttributeError") h w []
  else
    let r1 := ora_execute lib w query (bound_params p) in
    let c1 := CallExecute query (bound_params p) (fst r1) in
    if negb (fst r1) then mkStep (Returns []) h (snd r1) [c1]
    else
      let r2 := ora_fetchall lib (snd r1) in
      match fst r2 with
      | Some results => mkStep (Returns results) h (snd r2) [c1; CallFetchall true]
      | None => mkStep (Returns []) h (snd r2) [c1; CallFetchall false]
      end.

(** [DatabaseConnection.execute_non_query] *)
Definition execute_non_query (h : handle) (w : W) (query : string) (p : option params)
  : step W bool :=
  if negb (cursor h) then mkStep (Raises "AttributeError") h w []
  else
    let r1 := ora_execute lib w query (bound_params p) in
    let c1 := CallExecute query (bound_params p) (fst r1) in
    if negb (fst r1) then mkStep (Returns false) h (snd r1) [c1]
    else if negb (connection h) then mkStep (Raises "AttributeError") h (snd r1) [c1]
    else
      let r2 := ora_commit lib (snd r1) in
      mkStep (Returns (fst r2)) h (snd r2) [c1; CallCommit (fst r2)].

(** What [main] does with one handle around its work (lines 46-56 and the
    [finally] block): build it from the configuration, connect, and
    disconnect at the end. *)
Definition connect_then_disconnect (c : config) (w : W) : bool * list call :=
  let s1 := connect (init c) w in
  let s2 := disconnect (handle_after s1) (world_after s1) in
  (match value s1 with Returns b => b | Raises _ => false end,
   (calls s1 ++ calls s2)%list).

End Methods.

Definition is_connect_ok (c : call) : bool :=
  match c with CallConnect _ _ _ true => true | _ => false end.

Definition is_connection_close (c : call) : bool :=
  match c with CallConnectionClose _ => true | _ => false end.

Definition is_cursor_close_failed (c : call) : bool :=
  match c with CallCursorClose false => true | _ => false end.

Definition is_execute (c : call) : bool :=
  match c with CallExecute _ _ _ => true | _ => false end.

Definition is_commit (c : call) : bool :=
  match c with CallCommit _ => true | _ => false end.

(** A library for concrete runs: every call succeeds except those the two
    lists name ([fail_execute] by SQL text, [fail_calls] by position in the
    sequence of calls made so far). *)
Record world : Type := mkWorld {
  made : nat;
  fail_calls : list nat;
  fail_execute : list string;
  data : list Row
}.

Definition tick (w : world) : bool * world :=
  (negb (existsb (Nat.eqb (made w)) (fail_calls w)),
   mkWorld (Datatypes.S (made w)) (fail_calls w) (fail_execute w) (data w)).

Definition scripted : Oracledb world :=
  mkOracledb
    (fun w _ _ _ => tick w)
    tick
    (fun w sql _ =>
       (fst (tick w) && negb (existsb (String.eqb sql) (fail_execute w)), snd (tick w)))
    (fun w => (if fst (tick w) then Some (data w) else None, snd (tick w)))
    tick tick tick.

End Connection.

(* ===================================================================== *)
(** * Further concrete databases *)
(* ===================================================================== *)

Module Edge.

Import Toy.


(** A source on which the count query gives no row. *)
Definition uncounted_source : db :=
  mkDb true Scenario.people_catalog
       []
       [("SELECT * FROM PEOPLE", Scenario.people_rows)]
       [] [] Scenario.people_rows [] 0.

(** A source that counts three rows but on which the SELECT of the copy
    raises. *)
Definition unreadable_source : db :=
  mkDb true Scenario.people_catalog
       [("SELECT COUNT(*) FROM PEOPLE", 3%Z)]
       []
       [] [] Scenario.people_rows [] 0.

(** A source that does not have the table. *)
Definition missing_source : db :=
  mkDb true (mkCatalog [] []) [] [] [] [] [] [] 0.

(** A source whose table has an index on two columns, in a tablespace. *)
Definition indexed_source : db :=
  mkDb true Scenario.people_catalog
       [("SELECT COUNT(*) FROM PEOPLE", 3%Z)]
       [("SELECT * FROM PEOPLE", Scenario.people_rows)]
       [("PEOPLE", [("PEOPLE_UK", "PEOPLE", "UNIQUE", Some "USERS", "ID,NAME")])]
       [] Scenario.people_rows [] 0.

(** A configuration file with three tables: [PEOPLE] with its own chunk
    size, a table the source does not have, and [PEOPLE] again in append
    mode. *)
Definition three_tables : Config :=
  mkConfig
    (Some [mkTableConfig "PEOPLE" None None None (Some 2);
           mkTableConfig "GHOSTS" (Some "full") None (Some "drop_and_recreate") None;
           mkTableConfig "PEOPLE" (Some "full") None (Some "append_if_compatible") None])
    (Some 100).

End Edge.

(* ===================================================================== *)
(** * Strings *)
(* ===================================================================== *)

Lemma starts_with_split (p s : list ascii) :
  PyStr.starts_with p s = true -> s = (p ++ skipn (length p) s)%list.
Proof.
  revert s; induction p as [|a p IH]; intros s H; simpl in *.
  - reflexivity.
  - destruct s as [|b s]; [discriminate|].
    apply andb_prop in H as [Hab Hp].
    apply Ascii.eqb_eq in Hab; subst b.
    simpl. f_equal. apply IH; assumption.
Qed.

Lemma starts_with_app (p s : list ascii) :
  PyStr.starts_with p (p ++ s) = true.
Proof.
  induction p as [|a p IH]; simpl; [reflexivity|].
  rewrite Ascii.eqb_refl. exact IH.
Qed.

Lemma skipn_length_app {A : Type} (p s : list A) :
  skipn (length p) (p ++ s) = s.
Proof.
  induction p as [|a p IH]; simpl; [reflexivity | exact IH].
Qed.

Lemma replace_nonempty_cons_true (o : ascii) (old' new : list ascii) c s' :
  PyStr.starts_with (o :: old') (c :: s') = true ->
  PyStr.replace_nonempty o old' new (c :: s')
  = (new ++ PyStr.replace_nonempty o old' new (skipn (length old') s'))%list.
Proof.
  intros H. rewrite PyStr.replace_nonempty_equation_2.
  rewrite H. reflexivity.
Qed.

Lemma replace_nonempty_cons_false (o : ascii) (old' new : list ascii) c s' :
  PyStr.starts_with (o :: old') (c :: s') = false ->
  PyStr.replace_nonempty o old' new (c :: s')
  = c :: PyStr.replace_nonempty o old' new s'.
Proof.
  intros H. rewrite PyStr.replace_nonempty_equation_2.
  rewrite H. reflexivity.
Qed.

(** [str.replace] performs the substitution of the specification. *)
Lemma replace_nonempty_substituted (o : ascii) (old' new : list ascii) :
  forall s, substituted (o :: old') new s (PyStr.replace_nonempty o old' new s).
Proof.
  intros s.
  remember (length s) as n eqn:Hn.
  revert s Hn.
  induction n as [n IH] using lt_wf_ind.
  intros [|c s'] Hn.
  - rewrite PyStr.replace_nonempty_equation_1. constructor.
  - destruct (PyStr.starts_with (o :: old') (c :: s')) eqn:Hsw.
    + rewrite replace_nonempty_cons_true by assumption.
      pose proof (starts_with_split _ _ Hsw) as Hsplit.
      simpl in Hsplit.
      rewrite Hsplit at 1.
      change (o :: (old' ++ skipn (length old') s')%list)
        with ((o :: old') ++ skipn (length old') s')%list.
      apply subst_here; [discriminate|].
      apply (IH (length (skipn (length old') s'))); [|reflexivity].
      subst n. simpl. pose proof (length_skipn (length old') s'). lia.
    + rewrite replace_nonempty_cons_false by assumption.
      apply subst_keep; [assumption|].
      apply (IH (length s')); [subst n; simpl; lia | reflexivity].
Qed.

(** The substitution of the specification has one result only. *)
Lemma substituted_unique (o : ascii) (old' new s r : list ascii) :
  substituted (o :: old') new s r ->
  r = PyStr.replace_nonempty o old' new s.
Proof.
  induction 1 as [| s r _ _ IH | c s r Hsw _ IH].
  - rewrite PyStr.replace_nonempty_equation_1. reflexivity.
  - simpl.
    rewrite replace_nonempty_cons_true.
    + rewrite skipn_length_app. f_equal. exact IH.
    + change (o :: (old' ++ s)%list) with ((o :: old') ++ s)%list.
      apply starts_with_app.
  - rewrite replace_nonempty_cons_false by assumption.
    f_equal. exact IH.
Qed.

Lemma string_append_assoc (a b c : string) :
  (a ++ b) ++ c = a ++ (b ++ c).
Proof.
  induction a as [|x a IH]; simpl; [reflexivity | rewrite IH; reflexivity].
Qed.

Lemma length_take (n : nat) (s : string) :
  String.length (PyStr.take n s) <= n.
Proof.
  unfold PyStr.take. revert s; induction n as [|n IH]; intros s.
  - destruct s; simpl; lia.
  - destruct s as [|c s]; simpl; [lia|].
    specialize (IH s). lia.
Qed.

Lemma list_ascii_nonempty (s : string) :
  s <> "" -> exists c l, list_ascii_of_string s = c :: l.
Proof.
  destruct s as [|c s]; [congruence|]. intros _. simpl. eauto.
Qed.

Lemma in_firstn {A : Type} (n : nat) (l : list A) (x : A) :
  In x (firstn n l) -> In x l.
Proof.
  intros H. rewrite <- (firstn_skipn n l). apply in_or_app. left. exact H.
Qed.

Lemma in_skipn {A : Type} (n : nat) (l : list A) (x : A) :
  In x (skipn n l) -> In x l.
Proof.
  intros H. rewrite <- (firstn_skipn n l). apply in_or_app. right. exact H.
Qed.

(* ===================================================================== *)
(** * The index name of [generate_index_ddl] *)
(* ===================================================================== *)

(** C9.  For every index definition and target table name,
    [generate_index_ddl] renders [CREATE [UNIQUE ]INDEX name ON table
    (columns)] where the name is the index's own name when the target table
    name and the owning table name have the same number of characters, and
    is otherwise the first 30 characters of the index name with the owning
    table name substituted by the target table name; the result of the
    substitution done by the code is the one the specification describes,
    and it is the only one. *)
Theorem generate_index_ddl_index_name :
  forall (index : IndexDefinition) (target_table : string),
    let name := new_index_name index target_table in
    let substitution :=
      PyStr.replace (idx_name index) (idx_table_name index) target_table in
    generate_index_ddl index target_table
      = "CREATE " ++ (if idx_is_unique index then "UNIQUE " else "") ++ "INDEX "
          ++ name ++ " ON " ++ target_table
          ++ " (" ++ PyStr.join ", " (idx_columns index) ++ ")"
    /\ (String.length target_table = String.length (idx_table_name index) ->
        name = idx_name index)
    /\ (String.length target_table <> String.length (idx_table_name index) ->
        name = PyStr.take 30 substitution
        /\ String.length name <= 30
        /\ (idx_table_name index <> "" ->
            substituted (list_ascii_of_string (idx_table_name index))
                        (list_ascii_of_string target_table)
                        (list_ascii_of_string (idx_name index))
                        (list_ascii_of_string substitution)
            /\ forall r,
                 substituted (list_ascii_of_string (idx_table_name index))
                             (list_ascii_of_string target_table)
                             (list_ascii_of_string (idx_name index)) r ->
                 name = PyStr.take 30 (string_of_list_ascii r))).
Proof.
  intros index target_table name substitution.
  split; [|split].
  - unfold generate_index_ddl. fold name.
    repeat rewrite string_append_assoc. reflexivity.
  - intros Hlen. unfold name, new_index_name.
    rewrite Hlen, Nat.eqb_refl. reflexivity.
  - intros Hlen.
    assert (Hname : name = PyStr.take 30 substitution).
    { unfold name, new_index_name.
      apply Nat.eqb_neq in Hlen. rewrite Hlen. reflexivity. }
    split; [exact Hname|]. split.
    + rewrite Hname. apply length_take.
    + intros Hne.
      destruct (list_ascii_nonempty Hne) as (o & old' & Hold).
      assert (Hsub : list_ascii_of_string substitution
                     = PyStr.replace_nonempty o old'
                         (list_ascii_of_string target_table)
                         (list_ascii_of_string (idx_name index))).
      { unfold substitution, PyStr.replace.
        rewrite list_ascii_of_string_of_list_ascii, Hold. reflexivity. }
      split.
      * rewrite Hsub, Hold. apply replace_nonempty_substituted.
      * intros r Hr. rewrite Hold in Hr.
        apply substituted_unique in Hr.
        rewrite Hname. f_equal.
        rewrite Hr, <- Hsub. symmetry. apply string_of_list_ascii_of_string.
Qed.

Lemma generate_index_ddl_index_name_witness :
  new_index_name (mkIndex "IDX_TBL_TEST" "TBL" ["COL1"] false None) "TBL2"
    = "IDX_TBL2_TEST"
  /\ substituted (list_ascii_of_string "TBL") (list_ascii_of_string "TBL2")
                 (list_ascii_of_string "IDX_TBL_TEST")
                 (list_ascii_of_string "IDX_TBL2_TEST")
  /\ new_index_name (mkIndex "IDX_TABLE1_TEST" "SOURCE_TBL" ["COL1"] false None) "TARGET_TBL"
    = "IDX_TABLE1_TEST".
Proof.
  pose proof (generate_index_ddl_index_name
                (mkIndex "IDX_TBL_TEST" "TBL" ["COL1"] false None) "TBL2") as H.
  destruct H as (_ & _ & H).
  destruct H as (Hname & _ & Hsub); [simpl; lia|].
  destruct Hsub as (Hsub & _); [discriminate|].
  split; [exact Hname|]. split; [exact Hsub|].
  pose proof (generate_index_ddl_index_name
                (mkIndex "IDX_TABLE1_TEST" "SOURCE_TBL" ["COL1"] false None)
                "TARGET_TBL") as H.
  destruct H as (_ & H & _).
  apply H. reflexivity.
Defined.

(* ===================================================================== *)
(** * Value coercion *)
(* ===================================================================== *)

(** C5, as stated, fails: the integer 123 coerced against a fixed-length
    character column ([CHAR]) is returned as the integer 123, not as the
    string "123". *)
Lemma convert_value_fixed_char_counterexample :
  convert_value (PyInt 123) "CHAR" = PyInt 123
  /\ ~ (forall (v : pyval) (t : string),
          t = "VARCHAR2" \/ t = "CHAR" ->
          v <> PyNone ->
          isinstance_str v = false ->
          convert_value v t = PyStr (py_str v)).
Proof.
  split; [reflexivity|].
  intros H.
  specialize (H (PyInt 123) "CHAR" (or_intror eq_refl)).
  assert (Hv : convert_value (PyInt 123) "CHAR" = PyStr (py_str (PyInt 123))).
  { apply H; [discriminate | reflexivity]. }
  discriminate Hv.
Qed.

(** C5, amended.  [convert_value] returns [None] for [None]; returns
    [str(v)] when the column type is exactly [VARCHAR2] and [v] is not a
    string; and returns [v] unchanged in every other case, a [CHAR] column
    included.  So 123 against [VARCHAR2] gives "123", and 123 against
    [NUMBER] or [CHAR] gives 123. *)
Theorem convert_value_cases :
  forall (v : pyval) (t : string),
    (v = PyNone -> convert_value v t = PyNone)
    /\ (v <> PyNone -> t = "VARCHAR2" -> isinstance_str v = false ->
        convert_value v t = PyStr (py_str v))
    /\ (v <> PyNone -> t <> "VARCHAR2" \/ isinstance_str v = true ->
        convert_value v t = v)
    /\ convert_value (PyInt 123) "VARCHAR2" = PyStr "123"
    /\ convert_value (PyInt 123) "NUMBER" = PyInt 123
    /\ convert_value (PyInt 123) "CHAR" = PyInt 123.
Proof.
  intros v t. repeat split.
  - intros ->. reflexivity.
  - intros Hv -> Hs. destruct v; try congruence; simpl in *; try discriminate;
      reflexivity.
  - intros Hv Hc. unfold convert_value.
    destruct v; try congruence;
      (destruct Hc as [Ht | Hs];
       [ apply String.eqb_neq in Ht; rewrite Ht; reflexivity
       | simpl in Hs; try discriminate; rewrite andb_false_r; reflexivity ]).
Qed.

Lemma convert_value_cases_witness :
  convert_value PyNone "DATE" = PyNone
  /\ convert_value (PyBool true) "VARCHAR2" = PyStr "True"
  /\ convert_value (PyStr "abc") "VARCHAR2" = PyStr "abc".
Proof.
  split; [|split].
  - apply (proj1 (convert_value_cases PyNone "DATE")). reflexivity.
  - apply (proj1 (proj2 (convert_value_cases (PyBool true) "VARCHAR2")));
      [discriminate | reflexivity | reflexivity].
  - apply (proj1 (proj2 (proj2 (convert_value_cases (PyStr "abc") "VARCHAR2"))));
      [discriminate | right; reflexivity].
Defined.

(* ===================================================================== *)
(** * The chunk generator *)
(* ===================================================================== *)

Lemma chunks_next_decreases (chunk_size : nat) (c c' : Cursor)
    (rows : list Row) (evs : list event) :
  chunks_next chunk_size c = (Some rows, c', evs) ->
  length (pending c') < length (pending c).
Proof.
  unfold chunks_next, fetchmany; simpl.
  destruct chunk_size as [|k]; [discriminate|].
  destruct (pending c) as [|r rs] eqn:E; [discriminate|].
  simpl. intros H. injection H as _ <- _. simpl.
  pose proof (length_skipn k rs). lia.
Qed.

Lemma chunks_drain_step (k : nat) (c : Cursor) :
  chunks_drain k c
  = match chunks_next k c with
    | (None, c', evs) => ([], c', evs)
    | (Some rows, c', evs) => yield_chunk rows evs (chunks_drain k c')
    end.
Proof.
  rewrite chunks_drain_equation_1.
  generalize (inspect (chunks_next k c)).
  intros [[[o c'] evs] e].
  symmetry. etransitivity; [rewrite e; reflexivity|].
  destruct o; reflexivity.
Qed.

Lemma ceil_div_0 (k : nat) : 0 < k -> ceil_div 0 k = 0.
Proof.
  intros Hk. unfold ceil_div. apply Nat.div_small. lia.
Qed.

Lemma ceil_div_step (n k : nat) :
  0 < k -> 0 < n -> ceil_div n k = S (ceil_div (n - k) k).
Proof.
  intros Hk Hn. unfold ceil_div.
  destruct (Nat.le_gt_cases n k) as [Hle | Hgt].
  - replace (n - k) with 0 by lia.
    replace (0 + k - 1) with (k - 1) by lia.
    rewrite (Nat.div_small (k - 1) k) by lia.
    replace (n + k - 1) with ((n - 1) + 1 * k) by lia.
    rewrite Nat.div_add by lia.
    rewrite (Nat.div_small (n - 1) k) by lia. reflexivity.
  - replace (n + k - 1) with ((n - k + k - 1) + 1 * k) by lia.
    rewrite Nat.div_add by lia. lia.
Qed.

Lemma ceil_div_pos (n k : nat) : 0 < k -> 0 < ceil_div n k -> 0 < n.
Proof.
  intros Hk H. destruct n as [|n]; [|lia].
  rewrite ceil_div_0 in H by assumption. lia.
Qed.

Lemma chunks_next_empty (k : nat) (c : Cursor) :
  pending c = [] ->
  chunks_next k c
  = (None, mkCursor [] (arraysize c) true, [SrcFetchMany k 0; SrcCursorClose]).
Proof.
  intros H. unfold chunks_next, fetchmany, cursor_close. simpl.
  rewrite H. rewrite firstn_nil, skipn_nil. reflexivity.
Qed.

Lemma chunks_next_rows (k : nat) (c : Cursor) :
  0 < k -> pending c <> [] ->
  chunks_next k c
  = (Some (firstn k (pending c)),
     mkCursor (skipn k (pending c)) (arraysize c) (closed c),
     [SrcFetchMany k (length (firstn k (pending c)))]).
Proof.
  intros Hk H. unfold chunks_next, fetchmany. simpl.
  destruct k as [|k]; [lia|].
  destruct (pending c) as [|r rs]; [congruence|]. reflexivity.
Qed.

(** What the generator does when it is run to exhaustion over a cursor with
    the rows [pending c] still to fetch. *)
Lemma chunks_drain_spec (k : nat) :
  0 < k ->
  forall (n : nat) (c : Cursor),
    length (pending c) = n ->
    let batches := fst (fst (chunks_drain k c)) in
    let c' := snd (fst (chunks_drain k c)) in
    let evs := snd (chunks_drain k c) in
    length batches = ceil_div n k
    /\ (forall i, S i < length batches -> length (nth i batches []) = k)
    /\ (forall b, In b batches -> b <> [] /\ length b <= k)
    /\ concat batches = pending c
    /\ evs = (map (fun b => SrcFetchMany k (length b)) batches
              ++ [SrcFetchMany k 0; SrcCursorClose])%list
    /\ closed c' = true
    /\ pending c' = [].
Proof.
  intros Hk n.
  induction n as [n IH] using lt_wf_ind.
  intros c Hn. rewrite chunks_drain_step.
  destruct (pending c) as [|r rs] eqn:Hp.
  - rewrite (chunks_next_empty k c Hp). simpl in *. subst n.
    rewrite ceil_div_0 by assumption.
    repeat split; try reflexivity; try (intros; lia); intros b [].
  - assert (Hne : pending c <> []) by (rewrite Hp; discriminate).
    rewrite (chunks_next_rows c Hk Hne).
    set (c1 := mkCursor (skipn k (pending c)) (arraysize c) (closed c)).
    assert (Hlen1 : length (pending c1) = n - k).
    { subst c1. simpl. rewrite length_skipn, Hp. exact (f_equal (fun x => x - k) Hn). }
    assert (Hn0 : 0 < n) by (rewrite <- Hn; simpl; lia).
    assert (Hlen : length (pending c) = n) by (rewrite Hp; exact Hn).
    destruct (IH (n - k) ltac:(lia) c1 Hlen1)
      as (L1 & L2 & L3 & L4 & L5 & L6 & L7).
    unfold yield_chunk. simpl fst; simpl snd.
    rewrite <- Hp.
    repeat split.
    + simpl. rewrite L1. symmetry. apply ceil_div_step; assumption.
    + intros [|i] Hi; simpl in *.
      * rewrite L1 in Hi.
        assert (0 < n - k) by (apply (ceil_div_pos (n - k) Hk); lia).
        rewrite length_firstn. lia.
      * apply L2. lia.
    + destruct H as [<- | Hin].
      * rewrite Hp. destruct k; [lia|]. discriminate.
      * apply L3; assumption.
    + destruct H as [<- | Hin].
      * rewrite length_firstn. lia.
      * apply L3; assumption.
    + simpl. rewrite L4. subst c1. simpl. apply firstn_skipn.
    + rewrite L5. reflexivity.
    + exact L6.
    + exact L7.
Qed.

Lemma list_sum_lengths_concat {A : Type} (l : list (list A)) :
  list_sum (map (@length A) l) = length (concat l).
Proof.
  induction l as [|x l IH]; simpl; [reflexivity|].
  rewrite length_app, IH. reflexivity.
Qed.

(** C7.  For every source result set of [n] rows and every chunk size
    [k > 0], the generator run to exhaustion yields [ceil(n/k)] batches;
    every batch but the last has exactly [k] rows; every batch (the last
    one too) is non-empty and has at most [k] rows; the batches put end to
    end are the rows of the result set, so their sizes sum to [n] and
    nothing is padded; and the fetches made are one per batch followed by
    one empty fetch, after which the cursor is closed and nothing more is
    fetched. *)
Theorem get_data_in_chunks_batches :
  forall (rows : list Row) (k : nat),
    0 < k ->
    let drained := chunks_drain k (mkCursor rows k false) in
    let batches := fst (fst drained) in
    length batches = ceil_div (length rows) k
    /\ (forall i, S i < length batches -> length (nth i batches []) = k)
    /\ (forall b, In b batches -> b <> [] /\ length b <= k)
    /\ (batches <> [] -> last batches [] <> [])
    /\ concat batches = rows
    /\ list_sum (map (@length Row) batches) = length rows
    /\ snd drained
       = (map (fun b => SrcFetchMany k (length b)) batches
          ++ [SrcFetchMany k 0; SrcCursorClose])%list
    /\ closed (snd (fst drained)) = true.
Proof.
  intros rows k Hk drained batches.
  destruct (chunks_drain_spec Hk (mkCursor rows k false) eq_refl)
    as (L1 & L2 & L3 & L4 & L5 & L6 & _).
  fold drained in L1, L2, L3, L4, L5, L6. fold batches in L1, L2, L3, L4, L5.
  simpl in L4.
  repeat split; try assumption; try (apply L3; assumption).
  - intros Hne. apply L3.
    destruct (exists_last Hne) as (l' & b & ->).
    rewrite last_last. apply in_or_app. right. left. reflexivity.
  - rewrite list_sum_lengths_concat, L4. reflexivity.
Qed.

Lemma get_data_in_chunks_batches_witness :
  fst (fst (chunks_drain 2 (mkCursor [[PyInt 1]; [PyInt 2]; [PyInt 3]] 2 false)))
    = [[[PyInt 1]; [PyInt 2]]; [[PyInt 3]]]
  /\ length (fst (fst (chunks_drain 2 (mkCursor [[PyInt 1]; [PyInt 2]; [PyInt 3]] 2 false))))
    = ceil_div 3 2.
Proof.
  split.
  - reflexivity.
  - apply (proj1 (get_data_in_chunks_batches
                    [[PyInt 1]; [PyInt 2]; [PyInt 3]] (k := 2) (Nat.lt_0_succ 1))).
Defined.

(* ===================================================================== *)
(** * Reasoning about runs *)
(* ===================================================================== *)

Section RunLemmas.

Context {S : Type}.

Lemma bind_run {A B : Type} (m : M S A) (k : A -> M S B) (self : TableMigrator S) :
  bind m k self
  = match result (m self) with
    | Returns a => preceded_by (trace (m self)) (k a (final (m self)))
    | Raises exc => mkRun (Raises exc) (final (m self)) (trace (m self))
    end.
Proof. unfold bind. destruct (result (m self)); reflexivity. Qed.

Lemma try_except_run {A : Type} (m : M S A) (h : string -> M S A) (self : TableMigrator S) :
  try_except m h self
  = match result (m self) with
    | Returns a => m self
    | Raises exc => preceded_by (trace (m self)) (h exc (final (m self)))
    end.
Proof. unfold try_except. destruct (result (m self)); reflexivity. Qed.

Lemma preceded_by_nil {A : Type} (r : Run S A) : preceded_by [] r = r.
Proof. destruct r; reflexivity. Qed.

Lemma traces_ret {A : Type} P (a : A) : traces P (@ret S A a).
Proof. intros self. constructor. Qed.

Lemma traces_raise {A : Type} P exc : traces P (@raise S A exc).
Proof. intros self. constructor. Qed.

Lemma traces_get_self P : traces P (@get_self S).
Proof. intros self. constructor. Qed.

Lemma traces_set_target P t : traces P (@set_target S t).
Proof. intros self. constructor. Qed.

Lemma traces_emit P e : P e -> traces P (@emit S e).
Proof. intros H self. simpl. constructor; [assumption | constructor]. Qed.

Lemma traces_bind {A B : Type} P (m : M S A) (k : A -> M S B) :
  traces P m -> (forall a, traces P (k a)) -> traces P (bind m k).
Proof.
  intros Hm Hk self. unfold bind.
  destruct (result (m self)) as [a | exc]; simpl.
  - apply Forall_app. split; [apply Hm | apply Hk].
  - apply Hm.
Qed.

Lemma traces_try_except {A : Type} P (m : M S A) (h : string -> M S A) :
  traces P m -> (forall exc, traces P (h exc)) -> traces P (try_except m h).
Proof.
  intros Hm Hh self. unfold try_except.
  destruct (result (m self)) as [a | exc]; simpl.
  - apply Hm.
  - apply Forall_app. split; [apply Hm | apply Hh].
Qed.

Lemma total_ret {A : Type} (a : A) : total (@ret S A a).
Proof. intros self. exists a. reflexivity. Qed.

Lemma total_try_except {A : Type} (m : M S A) (h : string -> M S A) :
  (forall exc, total (h exc)) -> total (try_except m h).
Proof.
  intros Hh self. unfold try_except.
  destruct (result (m self)) as [a | exc] eqn:E; simpl.
  - exists a. exact E.
  - apply Hh.
Qed.

End RunLemmas.

(* ===================================================================== *)
(** * The calls made by the copy and by the index replication *)
(* ===================================================================== *)

Section CopyTraces.

Context {S : Type} (drv : Driver S) (ops : IndexOps S).

Lemma copy_chunks_step (stmt : string) (cols : list Column) (k : nat)
    (c : Cursor) (n : nat) :
  copy_chunks drv stmt cols k c n
  = match chunks_next k c with
    | (None, _, evs) => emit_all evs ;;; ret (Some n)
    | (Some chunk, c', evs) =>
        emit_all evs ;;;
        ok <- insert_chunk drv stmt cols chunk ;;
        if ok then copy_chunks drv stmt cols k c' (n + length chunk)
        else ret None
    end.
Proof.
  rewrite copy_chunks_equation_1.
  generalize (inspect (chunks_next k c)).
  intros [[[o c'] evs] e].
  symmetry. etransitivity; [rewrite e; reflexivity|].
  destruct o; reflexivity.
Qed.

Lemma traces_emit_all P (evs : list event) :
  Forall P evs -> traces P (@emit_all S evs).
Proof. intros H self. exact H. Qed.

Lemma traces_lift_outcome {A : Type} P (o : outcome A) : traces P (@lift_outcome S A o).
Proof. destruct o; intros self; constructor. Qed.

Lemma traces_get_row_count P table_name custom_query :
  traces P (get_row_count drv table_name custom_query).
Proof.
  intros self. unfold get_row_count, bind, get_self; simpl.
  destruct (query_count drv (source_conn self) _); simpl; constructor.
Qed.

Lemma traces_chunks_start P query k :
  P SrcCursorOpen -> P (SrcCursorArraysize k) -> P (SrcCursorExecute query) ->
  traces P (chunks_start drv query k).
Proof.
  intros H1 H2 H3 self. unfold chunks_start, bind, get_self, emit; simpl.
  destruct (cursor_execute drv (source_conn self) query); simpl;
    repeat constructor; assumption.
Qed.

Lemma traces_target_executemany P stmt rows :
  (forall ok, P (TgtExecuteMany stmt rows ok)) ->
  traces P (target_executemany drv stmt rows).
Proof.
  intros H self. unfold target_executemany, bind, get_self, set_target, emit; simpl.
  destruct (fst (executemany drv (target_conn self) stmt rows)); simpl;
    repeat constructor; apply H.
Qed.

Lemma traces_target_commit P :
  (forall ok, P (TgtCommit ok)) -> traces P (target_commit drv).
Proof.
  intros H self. unfold target_commit, bind, get_self, set_target, emit; simpl.
  destruct (fst (commit drv (target_conn self))); simpl;
    repeat constructor; apply H.
Qed.

Lemma traces_target_rollback P :
  P TgtRollback -> traces P (target_rollback drv).
Proof.
  intros H self. unfold target_rollback, bind, get_self, set_target, emit; simpl.
  repeat constructor; apply H.
Qed.

Lemma traces_insert_chunk P stmt cols chunk :
  (forall ok, P (TgtExecuteMany stmt
                   (map (fun row => convert_row_values row cols) chunk) ok)) ->
  (forall ok, P (TgtCommit ok)) -> P TgtRollback ->
  traces P (insert_chunk drv stmt cols chunk).
Proof.
  intros H1 H2 H3. unfold insert_chunk.
  apply traces_try_except.
  - apply traces_bind; [apply traces_target_executemany; assumption|].
    intros _. apply traces_bind; [apply traces_target_commit; assumption|].
    intros _. apply traces_ret.
  - intros _. apply traces_bind; [apply traces_target_rollback; assumption|].
    intros _. apply traces_ret.
Qed.

Lemma chunks_next_events P k c :
  (forall returned, P (SrcFetchMany k returned)) -> P SrcCursorClose ->
  Forall P (snd (chunks_next k c)).
Proof.
  intros H1 H2. unfold chunks_next.
  destruct (fst (fetchmany c k)); simpl; repeat constructor; auto.
Qed.

Lemma chunks_next_chunk k c chunk c' evs :
  chunks_next k c = (Some chunk, c', evs) ->
  chunk = firstn k (pending c) /\ pending c' = skipn k (pending c) /\ chunk <> []
  /\ evs = [SrcFetchMany k (length chunk)].
Proof.
  unfold chunks_next, fetchmany. simpl.
  destruct (firstn k (pending c)) as [|r rs] eqn:E; [discriminate|].
  intros H. injection H as <- <- <-. repeat split. discriminate.
Qed.

(** The calls of the copy loop: fetches, the close, and for each batch an
    [executemany] of the given statement with the converted rows of a part
    of the result set, a commit or a rollback. *)
Lemma traces_copy_chunks (P : event -> Prop) stmt cols k :
  (forall returned, P (SrcFetchMany k returned)) -> P SrcCursorClose ->
  (forall ok, P (TgtCommit ok)) -> P TgtRollback ->
  forall (rows : list Row),
    (forall chunk ok, incl chunk rows ->
       P (TgtExecuteMany stmt (map (fun row => convert_row_values row cols) chunk) ok)) ->
    forall c n, incl (pending c) rows ->
      traces P (copy_chunks drv stmt cols k c n).
Proof.
  intros Hf Hc Hcm Hrb rows Hin c.
  remember (length (pending c)) as len eqn:Hlen.
  revert c Hlen.
  induction len as [len IH] using lt_wf_ind.
  intros c Hlen n Hincl.
  rewrite copy_chunks_step.
  destruct (chunks_next k c) as [[[chunk|] c'] evs] eqn:E.
  - pose proof (chunks_next_events P k c Hf Hc) as Hevs. rewrite E in Hevs. simpl in Hevs.
    destruct (chunks_next_chunk _ _ E) as (Hchunk & Hpend & _ & _).
    apply traces_bind; [apply traces_emit_all; assumption|].
    intros _. apply traces_bind.
    + apply traces_insert_chunk; try assumption.
      intros ok. apply Hin. subst chunk.
      intros x Hx. apply Hincl. eapply in_firstn; eauto.
    + intros [|]; [|apply traces_ret].
      apply (IH (length (pending c'))); [|reflexivity|].
      * subst len. eapply chunks_next_decreases; eauto.
      * rewrite Hpend. intros x Hx. apply Hincl.
        eapply in_skipn; eauto.
  - pose proof (chunks_next_events P k c Hf Hc) as Hevs. rewrite E in Hevs. simpl in Hevs.
    apply traces_bind; [apply traces_emit_all; assumption|].
    intros _. apply traces_ret.
Qed.

Lemma traces_migrate_one_index P index target_table :
  P (SrcGenerateIndexDdl index target_table) ->
  (forall ddl, P (TgtCreateIndex ddl)) ->
  traces P (migrate_one_index ops index target_table).
Proof.
  intros H1 H2. unfold migrate_one_index.
  apply traces_try_except; [|intros; apply traces_ret].
  apply traces_bind; [apply traces_get_self|]. intros self.
  apply traces_bind; [apply traces_emit; assumption|]. intros _.
  apply traces_bind; [apply traces_lift_outcome|]. intros ddl.
  destruct (negb (PyStr.truthy ddl)); [apply traces_ret|].
  apply traces_bind; [apply traces_emit; apply H2|]. intros _.
  apply traces_bind; [apply traces_set_target|]. intros _.
  apply traces_bind; [apply traces_lift_outcome|]. intros created.
  apply traces_ret.
Qed.

Lemma traces_migrate_index_loop P indexes target_table :
  (forall index, In index indexes -> P (SrcGenerateIndexDdl index target_table)) ->
  (forall ddl, P (TgtCreateIndex ddl)) ->
  forall success, traces P (migrate_index_loop ops indexes target_table success).
Proof.
  intros H1 H2.
  induction indexes as [|index rest IH]; intros success; simpl.
  - apply traces_ret.
  - apply traces_bind.
    + apply traces_migrate_one_index; [apply H1; left; reflexivity | assumption].
    + intros ok. apply IH. intros i Hi. apply H1. right. assumption.
Qed.

Lemma traces_migrate_indexes_for_table P source_table target_table :
  (forall index, P (SrcGenerateIndexDdl index target_table)) ->
  (forall ddl, P (TgtCreateIndex ddl)) ->
  traces P (_migrate_indexes_for_table ops source_table target_table).
Proof.
  intros H1 H2. unfold _migrate_indexes_for_table.
  apply traces_try_except; [|intros; apply traces_ret].
  apply traces_bind; [apply traces_get_self|]. intros self.
  apply traces_bind; [apply traces_lift_outcome|]. intros indexes.
  destruct indexes as [|i rest]; [apply traces_ret|].
  apply traces_migrate_index_loop; auto.
Qed.

End CopyTraces.

Section CopyRun.

Context {S : Type} (drv : Driver S) (ops : IndexOps S).

Lemma get_row_count_run (table_name : string) (q : option string) (self : TableMigrator S) :
  get_row_count drv table_name q self
  = match query_count drv (source_conn self)
            (match q with
             | Some q' =>
                 if PyStr.truthy q' then "SELECT COUNT(*) FROM (" ++ q' ++ ")"
                 else "SELECT COUNT(*) FROM " ++ table_name
             | None => "SELECT COUNT(*) FROM " ++ table_name
             end) with
    | Some n => mkRun (Returns n) self []
    | None => mkRun (Raises ("Row count query failed for table " ++ table_name)) self []
    end.
Proof.
  unfold get_row_count, bind, get_self; simpl.
  destruct (query_count drv (source_conn self) _); reflexivity.
Qed.

Lemma chunks_start_run (query : string) (k : nat) (self : TableMigrator S) :
  chunks_start drv query k self
  = match cursor_execute drv (source_conn self) query with
    | Some rows =>
        mkRun (Returns (mkCursor rows k false)) self
              [SrcCursorOpen; SrcCursorArraysize k; SrcCursorExecute query]
    | None =>
        mkRun (Raises "DatabaseError") self
              [SrcCursorOpen; SrcCursorArraysize k; SrcCursorExecute query]
    end.
Proof.
  unfold chunks_start, bind, get_self, emit; simpl.
  destruct (cursor_execute drv (source_conn self) query); reflexivity.
Qed.

(** The copy stage, case by case. *)
Lemma migrate_table_copy_run (table_name mode : string) (custom_query : option string)
    (chunk_size : nat) (self : TableMigrator S) :
  migrate_table_copy drv ops table_name mode custom_query chunk_size self
  = match query_count drv (source_conn self)
            (copy_count_query table_name mode custom_query) with
    | None => mkRun (Returns false) self []
    | Some row_count =>
        if (row_count =? 0)%Z then mkRun (Returns true) self []
        else
          match cursor_execute drv (source_conn self)
                  (copy_query table_name mode custom_query) with
          | None =>
              mkRun (Raises "DatabaseError") self
                    (copy_prologue drv self table_name mode custom_query chunk_size)
          | Some rows =>
              preceded_by
                (copy_prologue drv self table_name mode custom_query chunk_size)
                (copy_epilogue ops table_name
                   (copy_chunks drv (copy_statement drv self table_name)
                      (copy_columns drv self table_name) chunk_size
                      (mkCursor rows chunk_size false) 0 self))
          end
    end.
Proof.
  unfold migrate_table_copy.
  fold (uses_custom mode custom_query).
  assert (Hcount :
    (if uses_custom mode custom_query
     then get_row_count drv table_name custom_query
     else get_row_count drv table_name None) self
    = match query_count drv (source_conn self)
              (copy_count_query table_name mode custom_query) with
      | Some n => mkRun (Returns n) self []
      | None => mkRun (Raises ("Row count query failed for table " ++ table_name)) self []
      end).
  { unfold copy_count_query.
    destruct (uses_custom mode custom_query) eqn:Hu.
    - rewrite get_row_count_run.
      destruct custom_query as [q|]; [|reflexivity].
      unfold uses_custom in Hu. apply andb_prop in Hu as [_ Hq].
      simpl in Hq. rewrite Hq. reflexivity.
    - rewrite get_row_count_run. destruct custom_query; reflexivity. }
  rewrite bind_run, try_except_run, bind_run, Hcount.
  destruct (query_count drv (source_conn self) _) as [row_count|];
    cbn [result final trace ret preceded_by app]; [|reflexivity].
  destruct (row_count =? 0)%Z; [reflexivity|].
  rewrite bind_run. cbn [get_self result final trace preceded_by app].
  rewrite bind_run. cbn [emit result final trace preceded_by app].
  rewrite bind_run, chunks_start_run.
  fold (copy_query table_name mode custom_query).
  destruct (cursor_execute drv (source_conn self) _) as [rows|];
    cbn [result final trace preceded_by app]; [|reflexivity].
  rewrite bind_run.
  unfold copy_epilogue, copy_prologue, copy_statement, copy_columns.
  destruct (copy_chunks drv _ _ chunk_size _ 0 self) as [[[n|]|exc] fin tr];
    cbn [result final trace preceded_by app ret];
    try (unfold preceded_by; cbn [result final trace ret app];
         rewrite ?app_nil_r; reflexivity).
  rewrite bind_run. cbn [get_self result final trace preceded_by app].
  rewrite bind_run.
  destruct (migrate_indexes_globally fin).
  - destruct (_migrate_indexes_for_table ops table_name table_name fin)
      as [[b|exc] fin' tr']; unfold preceded_by;
      cbn [result final trace ret app]; rewrite ?app_nil_r; reflexivity.
  - unfold preceded_by. cbn [result final trace ret app].
    rewrite ?app_nil_r. reflexivity.
Qed.

End CopyRun.

Section CopyEvents.

Context {S : Type} (drv : Driver S) (ops : IndexOps S).

(** Every call of the copy stage is one of [copy_event], for the statement
    built from the source columns and the result set of the copied query. *)
Lemma migrate_table_copy_events (table_name mode : string) (custom_query : option string)
    (chunk_size : nat) (self : TableMigrator S) :
  Forall (copy_event (copy_statement drv self table_name)
                     (copy_columns drv self table_name)
                     (copy_rows drv self table_name mode custom_query))
         (trace (migrate_table_copy drv ops table_name mode custom_query chunk_size self)).
Proof.
  rewrite migrate_table_copy_run. unfold copy_rows.
  destruct (query_count drv (source_conn self) _) as [row_count|]; [|constructor].
  destruct (row_count =? 0)%Z; [constructor|].
  destruct (cursor_execute drv (source_conn self) _) as [rows|].
  - unfold preceded_by. cbn [trace].
    apply Forall_app. split; [repeat constructor|].
    set (P := copy_event (copy_statement drv self table_name)
                         (copy_columns drv self table_name) rows).
    assert (Hloop : forall s, Forall P
              (trace (copy_chunks drv (copy_statement drv self table_name)
                        (copy_columns drv self table_name) chunk_size
                        (mkCursor rows chunk_size false) 0 s))).
    { apply (@traces_copy_chunks S drv P _ _ chunk_size) with (rows := rows);
        subst P; try (intros; constructor; fail).
      - intros chunk ok Hincl. constructor. assumption.
      - simpl. apply incl_refl. }
    assert (Hix : forall s, Forall P
              (trace (_migrate_indexes_for_table ops table_name table_name s))).
    { apply traces_migrate_indexes_for_table; subst P; intros; constructor. }
    unfold copy_epilogue.
    specialize (Hloop self).
    destruct (copy_chunks drv _ _ chunk_size _ 0 self) as [[[n|]|exc] fin tr];
      cbn [result final trace] in *; try assumption.
    destruct (migrate_indexes_globally fin); cbn [trace]; [|assumption].
    specialize (Hix fin).
    destruct (_migrate_indexes_for_table ops table_name table_name fin)
      as [[b|exc] fin' tr']; cbn [result final trace] in *;
      apply Forall_app; split; assumption.
  - unfold copy_prologue. repeat constructor.
Qed.

End CopyEvents.

(* ===================================================================== *)
(** * Reconciliation of the target table *)
(* ===================================================================== *)

Section Reconciliation.

Context {S : Type} (drv : Driver S) (ops : IndexOps S).

Lemma target_execute_non_query_run (sql : string) (self : TableMigrator S) :
  target_execute_non_query drv sql self
  = mkRun (Returns (fst (execute_non_query drv (target_conn self) sql)))
          (after_non_query drv self sql)
          [TgtExecuteNonQuery sql (fst (execute_non_query drv (target_conn self) sql))].
Proof. reflexivity. Qed.

Lemma create_table_run (table_name : string) (self : TableMigrator S) :
  create_table drv table_name self
  = let create_sql := generate_create_table_sql drv (source_conn self) table_name in
    if PyStr.truthy create_sql
    then target_execute_non_query drv create_sql self
    else mkRun (Returns false) self [].
Proof.
  unfold create_table, bind, get_self; simpl.
  destruct (PyStr.truthy _); simpl.
  - rewrite target_execute_non_query_run. reflexivity.
  - reflexivity.
Qed.

Lemma migrate_table_create_run (table_name mode : string) (custom_query : option string)
    (chunk_size : nat) (self : TableMigrator S) :
  creates_from_source drv ops table_name mode custom_query chunk_size self
    (migrate_table_create drv ops table_name mode custom_query chunk_size self).
Proof.
  unfold creates_from_source.
  destruct (PyStr.truthy (generate_create_table_sql drv (source_conn self) table_name))
    eqn:Ht.
  - destruct (fst (execute_non_query drv (target_conn self)
                     (generate_create_table_sql drv (source_conn self) table_name)))
      eqn:Hok;
      unfold migrate_table_create, bind; rewrite create_table_run;
      cbv zeta; rewrite Ht, target_execute_non_query_run;
      cbn [result final trace]; rewrite Hok; reflexivity.
  - unfold migrate_table_create, bind; rewrite create_table_run.
    cbv zeta; rewrite Ht. reflexivity.
Qed.

End Reconciliation.

Section ReconciliationClaims.

Context {S : Type} (drv : Driver S) (ops : IndexOps S).

(** [migrate_table], case by case. *)
Lemma migrate_table_run (table_name mode : string) (custom_query : option string)
    (behavior : string) (chunk_size : nat) (self : TableMigrator S) :
  migrate_table drv ops table_name mode custom_query behavior chunk_size self
  = if table_exists drv (target_conn self) table_name then
      if behavior =? "drop_and_recreate" then
        let drop_sql := "DROP TABLE " ++ table_name in
        if fst (execute_non_query drv (target_conn self) drop_sql)
        then preceded_by [TgtExecuteNonQuery drop_sql true]
               (migrate_table_create drv ops table_name mode custom_query chunk_size
                  (after_non_query drv self drop_sql))
        else mkRun (Returns false) (after_non_query drv self drop_sql)
                   [TgtExecuteNonQuery drop_sql false]
      else if behavior =? "append_if_compatible" then
        if schemas_match drv (source_conn self) (target_conn self) table_name
        then migrate_table_copy drv ops table_name mode custom_query chunk_size self
        else mkRun (Returns false) self []
      else mkRun (Returns false) self []
    else migrate_table_create drv ops table_name mode custom_query chunk_size self.
Proof.
  unfold migrate_table.
  rewrite bind_run. cbn [get_self result final trace].
  rewrite preceded_by_nil.
  destruct (table_exists drv (target_conn self) table_name); [|reflexivity].
  destruct (behavior =? "drop_and_recreate").
  - rewrite bind_run. unfold drop_table.
    rewrite target_execute_non_query_run. cbn [result final trace].
    destruct (fst (execute_non_query drv (target_conn self) _));
      cbn [negb]; reflexivity.
  - destruct (behavior =? "append_if_compatible"); [|reflexivity].
    destruct (schemas_match drv (source_conn self) (target_conn self) table_name);
      reflexivity.
Qed.

Lemma copy_event_not_non_query stmt cols rows e :
  copy_event stmt cols rows e -> ~ is_non_query e.
Proof. intros H. destruct H; simpl; auto. Qed.


End ReconciliationClaims.


Section AppendGate.

Context {S : Type} (drv : Driver S) (ops : IndexOps S).

(** C6.  When the target table exists, [append_if_compatible] is requested
    and the schemas do not match, [migrate_table] returns [False] and makes
    no call on either handle: no DROP or CREATE, no [executemany], no
    fetch.  The target handle is left exactly as it was, so every query on
    it (its row count among them) answers as before. *)
Theorem append_incompatible_changes_nothing :
  forall (self : TableMigrator S) (table_name mode : string)
         (custom_query : option string) (chunk_size : nat),
    table_exists drv (target_conn self) table_name = true ->
    schemas_match drv (source_conn self) (target_conn self) table_name = false ->
    let run := migrate_table drv ops table_name mode custom_query
                 "append_if_compatible" chunk_size self in
    result run = Returns false
    /\ trace run = []
    /\ final run = self
    /\ (forall sql, query_count drv (target_conn (final run)) sql
                    = query_count drv (target_conn self) sql)
    /\ get_table_schema drv (target_conn (final run)) table_name
       = get_table_schema drv (target_conn self) table_name.
Proof.
  intros self table_name mode custom_query chunk_size Hex Hm run.
  subst run. rewrite migrate_table_run, Hex, Hm.
  cbn [String.eqb Ascii.eqb Bool.eqb result final trace].
  repeat split.
Qed.

End AppendGate.

Lemma append_incompatible_changes_nothing_witness :
  let self := Scenario.migrator Scenario.source Scenario.target_narrow true in
  let run := Scenario.migrate "PEOPLE" "full" None "append_if_compatible" 2 self in
  result run = Returns false
  /\ trace run = []
  /\ Toy.committed (target_conn (final run)) = [[PyInt 0; PyStr "Zoe"]].
Proof.
  intros self run.
  destruct (append_incompatible_changes_nothing Toy.driver (OracleHandler Toy.driver)
              self "PEOPLE" "full" None 2 eq_refl eq_refl)
    as (H1 & H2 & H3 & _).
  fold (Scenario.migrate "PEOPLE" "full" None "append_if_compatible" 2 self) in H1, H2, H3.
  fold run in H1, H2, H3.
  split; [exact H1|]. split; [exact H2|].
  rewrite H3. reflexivity.
Defined.

(* ===================================================================== *)
(** * The INSERT statement and the tuples bound to it *)
(* ===================================================================== *)

Section InsertStatement.

Context {S : Type} (drv : Driver S) (ops : IndexOps S).

Lemma migrate_table_create_events (table_name mode : string)
    (custom_query : option string) (chunk_size : nat) (self : TableMigrator S) :
  Forall (fun e => is_non_query e
                   \/ copy_event (copy_statement drv self table_name)
                                 (copy_columns drv self table_name)
                                 (copy_rows drv self table_name mode custom_query) e)
         (trace (migrate_table_create drv ops table_name mode custom_query chunk_size self)).
Proof.
  pose proof (migrate_table_create_run drv ops table_name mode custom_query
                chunk_size self) as H.
  unfold creates_from_source in H.
  destruct (PyStr.truthy _).
  - destruct (fst (execute_non_query drv (target_conn self) _)); rewrite H.
    + unfold preceded_by; cbn [trace]. constructor; [left; exact I|].
      eapply Forall_impl;
        [|apply (migrate_table_copy_events drv ops table_name mode custom_query
                   chunk_size (after_non_query drv self _))].
      intros e He. right. exact He.
    + repeat constructor.
  - rewrite H. constructor.
Qed.

(** Every call of [migrate_table] is a DROP or CREATE statement on the
    target or a call of the copy stage. *)
Lemma migrate_table_events (table_name mode : string) (custom_query : option string)
    (behavior : string) (chunk_size : nat) (self : TableMigrator S) :
  Forall (fun e => is_non_query e
                   \/ copy_event (copy_statement drv self table_name)
                                 (copy_columns drv self table_name)
                                 (copy_rows drv self table_name mode custom_query) e)
         (trace (migrate_table drv ops table_name mode custom_query behavior
                   chunk_size self)).
Proof.
  rewrite migrate_table_run.
  destruct (table_exists drv (target_conn self) table_name);
    [|apply migrate_table_create_events].
  destruct (behavior =? "drop_and_recreate").
  - cbv zeta.
    destruct (fst (execute_non_query drv (target_conn self) _)).
    + unfold preceded_by; cbn [trace]. constructor; [left; exact I|].
      apply (migrate_table_create_events table_name mode custom_query chunk_size
               (after_non_query drv self ("DROP TABLE " ++ table_name))).
    + repeat constructor.
  - destruct (behavior =? "append_if_compatible"); [|constructor].
    destruct (schemas_match drv (source_conn self) (target_conn self) table_name);
      [|constructor].
    eapply Forall_impl; [|apply migrate_table_copy_events].
    intros e He. right. exact He.
Qed.

Lemma executemany_event stmt cols rows stmt' bound ok :
  is_non_query (TgtExecuteMany stmt' bound ok)
  \/ copy_event stmt cols rows (TgtExecuteMany stmt' bound ok) ->
  stmt' = stmt
  /\ exists chunk, incl chunk rows
                   /\ bound = map (fun row => convert_row_values row cols) chunk.
Proof.
  intros [[] | H]. inversion H; subst. split; [reflexivity|]. eauto.
Qed.

(** C3, amended.  Every INSERT statement that [migrate_table] executes
    with [executemany] is [prepare_insert_statement] applied to the column
    names that [get_table_schema] reads through the source connection. *)
Theorem insert_statement_uses_source_columns :
  forall (self : TableMigrator S) (table_name mode : string)
         (custom_query : option string) (behavior : string) (chunk_size : nat)
         (stmt : string) (bound : list Row) (ok : bool),
    In (TgtExecuteMany stmt bound ok)
       (trace (migrate_table drv ops table_name mode custom_query behavior
                 chunk_size self)) ->
    stmt = prepare_insert_statement table_name
             (map col_name (get_table_schema drv (source_conn self) table_name)).
Proof.
  intros self table_name mode custom_query behavior chunk_size stmt bound ok Hin.
  pose proof (migrate_table_events table_name mode custom_query behavior
                chunk_size self) as Hall.
  rewrite Forall_forall in Hall. specialize (Hall _ Hin).
  apply executemany_event in Hall. destruct Hall as [-> _]. reflexivity.
Qed.

Lemma nth_error_convert_row_values (row : Row) (cols : list Column) :
  forall i v col,
    nth_error row i = Some v ->
    nth_error cols i = Some col ->
    nth_error (convert_row_values row cols) i
    = Some (convert_value v (data_type col)).
Proof.
  unfold convert_row_values.
  revert cols. induction row as [|x row IH]; intros cols i v col Hv Hc.
  - destruct i; discriminate.
  - destruct cols as [|c cols]; [destruct i; discriminate|].
    destruct i as [|i]; simpl in *.
    + injection Hv as ->. injection Hc as ->. reflexivity.
    + apply IH; assumption.
Qed.

Lemma length_convert_row_values (row : Row) (cols : list Column) :
  length (convert_row_values row cols) = Nat.min (length row) (length cols).
Proof.
  unfold convert_row_values. rewrite length_map, length_combine. reflexivity.
Qed.

(** C4.  In every [executemany] of [migrate_table] the statement lists the
    columns of the source schema in the order [get_table_schema] returns
    them (the physical column order), with one numbered placeholder per
    column in the same order; and every bound tuple is a row of the copied
    result set converted against that same column list position by
    position: its [i]-th value is the [i]-th value of the row converted to
    the type of the [i]-th column, which is the column the [i]-th name and
    the [i]-th placeholder of the statement stand for. *)
Theorem insert_columns_and_tuples_aligned :
  forall (self : TableMigrator S) (table_name mode : string)
         (custom_query : option string) (behavior : string) (chunk_size : nat)
         (stmt : string) (bound : list Row) (ok : bool),
    In (TgtExecuteMany stmt bound ok)
       (trace (migrate_table drv ops table_name mode custom_query behavior
                 chunk_size self)) ->
    let cols := get_table_schema drv (source_conn self) table_name in
    stmt = "INSERT INTO " ++ table_name
             ++ " (" ++ PyStr.join ", " (map col_name cols) ++ ") VALUES ("
             ++ PyStr.join ", "
                  (map (fun i => ":" ++ PyStr.of_nat (i + 1)) (seq 0 (length cols)))
             ++ ")"
    /\ exists chunk,
         incl chunk (copy_rows drv self table_name mode custom_query)
         /\ bound = map (fun row => convert_row_values row cols) chunk
         /\ forall row, In row chunk ->
              length (convert_row_values row cols)
                = Nat.min (length row) (length cols)
              /\ forall i v col,
                   nth_error row i = Some v ->
                   nth_error cols i = Some col ->
                   nth_error (map col_name cols) i = Some (col_name col)
                   /\ nth_error (convert_row_values row cols) i
                      = Some (convert_value v (data_type col)).
Proof.
  intros self table_name mode custom_query behavior chunk_size stmt bound ok Hin cols.
  pose proof (migrate_table_events table_name mode custom_query behavior
                chunk_size self) as Hall.
  rewrite Forall_forall in Hall. specialize (Hall _ Hin).
  apply executemany_event in Hall. destruct Hall as [-> (chunk & Hincl & ->)].
  split.
  - unfold copy_statement, prepare_insert_statement, copy_columns.
    rewrite length_map. reflexivity.
  - exists chunk. split; [exact Hincl|]. split; [reflexivity|].
    intros row _. split; [apply length_convert_row_values|].
    intros i v col Hv Hc. split.
    + rewrite nth_error_map, Hc. reflexivity.
    + apply nth_error_convert_row_values; assumption.
Qed.

End InsertStatement.

(** C3, as stated, fails.  The source table [NOTES] has one column whose
    dictionary name is [body]; the target has no such table.  The run
    creates the table, after which the target dictionary lists the column
    as [BODY], and copies the row with
    [INSERT INTO NOTES (body) VALUES (:1)]: the column list is the one
    read through the source connection, not the one the target connection
    gives. *)
Lemma insert_statement_not_from_target_columns :
  let self := Scenario.migrator Scenario.notes_source Scenario.notes_target false in
  let run := Scenario.migrate "NOTES" "full" None "drop_and_recreate" 100 self in
  result run = Returns true
  /\ map col_name (get_table_schema Toy.driver (target_conn (final run)) "NOTES")
     = ["BODY"]
  /\ In (TgtExecuteMany "INSERT INTO NOTES (body) VALUES (:1)" [[PyStr "x"]] true)
        (trace run)
  /\ ~ (forall stmt bound ok,
          In (TgtExecuteMany stmt bound ok) (trace run) ->
          stmt = prepare_insert_statement "NOTES"
                   (map col_name
                      (get_table_schema Toy.driver (target_conn (final run)) "NOTES")))
  /\ ~ (forall stmt bound ok,
          In (TgtExecuteMany stmt bound ok) (trace run) ->
          stmt = prepare_insert_statement "NOTES"
                   (map col_name
                      (get_table_schema Toy.driver (target_conn self) "NOTES"))).
Proof.
  intros self run.
  assert (Hin : In (TgtExecuteMany "INSERT INTO NOTES (body) VALUES (:1)"
                      [[PyStr "x"]] true) (trace run)).
  { vm_compute. repeat (first [left; reflexivity | right]). }
  split; [reflexivity|]. split; [reflexivity|]. split; [exact Hin|].
  split; intros H; specialize (H _ _ _ Hin); vm_compute in H; discriminate H.
Qed.

Lemma insert_statement_uses_source_columns_witness :
  let self := Scenario.migrator Scenario.source (Scenario.target_absent 5) false in
  In (TgtExecuteMany "INSERT INTO PEOPLE (ID, NAME) VALUES (:1, :2)"
        [[PyInt 1; PyStr "Ann"]; [PyInt 2; PyStr "42"]] true)
     (trace (Scenario.migrate "PEOPLE" "full" None "drop_and_recreate" 2 self))
  /\ "INSERT INTO PEOPLE (ID, NAME) VALUES (:1, :2)"
     = prepare_insert_statement "PEOPLE"
         (map col_name (get_table_schema Toy.driver Scenario.source "PEOPLE")).
Proof.
  intros self.
  assert (Hin : In (TgtExecuteMany "INSERT INTO PEOPLE (ID, NAME) VALUES (:1, :2)"
                      [[PyInt 1; PyStr "Ann"]; [PyInt 2; PyStr "42"]] true)
                   (trace (Scenario.migrate "PEOPLE" "full" None "drop_and_recreate" 2 self))).
  { vm_compute. repeat (first [left; reflexivity | right]). }
  split; [exact Hin|].
  exact (insert_statement_uses_source_columns Toy.driver (OracleHandler Toy.driver)
           self "PEOPLE" "full" None "drop_and_recreate" 2 _ _ _ Hin).
Defined.

Lemma insert_columns_and_tuples_aligned_witness :
  let self := Scenario.migrator Scenario.source (Scenario.target_absent 5) false in
  In (TgtExecuteMany "INSERT INTO PEOPLE (ID, NAME) VALUES (:1, :2)"
        [[PyInt 3; PyNone]] true)
     (trace (Scenario.migrate "PEOPLE" "full" None "drop_and_recreate" 2 self))
  /\ "INSERT INTO PEOPLE (ID, NAME) VALUES (:1, :2)"
     = "INSERT INTO " ++ "PEOPLE" ++ " ("
         ++ PyStr.join ", " (map col_name Scenario.people_columns) ++ ") VALUES ("
         ++ PyStr.join ", " (map (fun i => ":" ++ PyStr.of_nat (i + 1)) (seq 0 2))
         ++ ")".
Proof.
  intros self.
  assert (Hin : In (TgtExecuteMany "INSERT INTO PEOPLE (ID, NAME) VALUES (:1, :2)"
                      [[PyInt 3; PyNone]] true)
                   (trace (Scenario.migrate "PEOPLE" "full" None "drop_and_recreate" 2 self))).
  { vm_compute. repeat (first [left; reflexivity | right]). }
  split; [exact Hin|].
  exact (proj1 (insert_columns_and_tuples_aligned Toy.driver (OracleHandler Toy.driver)
                  self "PEOPLE" "full" None "drop_and_recreate" 2 _ _ _ Hin)).
Defined.

(* ===================================================================== *)
(** * When the source cursor is closed *)
(* ===================================================================== *)

Section CursorClose.

Context {S : Type} (drv : Driver S) (ops : IndexOps S).

Lemma quiet_no_close e : quiet e -> no_close e.
Proof. intros (H1 & _ & H3). split; assumption. Qed.

Lemma target_executemany_run (stmt : string) (rows : list Row) (self : TableMigrator S) :
  target_executemany drv stmt rows self
  = mkRun (if fst (executemany drv (target_conn self) stmt rows)
           then Returns tt else Raises "DatabaseError")
          (with_target self (snd (executemany drv (target_conn self) stmt rows)))
          [TgtExecuteMany stmt rows (fst (executemany drv (target_conn self) stmt rows))].
Proof.
  unfold target_executemany, bind, get_self, set_target, emit; simpl.
  destruct (fst (executemany drv (target_conn self) stmt rows)); reflexivity.
Qed.

Lemma target_commit_run (self : TableMigrator S) :
  target_commit drv self
  = mkRun (if fst (commit drv (target_conn self))
           then Returns tt else Raises "DatabaseError")
          (with_target self (snd (commit drv (target_conn self))))
          [TgtCommit (fst (commit drv (target_conn self)))].
Proof.
  unfold target_commit, bind, get_self, set_target, emit; simpl.
  destruct (fst (commit drv (target_conn self))); reflexivity.
Qed.

Lemma target_rollback_run (self : TableMigrator S) :
  target_rollback drv self
  = mkRun (Returns tt) (with_target self (rollback drv (target_conn self)))
          [TgtRollback].
Proof. reflexivity. Qed.

Lemma insert_chunk_run (stmt : string) (cols : list Column) (chunk : list Row)
    (self : TableMigrator S) :
  let run := insert_chunk drv stmt cols chunk self in
  (result run = Returns true /\ Forall quiet (trace run))
  \/ (result run = Returns false
      /\ Forall no_close (trace run) /\ In TgtRollback (trace run)).
Proof.
  unfold insert_chunk. cbv zeta.
  rewrite try_except_run, bind_run, target_executemany_run.
  cbn [result final trace].
  destruct (fst (executemany drv (target_conn self) stmt _)).
  - rewrite bind_run, target_commit_run. cbn [result final trace].
    destruct (fst (commit drv _)).
    + left. unfold preceded_by. cbn [result final trace ret app].
      split; [reflexivity|]. repeat constructor; try discriminate.
    + right. unfold preceded_by. cbn [result final trace ret app].
      rewrite bind_run, target_rollback_run.
      unfold preceded_by. cbn [result final trace ret app].
      split; [reflexivity|]. split.
      * repeat constructor; try discriminate.
      * simpl. auto.
  - right. cbn [result final trace].
    rewrite bind_run, target_rollback_run.
    unfold preceded_by. cbn [result final trace ret app].
    split; [reflexivity|]. split.
    + repeat constructor; try discriminate.
    + simpl. auto.
Qed.

(** The loop either runs until the generator is exhausted, and then its
    calls end with the empty fetch and the close; or it returns [False]
    from the [except] branch, and then it has rolled back and has neither
    fetched an empty batch nor closed the cursor. *)
Lemma copy_chunks_discipline (stmt : string) (cols : list Column) (k : nat) :
  forall (c : Cursor) (n : nat) (self : TableMigrator S),
    let run := copy_chunks drv stmt cols k c n self in
    (exists n' body,
        result run = Returns (Some n')
        /\ trace run = (body ++ [SrcFetchMany k 0; SrcCursorClose])%list
        /\ Forall quiet body)
    \/ (result run = Returns None
        /\ Forall no_close (trace run) /\ In TgtRollback (trace run)).
Proof.
  intros c.
  remember (length (pending c)) as len eqn:Hlen.
  revert c Hlen.
  induction len as [len IH] using lt_wf_ind.
  intros c Hlen n self. cbv zeta.
  rewrite copy_chunks_step.
  destruct (chunks_next k c) as [[[chunk|] c'] evs] eqn:E.
  - destruct (chunks_next_chunk _ _ E) as (Hchunk & Hpend & Hne & ->).
    assert (Hq : quiet (SrcFetchMany k (length chunk))).
    { repeat split; try discriminate.
      intros size H. injection H as _ H.
      destruct chunk; [congruence | discriminate]. }
    rewrite bind_run. cbn [emit_all result final trace].
    rewrite bind_run.
    destruct (insert_chunk_run stmt cols chunk self) as [[Hr Ht] | (Hr & Ht & Hrb)].
    + rewrite Hr.
      specialize (IH (length (pending c'))
                     ltac:(subst len; eapply chunks_next_decreases; eauto)
                     c' eq_refl (n + length chunk)
                     (final (insert_chunk drv stmt cols chunk self))).
      cbv zeta in IH.
      destruct IH as [(n' & body & Hres & Htr & Hbody) | (Hres & Htr & Hrb)].
      * left. exists n', (SrcFetchMany k (length chunk)
                            :: trace (insert_chunk drv stmt cols chunk self) ++ body)%list.
        unfold preceded_by; cbn [result final trace].
        split; [exact Hres|]. split.
        -- rewrite Htr. simpl. rewrite app_assoc. reflexivity.
        -- constructor; [exact Hq|]. apply Forall_app. split; assumption.
      * right. unfold preceded_by; cbn [result final trace].
        split; [exact Hres|]. split.
        -- simpl. constructor; [apply quiet_no_close; exact Hq|].
           apply Forall_app. split; [|assumption].
           eapply Forall_impl; [|exact Ht]. intros e. apply quiet_no_close.
        -- simpl. right. apply in_or_app. right. exact Hrb.
    + rewrite Hr. right.
      unfold preceded_by; cbn [result final trace ret].
      split; [reflexivity|]. split.
      * simpl. constructor; [apply quiet_no_close; exact Hq|].
        rewrite app_nil_r. exact Ht.
      * simpl. right. rewrite app_nil_r. exact Hrb.
  - left. exists n, [].
    unfold chunks_next in E.
    destruct (fst (fetchmany c k)); [|discriminate].
    injection E as _ <-.
    rewrite bind_run. cbn [emit_all result final trace preceded_by ret].
    repeat split. constructor.
Qed.

End CursorClose.

Section CloseDiscipline.

Context {S : Type} (drv : Driver S) (ops : IndexOps S).

Lemma quiet_not_rollback (l : list event) :
  Forall quiet l -> ~ In TgtRollback l.
Proof.
  intros H Hin. rewrite Forall_forall in H.
  destruct (H _ Hin) as (_ & Hr & _). congruence.
Qed.

Lemma discipline_preceded {A : Type} (failed : A -> Prop) (pre : list event)
    (run : Run S A) :
  Forall quiet pre ->
  close_discipline failed run ->
  close_discipline failed (preceded_by pre run).
Proof.
  intros Hpre [(body & rest & size & Htr & Hb & Hr) | (Hno & Hfail)].
  - left. exists (pre ++ body)%list, rest, size.
    unfold preceded_by; cbn [trace]. rewrite Htr.
    split; [rewrite app_assoc; reflexivity|].
    split; [apply Forall_app; split; assumption | assumption].
  - right. unfold preceded_by; cbn [result trace]. split.
    + apply Forall_app. split; [|assumption].
      eapply Forall_impl; [|exact Hpre]. intros e. apply quiet_no_close.
    + intros Hin. apply in_app_or in Hin. destruct Hin as [Hin | Hin].
      * exfalso. exact (quiet_not_rollback Hpre Hin).
      * apply Hfail. exact Hin.
Qed.

Lemma discipline_quiet_trace {A : Type} (failed : A -> Prop) (run : Run S A) :
  Forall quiet (trace run) -> close_discipline failed run.
Proof.
  intros H. right. split.
  - eapply Forall_impl; [|exact H]. intros e. apply quiet_no_close.
  - intros Hin. exfalso. exact (quiet_not_rollback H Hin).
Qed.

Lemma copy_epilogue_discipline (table_name stmt : string) (cols : list Column)
    (k : nat) (c : Cursor) (self : TableMigrator S) :
  close_discipline (fun b => b = false)
    (copy_epilogue ops table_name (copy_chunks drv stmt cols k c 0 self)).
Proof.
  unfold copy_epilogue.
  destruct (copy_chunks_discipline drv stmt cols k c 0 self)
    as [(n' & body & Hres & Htr & Hbody) | (Hres & Htr & Hrb)];
    cbv zeta in *; rewrite Hres.
  - assert (Hix : Forall quiet
              (trace (_migrate_indexes_for_table ops table_name table_name
                        (final (copy_chunks drv stmt cols k c 0 self))))).
    { apply traces_migrate_indexes_for_table;
        intros; repeat split; discriminate. }
    left.
    destruct (migrate_indexes_globally _).
    + destruct (result (_migrate_indexes_for_table ops table_name table_name _));
        cbn [trace]; exists body, (trace (_migrate_indexes_for_table ops table_name
                                            table_name
                                            (final (copy_chunks drv stmt cols k c 0 self)))), k;
        (split; [rewrite Htr, <- app_assoc; reflexivity|]);
        split; assumption.
    + cbn [trace]. exists body, [], k.
      split; [rewrite Htr; reflexivity|]. split; [assumption | constructor].
  - right. cbn [result trace]. split; [assumption|].
    intros _. exists false. split; reflexivity.
Qed.

Lemma migrate_table_copy_discipline (table_name mode : string)
    (custom_query : option string) (chunk_size : nat) (self : TableMigrator S) :
  close_discipline (fun b => b = false)
    (migrate_table_copy drv ops table_name mode custom_query chunk_size self).
Proof.
  rewrite migrate_table_copy_run.
  destruct (query_count drv (source_conn self) _) as [row_count|];
    [|apply discipline_quiet_trace; constructor].
  destruct (row_count =? 0)%Z; [apply discipline_quiet_trace; constructor|].
  assert (Hpro : Forall quiet
            (copy_prologue drv self table_name mode custom_query chunk_size)).
  { unfold copy_prologue. repeat constructor; discriminate. }
  destruct (cursor_execute drv (source_conn self) _) as [rows|].
  - apply discipline_preceded; [exact Hpro|].
    apply copy_epilogue_discipline.
  - apply discipline_quiet_trace. exact Hpro.
Qed.

Lemma migrate_table_create_discipline (table_name mode : string)
    (custom_query : option string) (chunk_size : nat) (self : TableMigrator S) :
  close_discipline (fun b => b = false)
    (migrate_table_create drv ops table_name mode custom_query chunk_size self).
Proof.
  pose proof (migrate_table_create_run drv ops table_name mode custom_query
                chunk_size self) as H.
  unfold creates_from_source in H.
  destruct (PyStr.truthy _).
  - destruct (fst (execute_non_query drv (target_conn self) _)); rewrite H.
    + apply discipline_preceded; [repeat constructor; discriminate|].
      apply migrate_table_copy_discipline.
    + apply discipline_quiet_trace. repeat constructor; discriminate.
  - rewrite H. apply discipline_quiet_trace. constructor.
Qed.

Lemma migrate_table_discipline (table_name mode : string) (custom_query : option string)
    (behavior : string) (chunk_size : nat) (self : TableMigrator S) :
  close_discipline (fun b => b = false)
    (migrate_table drv ops table_name mode custom_query behavior chunk_size self).
Proof.
  rewrite migrate_table_run.
  destruct (table_exists drv (target_conn self) table_name);
    [|apply migrate_table_create_discipline].
  destruct (behavior =? "drop_and_recreate").
  - cbv zeta.
    destruct (fst (execute_non_query drv (target_conn self) _)).
    + apply discipline_preceded; [repeat constructor; discriminate|].
      apply migrate_table_create_discipline.
    + apply discipline_quiet_trace. repeat constructor; discriminate.
  - destruct (behavior =? "append_if_compatible");
      [|apply discipline_quiet_trace; constructor].
    destruct (schemas_match drv (source_conn self) (target_conn self) table_name);
      [|apply discipline_quiet_trace; constructor].
    apply migrate_table_copy_discipline.
Qed.

Lemma quiet_not_close (l : list event) : Forall quiet l -> ~ In SrcCursorClose l.
Proof.
  intros H Hin. rewrite Forall_forall in H.
  destruct (H _ Hin) as (Hc & _). congruence.
Qed.

Lemma no_close_not_in (l : list event) :
  Forall no_close l ->
  ~ In SrcCursorClose l /\ forall size, ~ In (SrcFetchMany size 0) l.
Proof.
  intros H. rewrite Forall_forall in H. split.
  - intros Hin. destruct (H _ Hin) as (Hc & _). congruence.
  - intros size Hin. destruct (H _ Hin) as (_ & Hf). apply (Hf size). reflexivity.
Qed.

(** In a list of the first shape the close stands at one place only. *)
Lemma close_position (body rest pre post : list event) (size : nat) :
  Forall quiet body -> Forall quiet rest ->
  (body ++ [SrcFetchMany size 0; SrcCursorClose] ++ rest)%list
  = (pre ++ SrcCursorClose :: post)%list ->
  pre = (body ++ [SrcFetchMany size 0])%list.
Proof.
  intros Hb Hr. revert pre.
  induction body as [|b body IH]; intros pre Heq.
  - simpl in Heq.
    destruct pre as [|x [|y pre]]; simpl in Heq.
    + discriminate.
    + injection Heq as <- _. reflexivity.
    + injection Heq as _ _ Hrest. exfalso.
      apply (quiet_not_close Hr). rewrite Hrest.
      apply in_or_app. right. left. reflexivity.
  - inversion Hb as [|? ? Hqb Hbody]; subst.
    destruct pre as [|x pre]; simpl in Heq.
    + injection Heq as -> _. destruct Hqb as (Hc & _). congruence.
    + injection Heq as <- Heq. simpl. f_equal. apply IH; assumption.
Qed.

(** C10.  The generator closes its cursor exactly when a fetch returns no
    rows.  In every run of [migrate_table], a close of the source cursor
    comes immediately after a fetch that returned no rows; so a run without
    an empty fetch never closes the cursor.  In particular, when a batch
    insertion fails (the run rolls back), [migrate_table] returns [False]
    having stopped before any empty fetch, and the cursor is never
    closed. *)
Theorem cursor_closed_only_after_empty_fetch :
  forall (self : TableMigrator S) (table_name mode : string)
         (custom_query : option string) (behavior : string) (chunk_size : nat),
    let run := migrate_table drv ops table_name mode custom_query behavior
                 chunk_size self in
    (forall k c, closed c = false ->
       (closed (snd (fst (chunks_next k c))) = true <-> fst (fetchmany c k) = []))
    /\ (forall pre post,
          trace run = (pre ++ SrcCursorClose :: post)%list ->
          exists pre' size, pre = (pre' ++ [SrcFetchMany size 0])%list)
    /\ ((forall size, ~ In (SrcFetchMany size 0) (trace run)) ->
        ~ In SrcCursorClose (trace run))
    /\ (In TgtRollback (trace run) ->
        result run = Returns false
        /\ ~ In SrcCursorClose (trace run)
        /\ forall size, ~ In (SrcFetchMany size 0) (trace run)).
Proof.
  intros self table_name mode custom_query behavior chunk_size run.
  pose proof (migrate_table_discipline table_name mode custom_query behavior
                chunk_size self) as D.
  fold run in D.
  split; [|split; [|split]].
  - intros k c Hc. unfold chunks_next.
    destruct (fst (fetchmany c k)) eqn:E; simpl.
    + split; reflexivity.
    + unfold fetchmany; simpl. rewrite Hc. split; discriminate.
  - intros pre post Heq.
    destruct D as [(body & rest & size & Htr & Hb & Hr) | (Hno & _)].
    + rewrite Htr in Heq.
      exists body, size. eapply close_position; eauto.
    + exfalso. apply (proj1 (no_close_not_in Hno)).
      rewrite Heq. apply in_or_app. right. left. reflexivity.
  - intros Hnf Hin.
    destruct D as [(body & rest & size & Htr & _) | (Hno & _)].
    + apply (Hnf size). rewrite Htr.
      apply in_or_app. right. left. reflexivity.
    + apply (proj1 (no_close_not_in Hno)). exact Hin.
  - intros Hrb.
    destruct D as [(body & rest & size & Htr & Hb & Hr) | (Hno & Hfail)].
    + exfalso. rewrite Htr in Hrb.
      apply in_app_or in Hrb. destruct Hrb as [Hrb | Hrb].
      * exact (quiet_not_rollback Hb Hrb).
      * simpl in Hrb. destruct Hrb as [Hrb | [Hrb | Hrb]]; try discriminate.
        exact (quiet_not_rollback Hr Hrb).
    + destruct (Hfail Hrb) as (a & Ha & ->).
      split; [exact Ha|]. apply no_close_not_in. exact Hno.
Qed.

End CloseDiscipline.

Lemma cursor_closed_only_after_empty_fetch_witness :
  let ops := OracleHandler Toy.driver in
  let failing := Scenario.migrator Scenario.source (Scenario.target_absent 1) false in
  let failed := Scenario.migrate "PEOPLE" "full" None "drop_and_recreate" 2 failing in
  let working := Scenario.migrator Scenario.source (Scenario.target_absent 5) false in
  let worked := Scenario.migrate "PEOPLE" "full" None "drop_and_recreate" 2 working in
  (* a batch insertion fails *)
  (In TgtRollback (trace failed)
   /\ result failed = Returns false
   /\ ~ In SrcCursorClose (trace failed))
  (* the run makes no empty fetch *)
  /\ ((forall size, ~ In (SrcFetchMany size 0) (trace failed))
      /\ ~ In SrcCursorClose (trace failed))
  (* the run closes the cursor *)
  /\ (exists pre,
        trace worked = (pre ++ [SrcCursorClose])%list
        /\ exists pre' size, pre = (pre' ++ [SrcFetchMany size 0])%list).
Proof.
  intros ops failing failed working worked.
  assert (Hrb : In TgtRollback (trace failed)).
  { vm_compute. repeat (first [left; reflexivity | right]). }
  assert (Hnf : forall size, ~ In (SrcFetchMany size 0) (trace failed)).
  { intros size H. vm_compute in H.
    repeat (destruct H as [H | H]; [discriminate H|]). exact H. }
  destruct (cursor_closed_only_after_empty_fetch Toy.driver ops
              failing "PEOPLE" "full" None "drop_and_recreate" 2)
    as (_ & _ & H2 & H3).
  destruct (cursor_closed_only_after_empty_fetch Toy.driver ops
              working "PEOPLE" "full" None "drop_and_recreate" 2)
    as (_ & H1 & _).
  fold failed in H2, H3. fold worked in H1.
  split; [|split].
  - destruct (H3 Hrb) as (Hres & Hnc & _).
    split; [exact Hrb|]. split; [exact Hres | exact Hnc].
  - split; [exact Hnf | exact (H2 Hnf)].
  - exists (removelast (trace worked)).
    assert (Heq : trace worked = (removelast (trace worked) ++ [SrcCursorClose])%list)
      by (vm_compute; reflexivity).
    split; [exact Heq | exact (H1 _ [] Heq)].
Defined.

(* ===================================================================== *)
(** * Index replication *)
(* ===================================================================== *)

Section IndexReplication.

Context {S : Type} (drv : Driver S) (ops : IndexOps S).






Lemma total_migrate_indexes_for_table (source_table target_table : string) :
  total (_migrate_indexes_for_table ops source_table target_table).
Proof.
  unfold _migrate_indexes_for_table.
  apply total_try_except. intros exc. apply total_ret.
Qed.





End IndexReplication.



(* ===================================================================== *)
(** * The exit code of [main] *)
(* ===================================================================== *)

Section MainExit.

Context {S : Type} (drv : Driver S) (ops : IndexOps S).

(** The call [TableMigrator(source_db, target_db)] of [main] leaves out
    [migration_settings], which [__init__] requires. *)
Lemma TableMigrator_init_without_settings (source_db target_db : S) :
  TableMigrator_init (Given source_db) (Given target_db) Omitted
  = Raises "TypeError".
Proof. reflexivity. Qed.

(** Every run of [main] hands 1 to [sys.exit] and prints no summary. *)
Lemma main_always_exits_1 (config : outcome Config) (source_db target_db : S) :
  exit_code (main drv ops config source_db target_db) = 1%Z
  /\ summary (main drv ops config source_db target_db) = None
  /\ main_trace (main drv ops config source_db target_db) = [].
Proof.
  unfold main.
  destruct config as [config|exc]; [|repeat split].
  destruct (connect drv source_db) as [s|]; [|repeat split].
  destruct (connect drv target_db) as [t|]; [|repeat split].
  rewrite TableMigrator_init_without_settings. repeat split.
Qed.

(** The loop of [main] counts every table once. *)
Lemma main_loop_counts (config : Config) :
  forall (tables_config : list TableConfig) (success_count fail_count : nat)
         (self : TableMigrator S) (s f : nat),
    result (main_loop drv ops config tables_config success_count fail_count self)
      = Returns (s, f) ->
    s + f = success_count + fail_count + length tables_config
    /\ success_count <= s /\ fail_count <= f.
Proof.
  induction tables_config as [|tc rest IH];
    intros success_count fail_count self s f H.
  - simpl in H. injection H as <- <-. simpl. lia.
  - cbn [main_loop] in H. rewrite bind_run in H.
    destruct (result (migrate_table drv ops _ _ _ _ _ self)) as [[|]|exc];
      unfold preceded_by in H; cbn [result] in H; try discriminate;
      apply IH in H; simpl; lia.
Qed.

End MainExit.

(** C1 fails on the code.  With both databases reachable and no table
    configured, and likewise with one configured table that migrates
    successfully when the migrator is built with its settings, [main]
    exits with code 1: constructing the migrator raises [TypeError], which
    the [except] branch of [main] turns into exit code 1 before any table
    is counted. *)
Theorem main_exits_1_without_any_failure :
  let ops := OracleHandler Toy.driver in
  let no_tables := Returns (mkConfig (Some []) None) in
  let one_table :=
    Returns (mkConfig
               (Some [mkTableConfig "PEOPLE" None None (Some "append_if_compatible")
                                    (Some 2)])
               None) in
  exit_code (main Toy.driver ops no_tables Scenario.source (Scenario.target_same 5))
    = 1%Z
  /\ exit_code (main Toy.driver ops one_table Scenario.source (Scenario.target_same 5))
    = 1%Z
  /\ (exists migrator,
        TableMigrator_init (Given Scenario.source) (Given (Scenario.target_same 5))
                           (Given (mkSettings None None))
          = Returns migrator
        /\ result (main_loop Toy.driver ops (mkConfig None None)
                     [mkTableConfig "PEOPLE" None None (Some "append_if_compatible")
                                    (Some 2)]
                     0 0 migrator)
           = Returns (1, 0)).
Proof.
  intros ops no_tables one_table.
  split; [reflexivity|]. split; [reflexivity|].
  eexists. split; [reflexivity|]. reflexivity.
Qed.

(* ===================================================================== *)
(** * The copy loop and the generator *)
(* ===================================================================== *)

Section CopyBatches.

Context {S : Type} (drv : Driver S).

(** The [try] block of the loop, case by case. *)
Lemma insert_chunk_cases (stmt : string) (cols : list Column) (chunk : list Row)
    (self : TableMigrator S) :
  let converted := map (fun row => convert_row_values row cols) chunk in
  let r1 := executemany drv (target_conn self) stmt converted in
  let r2 := commit drv (snd r1) in
  insert_chunk drv stmt cols chunk self
  = if fst r1 then
      if fst r2 then
        mkRun (Returns true) (with_target self (snd r2))
              [TgtExecuteMany stmt converted true; TgtCommit true]
      else
        mkRun (Returns false) (with_target self (rollback drv (snd r2)))
              [TgtExecuteMany stmt converted true; TgtCommit false; TgtRollback]
    else
      mkRun (Returns false) (with_target self (rollback drv (snd r1)))
            [TgtExecuteMany stmt converted false; TgtRollback].
Proof.
  cbv zeta. unfold insert_chunk.
  rewrite try_except_run, bind_run, target_executemany_run.
  cbn [result final trace].
  destruct (fst (executemany drv (target_conn self) stmt _)).
  - rewrite bind_run, target_commit_run. cbn [result final trace target_conn with_target].
    destruct (fst (commit drv _)).
    + reflexivity.
    + unfold preceded_by. cbn [result final trace ret app].
      rewrite bind_run, target_rollback_run. reflexivity.
  - cbn [result final trace].
    rewrite bind_run, target_rollback_run. reflexivity.
Qed.

Lemma chunks_drain_yield (k : nat) (c c' : Cursor) (chunk : list Row) (evs : list event) :
  chunks_next k c = (Some chunk, c', evs) ->
  fst (fst (chunks_drain k c)) = chunk :: fst (fst (chunks_drain k c')).
Proof.
  intros E. rewrite (chunks_drain_step k c), E. reflexivity.
Qed.

Lemma chunks_drain_exhausted (k : nat) (c c' : Cursor) (evs : list event) :
  chunks_next k c = (None, c', evs) ->
  fst (fst (chunks_drain k c)) = [] /\ evs = [SrcFetchMany k 0; SrcCursorClose].
Proof.
  intros E. rewrite (chunks_drain_step k c), E. split; [reflexivity|].
  unfold chunks_next in E. destruct (fst (fetchmany c k)); [|discriminate].
  injection E as _ <-. reflexivity.
Qed.

(** The runs of the copy loop, by the batches that the generator yields. *)
Lemma copy_chunks_batches :
  forall (stmt : string) (cols : list Column) (k : nat)
         (c : Cursor) (n : nat) (self : TableMigrator S),
    let batches := fst (fst (chunks_drain k c)) in
    let run := copy_chunks drv stmt cols k c n self in
    let converted chunk := map (fun row => convert_row_values row cols) chunk in
    (result run = Returns (Some (n + list_sum (map (@length Row) batches)))
     /\ trace run
        = (flat_map (batch_events stmt cols k) batches
           ++ [SrcFetchMany k 0; SrcCursorClose])%list)
    \/ (exists done chunk rest tail,
           batches = (done ++ chunk :: rest)%list
           /\ result run = Returns None
           /\ trace run
              = (flat_map (batch_events stmt cols k) done
                 ++ SrcFetchMany k (length chunk) :: tail)%list
           /\ (tail = [TgtExecuteMany stmt (converted chunk) false; TgtRollback]
               \/ tail = [TgtExecuteMany stmt (converted chunk) true;
                          TgtCommit false; TgtRollback])).
Proof.
  intros stmt cols k c.
  remember (length (pending c)) as len eqn:Hlen.
  revert c Hlen.
  induction len as [len IH] using lt_wf_ind.
  intros c Hlen n self. cbv zeta.
  rewrite copy_chunks_step.
  destruct (chunks_next k c) as [[[chunk|] c'] evs] eqn:E.
  - rewrite (chunks_drain_yield _ _ E).
    destruct (chunks_next_chunk _ _ E) as (_ & _ & _ & ->).
    rewrite bind_run. cbn [emit_all result final trace].
    rewrite bind_run, insert_chunk_cases. cbv zeta.
    destruct (fst (executemany drv (target_conn self) stmt _)) eqn:E1.
    + destruct (fst (commit drv _)) eqn:E2.
      * cbn [result final trace].
        match goal with
        | |- context [copy_chunks drv stmt cols k c' ?m ?s] =>
            specialize (IH (length (pending c'))
                           ltac:(subst len; eapply chunks_next_decreases; eauto)
                           c' eq_refl m s)
        end.
        cbv zeta in IH.
        destruct IH as [(Hres & Htr) | (done & chunk' & rest & tail & Hb & Hres & Htr & Htail)].
        -- left. unfold preceded_by; cbn [result final trace].
           split.
           ++ rewrite Hres. simpl. do 2 f_equal. lia.
           ++ rewrite Htr. reflexivity.
        -- right. exists (chunk :: done), chunk', rest, tail.
           unfold preceded_by; cbn [result final trace].
           split; [rewrite Hb; reflexivity|].
           split; [exact Hres|].
           split; [rewrite Htr; reflexivity | exact Htail].
      * right. exists [], chunk, (fst (fst (chunks_drain k c'))).
        eexists. unfold preceded_by; cbn [result final trace ret].
        split; [reflexivity|]. split; [reflexivity|].
        split; [reflexivity|]. right. reflexivity.
    + right. exists [], chunk, (fst (fst (chunks_drain k c'))).
      eexists. unfold preceded_by; cbn [result final trace ret].
      split; [reflexivity|]. split; [reflexivity|].
      split; [reflexivity|]. left. reflexivity.
  - destruct (chunks_drain_exhausted _ _ E) as (-> & ->).
    left. rewrite bind_run. cbn [emit_all result final trace preceded_by ret].
    split; [simpl; rewrite Nat.add_0_r; reflexivity | reflexivity].
Qed.

(** X1.  The copy loop consumes the batches of the generator in order.
    Either every batch the generator yields is fetched, inserted with one
    [executemany] and committed, after which the empty fetch and the close
    follow and the loop ends with [rows_processed] raised by the total
    number of rows; or the loop stops at the first batch whose
    [executemany] or commit raises, rolls back, and returns [False]: the
    batches before it were each inserted and committed, the batches after
    it are never fetched. *)
Theorem copy_loop_follows_generator :
  forall (stmt : string) (cols : list Column) (k : nat)
         (c : Cursor) (n : nat) (self : TableMigrator S),
    let batches := fst (fst (chunks_drain k c)) in
    let run := copy_chunks drv stmt cols k c n self in
    let converted chunk := map (fun row => convert_row_values row cols) chunk in
    (result run = Returns (Some (n + list_sum (map (@length Row) batches)))
     /\ trace run
        = (flat_map (batch_events stmt cols k) batches
           ++ [SrcFetchMany k 0; SrcCursorClose])%list)
    \/ (exists done chunk rest tail,
           batches = (done ++ chunk :: rest)%list
           /\ result run = Returns None
           /\ trace run
              = (flat_map (batch_events stmt cols k) done
                 ++ SrcFetchMany k (length chunk) :: tail)%list
           /\ (tail = [TgtExecuteMany stmt (converted chunk) false; TgtRollback]
               \/ tail = [TgtExecuteMany stmt (converted chunk) true;
                          TgtCommit false; TgtRollback])).
Proof.
  exact copy_chunks_batches.
Qed.

End CopyBatches.

(* ===================================================================== *)
(** * What a run of [migrate_table] does to a table *)
(* ===================================================================== *)

Section TableRuns.

Context {S : Type} (drv : Driver S) (ops : IndexOps S).

(** Reconciliation either fails, having made only DROP and CREATE calls, or
    hands over to the copy stage after at most two successful calls, with
    the source handle and the index switch as they were. *)
Lemma migrate_table_decompose (table_name mode : string) (custom_query : option string)
    (behavior : string) (chunk_size : nat) (self : TableMigrator S) :
  let run := migrate_table drv ops table_name mode custom_query behavior
               chunk_size self in
  (exists ddl self',
      run = preceded_by ddl
              (migrate_table_copy drv ops table_name mode custom_query chunk_size self')
      /\ Forall (fun e => exists sql, e = TgtExecuteNonQuery sql true) ddl
      /\ length ddl <= 2
      /\ source_conn self' = source_conn self
      /\ migrate_indexes_globally self' = migrate_indexes_globally self)
  \/ (result run = Returns false
      /\ Forall is_non_query (trace run)
      /\ length (trace run) <= 2).
Proof.
  cbv zeta.
  assert (Hcreate : forall (pre : list event) (s : TableMigrator S),
             Forall (fun e => exists sql, e = TgtExecuteNonQuery sql true) pre ->
             length pre <= 1 ->
             source_conn s = source_conn self ->
             migrate_indexes_globally s = migrate_indexes_globally self ->
             let run := preceded_by pre
                          (migrate_table_create drv ops table_name mode custom_query
                             chunk_size s) in
             (exists ddl self',
                 run = preceded_by ddl
                         (migrate_table_copy drv ops table_name mode custom_query
                            chunk_size self')
                 /\ Forall (fun e => exists sql, e = TgtExecuteNonQuery sql true) ddl
                 /\ length ddl <= 2
                 /\ source_conn self' = source_conn self
                 /\ migrate_indexes_globally self' = migrate_indexes_globally self)
             \/ (result run = Returns false
                 /\ Forall is_non_query (trace run)
                 /\ length (trace run) <= 2)).
  { intros pre s Hpre Hlen Hs Hf. cbv zeta.
    assert (Hnq : Forall is_non_query pre).
    { eapply Forall_impl; [|exact Hpre]. intros e (sql & ->). exact I. }
    pose proof (migrate_table_create_run drv ops table_name mode custom_query
                  chunk_size s) as H.
    unfold creates_from_source in H.
    destruct (PyStr.truthy _).
    - destruct (fst (execute_non_query drv (target_conn s) _)); rewrite H.
      + left.
        exists (pre ++ [TgtExecuteNonQuery
                          (generate_create_table_sql drv (source_conn s) table_name)
                          true])%list,
               (after_non_query drv s
                  (generate_create_table_sql drv (source_conn s) table_name)).
        split; [unfold preceded_by; cbn [result final trace];
                rewrite <- app_assoc; reflexivity|].
        split; [apply Forall_app; split; [exact Hpre|]; repeat constructor; eauto|].
        split; [rewrite length_app; simpl; lia|].
        split; assumption.
      + right. unfold preceded_by; cbn [result final trace].
        split; [reflexivity|]. split.
        * apply Forall_app. split; [exact Hnq | repeat constructor].
        * rewrite length_app. simpl. lia.
    - rewrite H. right. unfold preceded_by; cbn [result final trace].
      rewrite app_nil_r. split; [reflexivity|]. split; [exact Hnq | lia]. }
  rewrite migrate_table_run.
  destruct (table_exists drv (target_conn self) table_name).
  - destruct (behavior =? "drop_and_recreate").
    + cbv zeta.
      destruct (fst (execute_non_query drv (target_conn self) _)).
      * apply Hcreate; [repeat constructor; eauto | simpl; lia | reflexivity | reflexivity].
      * right. cbn [result trace]. split; [reflexivity|].
        split; [repeat constructor | simpl; lia].
    + destruct (behavior =? "append_if_compatible").
      * destruct (schemas_match drv (source_conn self) (target_conn self) table_name).
        -- left. exists [], self. rewrite preceded_by_nil.
           split; [reflexivity|]. split; [constructor|].
           split; [simpl; lia|]. split; reflexivity.
        -- right. cbn [result trace]. split; [reflexivity|].
           split; [constructor | simpl; lia].
      * right. cbn [result trace]. split; [reflexivity|].
        split; [constructor | simpl; lia].
  - specialize (Hcreate [] self (Forall_nil _) ltac:(simpl; lia) eq_refl eq_refl).
    cbv zeta in Hcreate. rewrite preceded_by_nil in Hcreate. exact Hcreate.
Qed.

Lemma copy_run_same_source (table_name mode : string) (custom_query : option string)
    (chunk_size : nat) (self self' : TableMigrator S) :
  source_conn self' = source_conn self ->
  copy_statement drv self' table_name = copy_statement drv self table_name
  /\ copy_columns drv self' table_name = copy_columns drv self table_name
  /\ copy_prologue drv self' table_name mode custom_query chunk_size
     = copy_prologue drv self table_name mode custom_query chunk_size.
Proof.
  intros H. unfold copy_prologue, copy_statement, copy_columns. rewrite H.
  repeat split.
Qed.

Lemma copy_chunks_keeps (stmt : string) (cols : list Column) (k : nat) :
  forall (c : Cursor) (n : nat) (self : TableMigrator S),
    let run := copy_chunks drv stmt cols k c n self in
    source_conn (final run) = source_conn self
    /\ migrate_indexes_globally (final run) = migrate_indexes_globally self.
Proof.
  intros c.
  remember (length (pending c)) as len eqn:Hlen.
  revert c Hlen.
  induction len as [len IH] using lt_wf_ind.
  intros c Hlen n self. cbv zeta.
  rewrite copy_chunks_step.
  destruct (chunks_next k c) as [[[chunk|] c'] evs] eqn:E.
  - rewrite bind_run. cbn [emit_all result final trace].
    rewrite bind_run, insert_chunk_cases. cbv zeta.
    destruct (fst (executemany drv (target_conn self) stmt _)).
    + destruct (fst (commit drv _)); cbn [result final trace preceded_by ret].
      * match goal with
        | |- context [copy_chunks drv stmt cols k c' ?m ?s] =>
            destruct (IH (length (pending c'))
                         ltac:(subst len; eapply chunks_next_decreases; eauto)
                         c' eq_refl m s) as (H1 & H2)
        end.
        rewrite H1, H2. split; reflexivity.
      * split; reflexivity.
    + cbn [result final trace preceded_by ret]. split; reflexivity.
  - rewrite bind_run. cbn [emit_all result final trace preceded_by ret].
    split; reflexivity.
Qed.

Lemma committed_rows_skip (pre t : list event) :
  Forall (fun e => ~ is_execute_many e) pre ->
  committed_rows (pre ++ t) = committed_rows t.
Proof.
  induction 1 as [|e pre He _ IH]; [reflexivity|].
  destruct e; simpl in *; try exact IH. exfalso. apply He. exact I.
Qed.

Lemma committed_rows_none (t : list event) :
  Forall (fun e => ~ is_execute_many e) t -> committed_rows t = [].
Proof.
  intros H. rewrite <- (app_nil_r t). rewrite committed_rows_skip by assumption.
  reflexivity.
Qed.

Lemma committed_rows_batches (stmt : string) (cols : list Column) (k : nat)
    (batches : list (list Row)) (t : list event) :
  committed_rows (flat_map (batch_events stmt cols k) batches ++ t)
  = (map (fun row => convert_row_values row cols) (concat batches)
     ++ committed_rows t)%list.
Proof.
  induction batches as [|chunk batches IH]; [reflexivity|].
  simpl. rewrite IH, map_app, app_assoc. reflexivity.
Qed.

Lemma non_query_not_execute_many (l : list event) :
  Forall is_non_query l -> Forall (fun e => ~ is_execute_many e) l.
Proof.
  intros H. eapply Forall_impl; [|exact H].
  intros e He. destruct e; simpl in *; tauto.
Qed.

Lemma ok_non_query (l : list event) :
  Forall (fun e => exists sql, e = TgtExecuteNonQuery sql true) l ->
  Forall is_non_query l.
Proof.
  intros H. eapply Forall_impl; [|exact H]. intros e (sql & ->). exact I.
Qed.

Lemma index_trace_no_execute_many (source_table target_table : string)
    (self : TableMigrator S) :
  Forall (fun e => ~ is_execute_many e /\ e <> TgtRollback)
         (trace (_migrate_indexes_for_table ops source_table target_table self)).
Proof.
  apply traces_migrate_indexes_for_table; intros; split; simpl; try tauto; discriminate.
Qed.

End TableRuns.

Section TableProperties.

Context {S : Type} (drv : Driver S) (ops : IndexOps S).

(** The end of [migrate_table] after a loop that ran to exhaustion: the
    run returns [True], and only index calls follow the loop, none when
    index replication is switched off. *)
Lemma copy_epilogue_finished (table_name : string) (loop : Run S (option nat)) (m : nat) :
  result loop = Returns (Some m) ->
  let run := copy_epilogue ops table_name loop in
  result run = Returns true
  /\ exists ix,
       trace run = (trace loop ++ ix)%list
       /\ Forall is_index_event ix
       /\ (migrate_indexes_globally (final loop) = false -> ix = []).
Proof.
  intros Hres. cbv zeta. unfold copy_epilogue. rewrite Hres.
  destruct (migrate_indexes_globally (final loop)) eqn:Hflag.
  - assert (Hix : Forall is_index_event
              (trace (_migrate_indexes_for_table ops table_name table_name (final loop)))).
    { apply traces_migrate_indexes_for_table; intros; exact I. }
    destruct (total_migrate_indexes_for_table ops table_name table_name (final loop))
      as [b Hb].
    rewrite Hb. cbn [result trace]. split; [reflexivity|].
    eexists. split; [reflexivity|]. split; [exact Hix | discriminate].
  - cbn [result trace]. split; [reflexivity|].
    exists []. rewrite app_nil_r. split; [reflexivity|].
    split; [constructor | reflexivity].
Qed.

Lemma copy_epilogue_failed (table_name : string) (loop : Run S (option nat)) :
  result loop = Returns None ->
  copy_epilogue ops table_name loop = mkRun (Returns false) (final loop) (trace loop).
Proof. intros H. unfold copy_epilogue. rewrite H. reflexivity. Qed.

Lemma index_events_not_execute_many (ix : list event) :
  Forall is_index_event ix ->
  Forall (fun e => ~ is_execute_many e) ix /\ ~ In TgtRollback ix
  /\ Forall (fun e => ~ is_non_query e) ix.
Proof.
  intros H. split; [|split].
  - eapply Forall_impl; [|exact H]. intros e He. destruct e; simpl in *; tauto.
  - intros Hin. rewrite Forall_forall in H. exact (H _ Hin).
  - eapply Forall_impl; [|exact H]. intros e He. destruct e; simpl in *; tauto.
Qed.

Lemma batch_events_no_rollback (stmt : string) (cols : list Column) (k : nat)
    (batches : list (list Row)) :
  ~ In TgtRollback (flat_map (batch_events stmt cols k) batches).
Proof.
  intros H. apply in_flat_map in H. destruct H as (chunk & _ & H).
  simpl in H. destruct H as [H | [H | [H | []]]]; discriminate.
Qed.

(** X2.  When [migrate_table] returns [True] for a table whose row count
    is not zero (chunk size at least 1), the rows it inserted and
    committed are, in order and each exactly once, all the rows of the
    result set of the copied query, converted against the source columns;
    and it never rolled back. *)
Theorem successful_copy_inserts_every_row :
  forall (self : TableMigrator S) (table_name mode : string)
         (custom_query : option string) (behavior : string) (chunk_size : nat)
         (row_count : Z),
    0 < chunk_size ->
    query_count drv (source_conn self) (copy_count_query table_name mode custom_query)
      = Some row_count ->
    row_count <> 0%Z ->
    let run := migrate_table drv ops table_name mode custom_query behavior
                 chunk_size self in
    result run = Returns true ->
    exists rows,
      cursor_execute drv (source_conn self) (copy_query table_name mode custom_query)
        = Some rows
      /\ committed_rows (trace run)
         = map (fun row =>
                  convert_row_values row
                    (get_table_schema drv (source_conn self) table_name)) rows
      /\ ~ In TgtRollback (trace run).
Proof.
  intros self table_name mode custom_query behavior chunk_size row_count
         Hk Hcount Hnz run Hres.
  destruct (migrate_table_decompose drv ops table_name mode custom_query behavior
              chunk_size self)
    as [(ddl & self' & Hrun & Hddl & _ & Hs & Hf) | (Hfalse & _)];
    cbv zeta in *; fold run in Hrun || fold run in Hfalse;
    [|rewrite Hfalse in Hres; discriminate].
  destruct (copy_run_same_source drv table_name mode custom_query chunk_size self self' Hs)
    as (Hst & Hco & Hpro).
  rewrite migrate_table_copy_run in Hrun.
  rewrite Hs, Hcount in Hrun.
  apply Z.eqb_neq in Hnz. rewrite Hnz in Hrun.
  destruct (cursor_execute drv (source_conn self) _) as [rows|] eqn:Hrows;
    [|rewrite Hrun in Hres; discriminate].
  exists rows. split; [reflexivity|].
  rewrite Hst, Hco, Hpro in Hrun.
  destruct (copy_chunks_batches drv (copy_statement drv self table_name)
              (copy_columns drv self table_name) chunk_size
              (mkCursor rows chunk_size false) 0 self')
    as [(Hloop & Htr) | (done & chunk & rest & tail & _ & Hloop & _)];
    cbv zeta in *.
  - destruct (copy_epilogue_finished table_name _ Hloop) as (_ & ix & Hix & Hidx & _).
    cbv zeta in Hix.
    destruct (index_events_not_execute_many Hidx) as (Hnoex & Hnorb & _).
    destruct (chunks_drain_spec Hk (mkCursor rows chunk_size false) eq_refl)
      as (_ & _ & _ & Hconcat & _).
    cbv zeta in Hconcat. simpl in Hconcat.
    assert (Htrace : trace run
                     = (ddl ++ copy_prologue drv self table_name mode custom_query chunk_size
                        ++ flat_map (batch_events (copy_statement drv self table_name)
                                       (copy_columns drv self table_name) chunk_size)
                             (fst (fst (chunks_drain chunk_size
                                          (mkCursor rows chunk_size false))))
                        ++ [SrcFetchMany chunk_size 0; SrcCursorClose] ++ ix)%list).
    { rewrite Hrun. unfold preceded_by; cbn [trace].
      rewrite Hix, Htr. rewrite <- !app_assoc. reflexivity. }
    rewrite Htrace. split.
    + rewrite committed_rows_skip
        by (apply non_query_not_execute_many, ok_non_query; exact Hddl).
      rewrite committed_rows_skip
        by (unfold copy_prologue; repeat constructor; simpl; tauto).
      rewrite committed_rows_batches, Hconcat.
      rewrite committed_rows_skip by (repeat constructor; simpl; tauto).
      rewrite (committed_rows_none Hnoex), app_nil_r. reflexivity.
    + intros Hin.
      apply in_app_or in Hin. destruct Hin as [Hin | Hin].
      { apply ok_non_query in Hddl. rewrite Forall_forall in Hddl.
        exact (Hddl _ Hin). }
      apply in_app_or in Hin. destruct Hin as [Hin | Hin].
      { unfold copy_prologue in Hin. simpl in Hin.
        destruct Hin as [H | [H | [H | [H | []]]]]; discriminate. }
      apply in_app_or in Hin. destruct Hin as [Hin | Hin].
      { exact (batch_events_no_rollback _ _ _ _ Hin). }
      simpl in Hin. destruct Hin as [H | [H | Hin]]; try discriminate.
      exact (Hnorb Hin).
  - rewrite (copy_epilogue_failed table_name _ Hloop) in Hrun.
    rewrite Hrun in Hres. discriminate.
Qed.


(** X4.  When the row count query gives no row, [migrate_table] returns
    [False] (the exception of [get_row_count] does not leave it) and makes
    no call but the DROP and CREATE of the reconciliation, which have
    already been executed by then. *)
Theorem row_count_failure_returns_false :
  forall (self : TableMigrator S) (table_name mode : string)
         (custom_query : option string) (behavior : string) (chunk_size : nat),
    query_count drv (source_conn self) (copy_count_query table_name mode custom_query)
      = None ->
    let run := migrate_table drv ops table_name mode custom_query behavior
                 chunk_size self in
    result run = Returns false
    /\ Forall is_non_query (trace run).
Proof.
  intros self table_name mode custom_query behavior chunk_size Hcount run.
  destruct (migrate_table_decompose drv ops table_name mode custom_query behavior
              chunk_size self)
    as [(ddl & self' & Hrun & Hddl & _ & Hs & _) | (Hfalse & Hnq & _)];
    cbv zeta in *; fold run in Hrun || fold run in Hfalse, Hnq.
  - rewrite migrate_table_copy_run, Hs, Hcount in Hrun.
    rewrite Hrun. unfold preceded_by; cbn [result trace]. rewrite app_nil_r.
    split; [reflexivity | apply ok_non_query; exact Hddl].
  - split; assumption.
Qed.

(** X5.  Of the database calls that the driver lets fail, one only makes
    [migrate_table] raise: the SELECT of the copy, when the generator
    executes it on the source cursor.  The exception is raised in the
    header of the [for] statement, outside the [try] block, so it leaves
    [migrate_table]; the row count was not zero, and the last call made is
    that [execute]. *)
Theorem migrate_table_raises_only_on_select :
  forall (self : TableMigrator S) (table_name mode : string)
         (custom_query : option string) (behavior : string) (chunk_size : nat)
         (exc : string),
    let run := migrate_table drv ops table_name mode custom_query behavior
                 chunk_size self in
    result run = Raises exc ->
    cursor_execute drv (source_conn self) (copy_query table_name mode custom_query)
      = None
    /\ (exists row_count,
          query_count drv (source_conn self)
            (copy_count_query table_name mode custom_query) = Some row_count
          /\ row_count <> 0%Z)
    /\ exists ddl,
         Forall is_non_query ddl
         /\ trace run
            = (ddl ++ copy_prologue drv self table_name mode custom_query chunk_size)%list.
Proof.
  intros self table_name mode custom_query behavior chunk_size exc run Hres.
  destruct (migrate_table_decompose drv ops table_name mode custom_query behavior
              chunk_size self)
    as [(ddl & self' & Hrun & Hddl & _ & Hs & _) | (Hfalse & _)];
    cbv zeta in *; fold run in Hrun || fold run in Hfalse;
    [|rewrite Hfalse in Hres; discriminate].
  destruct (copy_run_same_source drv table_name mode custom_query chunk_size self self' Hs)
    as (Hst & Hco & Hpro).
  rewrite migrate_table_copy_run, Hs in Hrun.
  destruct (query_count drv (source_conn self) _) as [row_count|];
    [|rewrite Hrun in Hres; discriminate].
  destruct (row_count =? 0)%Z eqn:Hz; [rewrite Hrun in Hres; discriminate|].
  destruct (cursor_execute drv (source_conn self) _) as [rows|].
  - exfalso. rewrite Hrun in Hres. unfold preceded_by in Hres. cbn [result] in Hres.
    destruct (copy_chunks_batches drv (copy_statement drv self' table_name)
                (copy_columns drv self' table_name) chunk_size
                (mkCursor rows chunk_size false) 0 self')
      as [(Hloop & _) | (done & chunk & rest & tail & _ & Hloop & _)];
      cbv zeta in *.
    + destruct (copy_epilogue_finished table_name _ Hloop) as (Hr & _).
      cbv zeta in Hr. rewrite Hr in Hres. discriminate.
    + rewrite (copy_epilogue_failed table_name _ Hloop) in Hres. discriminate.
  - split; [reflexivity|]. split.
    + exists row_count. split; [reflexivity|]. apply Z.eqb_neq. exact Hz.
    + exists ddl. split; [apply ok_non_query; exact Hddl|].
      rewrite Hrun, Hpro. reflexivity.
Qed.

(** X6.  Index replication is gated by the copy: if [migrate_table] makes
    an index call (DDL generation or [create_index]), then index
    replication is switched on, every batch was copied (the cursor was
    closed), and the run returns [True]; and all DROP and CREATE TABLE
    calls come first in every run, before any call of the copy or of the
    index replication. *)
Theorem calls_are_ordered_by_stage :
  forall (self : TableMigrator S) (table_name mode : string)
         (custom_query : option string) (behavior : string) (chunk_size : nat),
    let run := migrate_table drv ops table_name mode custom_query behavior
                 chunk_size self in
    (exists ddl rest,
        trace run = (ddl ++ rest)%list
        /\ Forall is_non_query ddl
        /\ length ddl <= 2
        /\ Forall (fun e => ~ is_non_query e) rest)
    /\ (forall e, In e (trace run) -> is_index_event e ->
          migrate_indexes_globally self = true
          /\ result run = Returns true
          /\ exists before after,
               trace run = (before ++ SrcCursorClose :: after)%list
               /\ Forall is_index_event after).
Proof.
  intros self table_name mode custom_query behavior chunk_size run.
  destruct (migrate_table_decompose drv ops table_name mode custom_query behavior
              chunk_size self)
    as [(ddl & self' & Hrun & Hddl & Hlen & Hs & Hf) | (Hfalse & Hnq & Hlen)];
    cbv zeta in *; fold run in Hrun || fold run in Hfalse, Hnq, Hlen.
  - pose proof (migrate_table_copy_events drv ops table_name mode custom_query
                  chunk_size self') as Hev.
    split.
    + exists ddl, (trace (migrate_table_copy drv ops table_name mode custom_query
                            chunk_size self')).
      split; [rewrite Hrun; reflexivity|].
      split; [apply ok_non_query; exact Hddl|]. split; [exact Hlen|].
      eapply Forall_impl; [|exact Hev]. intros e. apply copy_event_not_non_query.
    + intros e Hin He.
      rewrite Hrun in Hin. unfold preceded_by in Hin. cbn [trace] in Hin.
      apply in_app_or in Hin. destruct Hin as [Hin | Hin].
      { apply ok_non_query in Hddl. rewrite Forall_forall in Hddl.
        specialize (Hddl _ Hin). destruct e; simpl in *; tauto. }
      rewrite migrate_table_copy_run in Hrun, Hin.
      destruct (query_count drv (source_conn self') _) as [row_count|];
        [|destruct Hin].
      destruct (row_count =? 0)%Z; [destruct Hin|].
      destruct (cursor_execute drv (source_conn self') _) as [rows|].
      * unfold preceded_by in Hin. cbn [trace] in Hin.
        apply in_app_or in Hin. destruct Hin as [Hin | Hin].
        { unfold copy_prologue in Hin. simpl in Hin.
          destruct Hin as [<- | [<- | [<- | [<- | []]]]]; destruct He. }
        pose proof (copy_chunks_keeps drv (copy_statement drv self' table_name)
                      (copy_columns drv self' table_name) chunk_size
                      (mkCursor rows chunk_size false) 0 self') as Hkeep.
        cbv zeta in Hkeep. destruct Hkeep as (_ & Hflag).
        destruct (copy_chunks_batches drv (copy_statement drv self' table_name)
                    (copy_columns drv self' table_name) chunk_size
                    (mkCursor rows chunk_size false) 0 self')
          as [(Hloop & Htr) | (done & chunk & rest & tail & _ & Hloop & Htr & Htail)];
          cbv zeta in *.
        -- destruct (copy_epilogue_finished table_name _ Hloop)
             as (Hr & ix & Hix & Hidx & Hoff).
           cbv zeta in Hr, Hix.
           assert (Hon : migrate_indexes_globally self = true).
           { destruct (migrate_indexes_globally self) eqn:Hm; [reflexivity|].
             exfalso. rewrite Hix in Hin.
             rewrite Hoff in Hin by congruence.
             rewrite app_nil_r, Htr in Hin.
             apply in_app_or in Hin. destruct Hin as [Hin | Hin].
             - apply in_flat_map in Hin. destruct Hin as (ch & _ & Hin).
               simpl in Hin. destruct Hin as [<- | [<- | [<- | []]]]; destruct He.
             - simpl in Hin. destruct Hin as [<- | [<- | []]]; destruct He. }
           split; [exact Hon|]. split.
           ++ rewrite Hrun. unfold preceded_by. cbn [result]. exact Hr.
           ++ exists (ddl ++ copy_prologue drv self' table_name mode custom_query chunk_size
                      ++ flat_map (batch_events (copy_statement drv self' table_name)
                                     (copy_columns drv self' table_name) chunk_size)
                           (fst (fst (chunks_drain chunk_size
                                        (mkCursor rows chunk_size false))))
                      ++ [SrcFetchMany chunk_size 0])%list, ix.
              split; [|exact Hidx].
              rewrite Hrun. unfold preceded_by; cbn [trace].
              rewrite Hix, Htr. rewrite <- !app_assoc. reflexivity.
        -- exfalso.
           rewrite (copy_epilogue_failed table_name _ Hloop) in Hin.
           cbn [trace] in Hin. rewrite Htr in Hin.
           apply in_app_or in Hin. destruct Hin as [Hin | Hin].
           ++ apply in_flat_map in Hin. destruct Hin as (ch & _ & Hin).
              simpl in Hin. destruct Hin as [<- | [<- | [<- | []]]]; destruct He.
           ++ simpl in Hin. destruct Hin as [<- | Hin]; [destruct He|].
              destruct Htail as [-> | ->]; simpl in Hin;
                repeat (destruct Hin as [<- | Hin]; [destruct He|]); destruct Hin.
      * unfold copy_prologue in Hin. simpl in Hin.
        destruct Hin as [<- | [<- | [<- | [<- | []]]]]; destruct He.
  - split.
    + exists (trace run), []. rewrite app_nil_r.
      split; [reflexivity|]. split; [exact Hnq|]. split; [exact Hlen | constructor].
    + intros e Hin He. exfalso. rewrite Forall_forall in Hnq.
      specialize (Hnq _ Hin). destruct e; simpl in *; tauto.
Qed.

End TableProperties.

(* ===================================================================== *)
(** * Schema comparison and table creation *)
(* ===================================================================== *)

Lemma opt_Z_eqb_eq (a b : option Z) : opt_Z_eqb a b = true <-> a = b.
Proof.
  destruct a as [x|], b as [y|]; simpl; split; intros H;
    try discriminate; try reflexivity.
  - apply Z.eqb_eq in H. congruence.
  - injection H as ->. apply Z.eqb_refl.
Qed.

Lemma columns_differ_false (a b : Column) :
  columns_differ a b = false <-> column_key a = column_key b.
Proof.
  unfold columns_differ, column_key. split.
  - intros H.
    repeat (apply orb_false_elim in H; destruct H as [H ?]).
    repeat match goal with
           | H : negb _ = false |- _ => apply negb_false_iff in H
           end.
    repeat match goal with
           | H : (_ =? _) = true |- _ => apply String.eqb_eq in H
           | H : opt_Z_eqb _ _ = true |- _ => apply opt_Z_eqb_eq in H
           end.
    congruence.
  - intros H. injection H as -> -> -> -> ->.
    rewrite !String.eqb_refl.
    rewrite !(proj2 (opt_Z_eqb_eq _ _) eq_refl). reflexivity.
Qed.

Lemma columns_match_all (l1 l2 : list Column) :
  length l1 = length l2 ->
  (forallb (fun st => negb (columns_differ (fst st) (snd st))) (combine l1 l2) = true
   <-> map column_key l1 = map column_key l2).
Proof.
  revert l2. induction l1 as [|a l1 IH]; intros [|b l2] Hlen;
    cbn [length] in Hlen; try discriminate.
  - split; reflexivity.
  - injection Hlen as Hlen. specialize (IH l2 Hlen).
    cbn [map combine forallb fst snd].
    rewrite andb_true_iff, negb_true_iff, columns_differ_false, IH.
    split.
    + intros [H1 H2]. rewrite H1, H2. reflexivity.
    + intros H. split; [exact (f_equal (hd (column_key a)) H)
                       | exact (f_equal (@tl _) H)].
Qed.

Section SchemaProperties.

Context {S : Type} (drv : Driver S) (ops : IndexOps S).

(** [schemas_match] in terms of the dictionary answers. *)
Lemma schemas_match_iff (source target : S) (table_name : string) :
  schemas_match drv source target table_name = true
  <-> table_exists drv source table_name = true
      /\ table_exists drv target table_name = true
      /\ map column_key (get_table_schema drv source table_name)
         = map column_key (get_table_schema drv target table_name).
Proof.
  unfold schemas_match.
  destruct (table_exists drv source table_name); cbn [negb];
    [|split; [discriminate | intros (H & _); discriminate]].
  destruct (table_exists drv target table_name); cbn [negb];
    [|split; [discriminate | intros (_ & H & _); discriminate]].
  destruct (length (get_table_schema drv source table_name)
            =? length (get_table_schema drv target table_name))%nat eqn:Hlen;
    cbn [negb].
  - apply Nat.eqb_eq in Hlen. rewrite (columns_match_all _ _ Hlen).
    split; [intros H; repeat split; exact H | intros (_ & _ & H); exact H].
  - split; [discriminate|]. intros (_ & _ & H). exfalso.
    apply Nat.eqb_neq in Hlen. apply Hlen.
    apply (f_equal (@length _)) in H. rewrite !length_map in H. exact H.
Qed.

(** X7.  [schemas_match] answers [True] exactly when the table exists on
    both sides and the two column lists have the same length and agree,
    position by position, on name, type, length, precision and scale;
    whether a column is nullable plays no part.  The comparison gives the
    same answer with the two sides exchanged. *)
Theorem schemas_match_characterised :
  forall (source target : S) (table_name : string),
    (schemas_match drv source target table_name = true
     <-> table_exists drv source table_name = true
         /\ table_exists drv target table_name = true
         /\ map column_key (get_table_schema drv source table_name)
            = map column_key (get_table_schema drv target table_name))
    /\ schemas_match drv source target table_name
       = schemas_match drv target source table_name.
Proof.
  pose proof schemas_match_iff as Hiff.
  intros source target table_name. split; [apply Hiff|].
  destruct (schemas_match drv source target table_name) eqn:H1,
           (schemas_match drv target source table_name) eqn:H2;
    try reflexivity.
  - apply Hiff in H1. destruct H1 as (A & B & C).
    assert (H : schemas_match drv target source table_name = true)
      by (apply Hiff; repeat split; [exact B | exact A | symmetry; exact C]).
    congruence.
  - apply Hiff in H2. destruct H2 as (A & B & C).
    assert (H : schemas_match drv source target table_name = true)
      by (apply Hiff; repeat split; [exact B | exact A | symmetry; exact C]).
    congruence.
Qed.

Lemma column_names_of_keys (l1 l2 : list Column) :
  map column_key l1 = map column_key l2 -> map col_name l1 = map col_name l2.
Proof.
  intros H.
  assert (E : forall l, map col_name l
                        = map (fun k => fst (fst (fst (fst k)))) (map column_key l)).
  { intros l. rewrite map_map. reflexivity. }
  rewrite (E l1), (E l2), H. reflexivity.
Qed.

(** X8.  When [migrate_table] appends to an existing target
    ([append_if_compatible]), every INSERT statement it executes lists
    exactly the column names that the target dictionary gives for the
    table, and no DROP or CREATE TABLE was executed before it: in the
    append case the source column names used by the code and the target
    column names are the same list. *)
Theorem append_inserts_into_target_columns :
  forall (self : TableMigrator S) (table_name mode : string)
         (custom_query : option string) (chunk_size : nat)
         (stmt : string) (bound : list Row) (ok : bool),
    table_exists drv (target_conn self) table_name = true ->
    let run := migrate_table drv ops table_name mode custom_query
                 "append_if_compatible" chunk_size self in
    In (TgtExecuteMany stmt bound ok) (trace run) ->
    stmt = prepare_insert_statement table_name
             (map col_name (get_table_schema drv (target_conn self) table_name))
    /\ Forall (fun e => ~ is_non_query e) (trace run).
Proof.
  intros self table_name mode custom_query chunk_size stmt bound ok Hex run Hin.
  subst run. rewrite migrate_table_run, Hex in *.
  cbn [String.eqb Ascii.eqb Bool.eqb] in *.
  destruct (schemas_match drv (source_conn self) (target_conn self) table_name) eqn:Hm;
    [|destruct Hin].
  apply schemas_match_iff in Hm.
  destruct Hm as (_ & _ & Hkeys). apply column_names_of_keys in Hkeys.
  pose proof (migrate_table_copy_events drv ops table_name mode custom_query
                chunk_size self) as Hall.
  split.
  - rewrite Forall_forall in Hall. specialize (Hall _ Hin).
    inversion Hall; subst. rewrite <- Hkeys. reflexivity.
  - eapply Forall_impl; [|exact Hall]. intros e. apply copy_event_not_non_query.
Qed.

Lemma join_after_header (sep h x : string) (l : list string) :
  exists body,
    PyStr.join sep (rstrip_last (h :: x :: l) ++ [")"]) = h ++ sep ++ body.
Proof.
  change (rstrip_last (h :: x :: l)) with (h :: rstrip_last (x :: l)).
  cbn [app].
  destruct (rstrip_last (x :: l) ++ [")"])%list as [|y ys] eqn:E.
  - exfalso. symmetry in E. exact (app_cons_not_nil _ _ _ E).
  - eexists. reflexivity.
Qed.

Lemma create_table_sql_nonempty (table_name : string) (col : Column) (cols : list Column) :
  exists body,
    create_table_sql_of table_name (col :: cols)
    = "CREATE TABLE " ++ table_name ++ " (" ++ newline ++ body.
Proof.
  unfold create_table_sql_of. cbv zeta. cbn [map].
  destruct (join_after_header newline ("CREATE TABLE " ++ table_name ++ " (")
              ("    " ++ column_definition col ++ ",")
              (map (fun c => "    " ++ column_definition c ++ ",") cols))
    as (body & Hbody).
  exists body. rewrite Hbody. rewrite !string_append_assoc. reflexivity.
Qed.

(** X9.  [create_table] executes nothing and returns [False] exactly when
    the source dictionary gives no column for the table (as when the source
    table does not exist); otherwise it executes on the target one
    statement, which begins with [CREATE TABLE <name> (], and returns what
    that execution returns. *)
Theorem create_table_needs_source_columns :
  forall (self : TableMigrator S) (table_name : string),
    let run := create_table drv table_name self in
    let sql := generate_create_table_sql drv (source_conn self) table_name in
    (get_table_schema drv (source_conn self) table_name = [] ->
       run = mkRun (Returns false) self [])
    /\ (get_table_schema drv (source_conn self) table_name <> [] ->
        (exists body, sql = "CREATE TABLE " ++ table_name ++ " (" ++ newline ++ body)
        /\ run = mkRun (Returns (fst (execute_non_query drv (target_conn self) sql)))
                       (after_non_query drv self sql)
                       [TgtExecuteNonQuery sql
                          (fst (execute_non_query drv (target_conn self) sql))]).
Proof.
  intros self table_name run sql. subst run sql.
  rewrite create_table_run. cbv zeta. unfold generate_create_table_sql.
  split.
  - intros ->. reflexivity.
  - intros Hne.
    destruct (get_table_schema drv (source_conn self) table_name) as [|col cols];
      [congruence|].
    destruct (create_table_sql_nonempty table_name col cols) as (body & Hbody).
    split; [eauto|].
    rewrite Hbody at 1. cbn [PyStr.truthy append].
    rewrite target_execute_non_query_run. reflexivity.
Qed.

(** X10.  With [drop_and_recreate], an existing target table is dropped
    before the source is looked at: when the source dictionary gives no
    column for the table, [migrate_table] executes the DROP TABLE on the
    target, creates nothing, and returns [False]. *)
Theorem drop_and_recreate_without_source_drops_target :
  forall (self : TableMigrator S) (table_name mode : string)
         (custom_query : option string) (chunk_size : nat),
    table_exists drv (target_conn self) table_name = true ->
    get_table_schema drv (source_conn self) table_name = [] ->
    let run := migrate_table drv ops table_name mode custom_query
                 "drop_and_recreate" chunk_size self in
    let drop_sql := "DROP TABLE " ++ table_name in
    result run = Returns false
    /\ trace run
       = [TgtExecuteNonQuery drop_sql
            (fst (execute_non_query drv (target_conn self) drop_sql))]
    /\ target_conn (final run)
       = snd (execute_non_query drv (target_conn self) drop_sql).
Proof.
  intros self table_name mode custom_query chunk_size Hex Hsrc run drop_sql.
  subst run drop_sql. rewrite migrate_table_run, Hex.
  cbn [String.eqb Ascii.eqb Bool.eqb]. cbv zeta.
  destruct (fst (execute_non_query drv (target_conn self) _)) eqn:Hok.
  - pose proof (migrate_table_create_run drv ops table_name mode custom_query
                  chunk_size (after_non_query drv self ("DROP TABLE " ++ table_name)))
      as H.
    unfold creates_from_source, generate_create_table_sql in H.
    cbn [after_non_query with_target source_conn] in H.
    unfold after_non_query, with_target in H. cbn [source_conn] in H.
    rewrite Hsrc in H. cbn [create_table_sql_of PyStr.truthy] in H.
    unfold after_non_query, with_target. rewrite H.
    unfold preceded_by. cbn [result final trace target_conn app].
    repeat split.
  - cbn [result final trace]. repeat split.
Qed.

End SchemaProperties.

(* ===================================================================== *)
(** * Types, values and names *)
(* ===================================================================== *)

Lemma prefix_split (p s : string) :
  prefix p s = true -> exists rest, s = p ++ rest.
Proof.
  revert s. induction p as [|a p IH]; intros s H.
  - exists s. reflexivity.
  - destruct s as [|b s]; [discriminate|]. simpl in H.
    destruct (ascii_dec a b) as [->|]; [|discriminate].
    destruct (IH s H) as (rest & ->). exists rest. reflexivity.
Qed.

Lemma before_first_app (c : ascii) (base suffix : string) :
  has_char c base = false ->
  PyStr.before_first c (base ++ String c suffix) = base.
Proof.
  induction base as [|a base IH]; simpl; intros H.
  - rewrite Ascii.eqb_refl. reflexivity.
  - apply orb_false_elim in H. destruct H as [Ha Hb].
    rewrite Ha, (IH Hb). reflexivity.
Qed.

Lemma before_first_none (c : ascii) (base : string) :
  has_char c base = false -> PyStr.before_first c base = base.
Proof.
  induction base as [|a base IH]; simpl; intros H; [reflexivity|].
  apply orb_false_elim in H. destruct H as [Ha Hb].
  rewrite Ha, (IH Hb). reflexivity.
Qed.

Lemma timestamp_prefix_base (base suffix : string) :
  has_char "("%char base = false ->
  prefix "TIMESTAMP(" (base ++ String "("%char suffix) = true ->
  base = "TIMESTAMP".
Proof.
  intros Hbase Hp.
  destruct (prefix_split _ _ Hp) as (rest & Hrest).
  apply (f_equal (PyStr.before_first "("%char)) in Hrest.
  rewrite (before_first_app _ _ suffix Hbase) in Hrest. exact Hrest.
Qed.

Lemma timestamp_match_needs_paren (base : string) :
  has_char "("%char base = false -> timestamp_match base = false.
Proof.
  intros Hbase. unfold timestamp_match.
  destruct (prefix "TIMESTAMP(" base) eqn:Hp; [|reflexivity].
  exfalso. destruct (prefix_split _ _ Hp) as (rest & ->).
  simpl in Hbase. discriminate.
Qed.

(** X11.  [get_column_type] does not look past the first opening
    parenthesis: a type name followed by a size, precision or scale in
    parentheses (and anything after it) is mapped to the same driver type
    as the bare type name. *)
Theorem get_column_type_ignores_size :
  forall (base suffix : string),
    has_char "("%char base = false ->
    get_column_type (base ++ "(" ++ suffix) = get_column_type base.
Proof.
  intros base suffix Hbase.
  change (base ++ "(" ++ suffix) with (base ++ String "("%char suffix).
  unfold get_column_type.
  rewrite (timestamp_match_needs_paren _ Hbase).
  rewrite (before_first_app _ _ suffix Hbase), (before_first_none _ _ Hbase).
  destruct (timestamp_match (base ++ String "("%char suffix)) eqn:Ht; [|reflexivity].
  unfold timestamp_match in Ht.
  destruct (prefix "TIMESTAMP(" (base ++ String "("%char suffix)) eqn:Hp;
    [|discriminate].
  rewrite (timestamp_prefix_base _ _ Hbase Hp). reflexivity.
Qed.

Lemma get_column_type_ignores_size_witness :
  get_column_type ("NUMBER" ++ "(" ++ "10,2)") = DB_TYPE_NUMBER
  /\ get_column_type ("TIMESTAMP" ++ "(" ++ "6) WITH TIME ZONE") = DB_TYPE_TIMESTAMP.
Proof.
  split.
  - rewrite (get_column_type_ignores_size "NUMBER" "10,2)" eq_refl). reflexivity.
  - rewrite (get_column_type_ignores_size "TIMESTAMP" "6) WITH TIME ZONE" eq_refl).
    reflexivity.
Defined.

(** X12.  Converting is idempotent, for a value and for a row; a value
    converted for a [VARCHAR2] column is [None] or a string; and a value
    that is not [None] is never converted to [None]. *)
Theorem convert_value_settles :
  forall (v : pyval) (t : string) (row : Row) (cols : list Column),
    convert_value (convert_value v t) t = convert_value v t
    /\ convert_row_values (convert_row_values row cols) cols
       = convert_row_values row cols
    /\ (convert_value v "VARCHAR2" = PyNone
        \/ exists s, convert_value v "VARCHAR2" = PyStr s)
    /\ (convert_value v t = PyNone <-> v = PyNone).
Proof.
  assert (Hidem : forall v t, convert_value (convert_value v t) t = convert_value v t).
  { intros v t. unfold convert_value.
    destruct v; try reflexivity; destruct (t =? "VARCHAR2"); reflexivity. }
  intros v t row cols. split; [apply Hidem|]. split; [|split].
  - unfold convert_row_values. revert cols.
    induction row as [|x row IH]; intros [|c cols]; try reflexivity.
    cbn [combine map fst snd]. rewrite Hidem. f_equal. apply IH.
  - destruct v; simpl; eauto.
  - unfold convert_value. split.
    + destruct v; try reflexivity;
        destruct ((t =? "VARCHAR2") && _); discriminate.
    + intros ->. reflexivity.
Qed.

Lemma replace_without_occurrence (o : ascii) (old' new : list ascii) :
  forall s,
    occurs_at_some_position (o :: old') s = false ->
    PyStr.replace_nonempty o old' new s = s.
Proof.
  induction s as [|c s IH]; intros H.
  - rewrite PyStr.replace_nonempty_equation_1. reflexivity.
  - cbn [occurs_at_some_position] in H.
    apply orb_false_elim in H. destruct H as [H1 H2].
    rewrite replace_nonempty_cons_false by exact H1.
    rewrite (IH H2). reflexivity.
Qed.

Lemma take_all (n : nat) (s : string) :
  String.length s <= n -> PyStr.take n s = s.
Proof.
  unfold PyStr.take. revert s. induction n as [|n IH]; intros [|c s] H;
    simpl in *; try reflexivity; try lia.
  rewrite IH by lia. reflexivity.
Qed.

(** X13.  An index whose name does not contain the name of its table
    keeps its name on a target table of another name length (cut to its
    first 30 characters when it is longer): the rename only ever changes
    occurrences of the table name. *)
Theorem index_name_without_table_name :
  forall (index : IndexDefinition) (target_table : string),
    idx_table_name index <> "" ->
    occurs_at_some_position (list_ascii_of_string (idx_table_name index))
                            (list_ascii_of_string (idx_name index)) = false ->
    new_index_name index target_table
    = (if (String.length target_table =? String.length (idx_table_name index))%nat
       then idx_name index
       else PyStr.take 30 (idx_name index))
    /\ (String.length (idx_name index) <= 30 ->
        new_index_name index target_table = idx_name index).
Proof.
  intros index target_table Hne Hocc.
  assert (Hrep : PyStr.replace (idx_name index) (idx_table_name index) target_table
                 = idx_name index).
  { unfold PyStr.replace.
    destruct (list_ascii_nonempty Hne) as (o & old' & Hold).
    rewrite Hold in *. cbn [PyStr.replace_chars].
    rewrite replace_without_occurrence by exact Hocc.
    apply string_of_list_ascii_of_string. }
  unfold new_index_name. rewrite Hrep. split; [reflexivity|].
  intros Hlen. destruct (_ =? _)%nat; [reflexivity|]. apply take_all. exact Hlen.
Qed.

Lemma index_name_without_table_name_witness :
  new_index_name (mkIndex "PK_CUSTOMERS" "PEOPLE" ["ID"] true None) "PEOPLE_COPY"
  = "PK_CUSTOMERS".
Proof.
  apply (proj2 (index_name_without_table_name
                  (mkIndex "PK_CUSTOMERS" "PEOPLE" ["ID"] true None) "PEOPLE_COPY"
                  ltac:(discriminate) eq_refl)).
  simpl. lia.
Defined.

Lemma split_commas_aux_plain (x cur : string) :
  has_char ","%char x = false ->
  split_commas_aux cur x = [cur ++ x].
Proof.
  revert cur. induction x as [|a x IH]; intros cur H; simpl in *.
  - assert (E : cur ++ "" = cur)
      by (induction cur as [|c cur IHc]; simpl; [reflexivity | rewrite IHc; reflexivity]).
    rewrite E. reflexivity.
  - apply orb_false_elim in H. destruct H as [Ha Hx].
    rewrite Ha, (IH _ Hx), string_append_assoc. reflexivity.
Qed.

Lemma split_commas_aux_comma (x cur rest : string) :
  has_char ","%char x = false ->
  split_commas_aux cur (x ++ String ","%char rest)
  = (cur ++ x) :: split_commas_aux "" rest.
Proof.
  revert cur. induction x as [|a x IH]; intros cur H; simpl in *.
  - assert (E : cur ++ "" = cur)
      by (induction cur as [|c cur IHc]; simpl; [reflexivity | rewrite IHc; reflexivity]).
    rewrite E. reflexivity.
  - apply orb_false_elim in H. destruct H as [Ha Hx].
    rewrite Ha, (IH _ Hx), string_append_assoc. reflexivity.
Qed.

Lemma split_commas_join (cols : list string) :
  cols <> [] ->
  Forall (fun c => has_char ","%char c = false) cols ->
  split_commas (PyStr.join "," cols) = cols.
Proof.
  unfold split_commas, PyStr.join.
  induction cols as [|x cols IH]; intros Hne Hall; [congruence|].
  inversion Hall as [|? ? Hx Hcols]; subst.
  destruct cols as [|y cols].
  - simpl. rewrite (split_commas_aux_plain _ "" Hx). reflexivity.
  - change (String.concat "," (x :: y :: cols))
      with (x ++ String ","%char (String.concat "," (y :: cols))).
    rewrite (split_commas_aux_comma _ "" _ Hx).
    rewrite IH by (congruence || assumption). reflexivity.
Qed.

Section IndexDictionary.

Context {S : Type} (drv : Driver S).

(** X14.  [get_table_indexes] gives one index definition per row of the
    dictionary query, in the same order; and when the [columns] cell of a
    row is the comma-joined list of the index columns (none of which
    contains a comma, and at least one of them), the definition built from
    the row has exactly those columns, in that order. *)
Theorem get_table_indexes_recovers_columns :
  forall (conn : S) (table_name : string),
    let rows := query_indexes drv conn (PyStr.upper table_name) in
    let indexes := get_table_indexes drv conn table_name in
    map idx_name indexes = map (fun row => fst (fst (fst (fst row)))) rows
    /\ forall name owner uniqueness tablespace (cols : list string),
         cols <> [] ->
         Forall (fun c => has_char ","%char c = false) cols ->
         In (name, owner, uniqueness, tablespace, PyStr.join "," cols) rows ->
         In (mkIndex name owner cols (uniqueness =? "UNIQUE") tablespace) indexes.
Proof.
  intros conn table_name rows indexes. subst indexes. unfold get_table_indexes.
  fold rows. split.
  - rewrite map_map. apply map_ext. intros [[[[r0 r1] r2] r3] r4]. reflexivity.
  - intros name owner uniqueness tablespace cols Hne Hall Hin.
    apply in_map_iff.
    exists (name, owner, uniqueness, tablespace, PyStr.join "," cols).
    split; [|exact Hin].
    rewrite (split_commas_join Hne Hall). reflexivity.
Qed.

Lemma generate_index_ddl_truthy (index : IndexDefinition) (target_table : string) :
  PyStr.truthy (generate_index_ddl index target_table) = true.
Proof. reflexivity. Qed.

Lemma oracle_one_index_run (index : IndexDefinition) (target_table : string)
    (self : TableMigrator S) :
  migrate_one_index (OracleHandler drv) index target_table self
  = let ddl := generate_index_ddl index target_table in
    mkRun (Returns (fst (execute_non_query drv (target_conn self) ddl)))
          (with_target self (snd (execute_non_query drv (target_conn self) ddl)))
          [SrcGenerateIndexDdl index target_table; TgtCreateIndex ddl].
Proof.
  cbv zeta. unfold migrate_one_index.
  rewrite try_except_run.
  rewrite bind_run. cbn [get_self result final trace].
  rewrite preceded_by_nil.
  rewrite bind_run. cbn [emit result final trace].
  rewrite bind_run. cbn [OracleHandler h_generate_index_ddl lift_outcome ret
                           result final trace].
  rewrite generate_index_ddl_truthy. cbn [negb].
  rewrite bind_run. cbn [emit result final trace].
  rewrite bind_run. cbn [set_target result final trace].
  rewrite bind_run. cbn [OracleHandler h_create_index fst snd lift_outcome ret
                           result final trace].
  unfold create_index. rewrite generate_index_ddl_truthy. cbn [negb].
  unfold preceded_by. cbn [result final trace app ret]. reflexivity.
Qed.

Lemma oracle_index_loop_run (target_table : string) :
  forall (indexes : list IndexDefinition) (success : bool) (self : TableMigrator S),
    let run := migrate_index_loop (OracleHandler drv) indexes target_table success self in
    trace run
    = flat_map (fun index => [SrcGenerateIndexDdl index target_table;
                              TgtCreateIndex (generate_index_ddl index target_table)])
               indexes
    /\ exists b, result run = Returns b.
Proof.
  induction indexes as [|index rest IH]; intros success self; cbv zeta.
  - split; [reflexivity | eexists; reflexivity].
  - cbn [migrate_index_loop]. rewrite bind_run, oracle_one_index_run.
    cbv zeta. cbn [result final trace]. unfold preceded_by. cbn [result final trace].
    match goal with
    | |- context [migrate_index_loop _ rest target_table ?b ?s] =>
        destruct (IH b s) as (Htr & Hres)
    end.
    cbv zeta in Htr, Hres. rewrite Htr. split; [reflexivity | exact Hres].
Qed.

(** X15.  With the handle of the repository, DDL generation never fails
    and never gives an empty statement, so index replication calls
    [create_index] exactly once for every index that [get_table_indexes]
    returns, in order, each time with the statement generated for that
    index; and it returns without raising. *)
Theorem oracle_handler_creates_every_index :
  forall (self : TableMigrator S) (source_table target_table : string),
    let indexes := get_table_indexes drv (source_conn self) source_table in
    let run := _migrate_indexes_for_table (OracleHandler drv) source_table
                 target_table self in
    trace run
    = flat_map (fun index => [SrcGenerateIndexDdl index target_table;
                              TgtCreateIndex (generate_index_ddl index target_table)])
               indexes
    /\ created (trace run)
       = map (fun index => generate_index_ddl index target_table) indexes
    /\ (exists b, result run = Returns b)
    /\ (indexes = [] -> result run = Returns true).
Proof.
  intros self source_table target_table indexes run.
  assert (Hcreated : forall l,
             created (flat_map (fun index =>
                                  [SrcGenerateIndexDdl index target_table;
                                   TgtCreateIndex (generate_index_ddl index target_table)]) l)
             = map (fun index => generate_index_ddl index target_table) l).
  { induction l as [|i l IHl]; [reflexivity|]. simpl. rewrite <- IHl. reflexivity. }
  assert (Hrun : trace run
                 = flat_map (fun index =>
                               [SrcGenerateIndexDdl index target_table;
                                TgtCreateIndex (generate_index_ddl index target_table)])
                            indexes
                 /\ (exists b, result run = Returns b)
                 /\ (indexes = [] -> result run = Returns true)).
  { subst run. unfold _migrate_indexes_for_table.
    rewrite try_except_run, bind_run. cbn [get_self result final trace].
    rewrite preceded_by_nil, bind_run.
    cbn [OracleHandler h_get_table_indexes lift_outcome ret result final trace].
    fold indexes. rewrite preceded_by_nil.
    destruct indexes as [|i rest] eqn:Hidx.
    - cbn [ret result trace]. repeat split. eexists; reflexivity.
    - destruct (oracle_index_loop_run target_table (i :: rest) true self)
        as (Htr & b & Hb).
      cbv zeta in Htr, Hb. rewrite Hb.
      split; [exact Htr|]. split; [eexists; exact Hb | discriminate]. }
  destruct Hrun as (Htr & Hres & Hnil).
  split; [exact Htr|]. split; [rewrite Htr; apply Hcreated|].
  split; assumption.
Qed.

End IndexDictionary.

(* ===================================================================== *)
(** * Configuration and the table loop *)
(* ===================================================================== *)

Lemma find_by_unique_name (tables : list TableConfig) (tc : TableConfig) :
  NoDup (map tc_name tables) ->
  In tc tables ->
  find (fun table => tc_name table =? tc_name tc) tables = Some tc.
Proof.
  induction tables as [|x tables IH]; intros Hnd Hin; [destruct Hin|].
  cbn [map] in Hnd. inversion Hnd as [|? ? Hnotin Hnd']; subst.
  cbn [find]. destruct Hin as [-> | Hin].
  - rewrite String.eqb_refl. reflexivity.
  - destruct (tc_name x =? tc_name tc) eqn:E; [|apply IH; assumption].
    exfalso. apply String.eqb_eq in E. apply Hnotin. rewrite E.
    apply in_map. exact Hin.
Qed.

(** X16.  The chunk size is looked up by table name.  When the table names
    of the configuration are pairwise different, every configured table is
    copied with its own [chunk_size] when it has one and with the default
    chunk size otherwise; a name that is not configured gets the default;
    and the default is 10000 when the settings give none. *)
Theorem chunk_size_of_configured_table :
  forall (config : Config),
    (forall tc,
        NoDup (map tc_name (get_tables_config config)) ->
        In tc (get_tables_config config) ->
        get_table_chunk_size config (tc_name tc)
        = match tc_chunk_size tc with
          | Some n => n
          | None => get_default_chunk_size config
          end)
    /\ (forall name,
          ~ In name (map tc_name (get_tables_config config)) ->
          get_table_chunk_size config name = get_default_chunk_size config)
    /\ (cfg_default_chunk_size config = None ->
        get_default_chunk_size config = 10000).
Proof.
  intros config. split; [|split].
  - intros tc Hnd Hin. unfold get_table_chunk_size, get_table_config.
    rewrite (find_by_unique_name _ _ Hnd Hin). reflexivity.
  - intros name Hnot. unfold get_table_chunk_size, get_table_config.
    destruct (find _ _) as [tc|] eqn:E; [|reflexivity].
    exfalso. apply find_some in E. destruct E as (Hin & Hname).
    apply String.eqb_eq in Hname. apply Hnot. rewrite <- Hname.
    apply in_map. exact Hin.
  - intros H. unfold get_default_chunk_size. rewrite H. reflexivity.
Qed.

Lemma chunk_size_of_configured_table_witness :
  let config :=
    mkConfig (Some [mkTableConfig "A" None None None (Some 5);
                    mkTableConfig "B" None None None None])
             (Some 7) in
  get_table_chunk_size config "A" = 5
  /\ get_table_chunk_size config "B" = 7
  /\ get_table_chunk_size config "C" = 7
  /\ get_default_chunk_size (mkConfig None None) = 10000.
Proof.
  intros config.
  destruct (chunk_size_of_configured_table config) as (H1 & H2 & _).
  destruct (chunk_size_of_configured_table (mkConfig None None)) as (_ & _ & H3).
  assert (Hnd : NoDup (map tc_name (get_tables_config config))).
  { simpl. repeat constructor; simpl; intuition discriminate. }
  split; [exact (H1 (mkTableConfig "A" None None None (Some 5)) Hnd
                    (or_introl eq_refl))|].
  split; [exact (H1 (mkTableConfig "B" None None None None) Hnd
                    (or_intror (or_introl eq_refl)))|].
  split; [apply H2; simpl; intuition discriminate|].
  apply H3. reflexivity.
Defined.

Section TableLoop.

Context {S : Type} (drv : Driver S) (ops : IndexOps S).

Lemma main_loop_cons (config : Config) (tc : TableConfig) (rest : list TableConfig)
    (s f : nat) :
  main_loop drv ops config (tc :: rest) s f
  = (ok <- migrate_configured drv ops config tc ;;
     if ok then main_loop drv ops config rest (s + 1) f
     else main_loop drv ops config rest s (f + 1)).
Proof. reflexivity. Qed.

(** X17.  The loop of [main] takes the configured tables in order.  As long
    as no [migrate_table] raises, a table that fails does not stop the
    loop: every table is processed, and the loop ends with the success
    count raised by the number of tables that returned [True] and the
    failure count raised by the number that returned [False].  When a
    [migrate_table] raises, the loop raises the same exception at once and
    the tables after it are not processed. *)
Theorem main_loop_tally :
  forall (config : Config) (tables_config : list TableConfig)
         (success_count fail_count : nat) (self : TableMigrator S),
    let outcomes := table_outcomes drv ops config tables_config self in
    let run := main_loop drv ops config tables_config success_count fail_count self in
    (existsb raised outcomes = false ->
       length outcomes = length tables_config
       /\ result run
          = Returns (success_count + length (filter (returned true) outcomes),
                     fail_count + length (filter (returned false) outcomes)))
    /\ (forall exc, In (Raises exc) outcomes ->
          result run = Raises exc
          /\ length (filter (fun o => negb (raised o)) outcomes) < length tables_config).
Proof.
  intros config tables_config.
  induction tables_config as [|tc rest IH];
    intros success_count fail_count self; cbv zeta.
  - split.
    + intros _. simpl. rewrite !Nat.add_0_r. split; reflexivity.
    + intros exc [].
  - rewrite main_loop_cons, bind_run. cbn [table_outcomes].
    destruct (result (migrate_configured drv ops config tc self)) as [[|]|exc0] eqn:E.
    + specialize (IH (success_count + 1) fail_count
                     (final (migrate_configured drv ops config tc self))).
      cbv zeta in IH. destruct IH as (IH1 & IH2).
      unfold preceded_by; cbn [result]. split.
      * intros Hnr. cbn [existsb raised orb] in Hnr.
        destruct (IH1 Hnr) as (Hlen & Hres).
        split; [cbn [length]; rewrite Hlen; reflexivity|].
        rewrite Hres. cbn [filter returned Bool.eqb length]. f_equal. f_equal. lia.
      * intros exc [Hin | Hin]; [discriminate|].
        destruct (IH2 exc Hin) as (Hres & Hlen).
        split; [exact Hres|]. cbn [filter raised negb length]. lia.
    + specialize (IH success_count (fail_count + 1)
                     (final (migrate_configured drv ops config tc self))).
      cbv zeta in IH. destruct IH as (IH1 & IH2).
      unfold preceded_by; cbn [result]. split.
      * intros Hnr. cbn [existsb raised orb] in Hnr.
        destruct (IH1 Hnr) as (Hlen & Hres).
        split; [cbn [length]; rewrite Hlen; reflexivity|].
        rewrite Hres. cbn [filter returned Bool.eqb length]. f_equal. f_equal. lia.
      * intros exc [Hin | Hin]; [discriminate|].
        destruct (IH2 exc Hin) as (Hres & Hlen).
        split; [exact Hres|]. cbn [filter raised negb length]. lia.
    + cbn [result]. split.
      * intros Hnr. cbn [existsb raised orb] in Hnr. discriminate.
      * intros exc [Hin | []]. injection Hin as <-.
        split; [reflexivity|]. simpl. lia.
Qed.

End TableLoop.

(* ===================================================================== *)
(** * [DatabaseConnection] *)
(* ===================================================================== *)

Ltac library_cases lib :=
  repeat match goal with
         | |- context [Connection.ora_connect lib ?w ?u ?p ?d] =>
             destruct (Connection.ora_connect lib w u p d) as [[|] ?]; cbn
         | |- context [Connection.ora_cursor lib ?w] =>
             destruct (Connection.ora_cursor lib w) as [[|] ?]; cbn
         | |- context [Connection.ora_execute lib ?w ?q ?p] =>
             destruct (Connection.ora_execute lib w q p) as [[|] ?]; cbn
         | |- context [Connection.ora_fetchall lib ?w] =>
             destruct (Connection.ora_fetchall lib w) as [[?|] ?]; cbn
         | |- context [Connection.ora_commit lib ?w] =>
             destruct (Connection.ora_commit lib w) as [[|] ?]; cbn
         | |- context [Connection.ora_cursor_close lib ?w] =>
             destruct (Connection.ora_cursor_close lib w) as [[|] ?]; cbn
         | |- context [Connection.ora_connection_close lib ?w] =>
             destruct (Connection.ora_connection_close lib w) as [[|] ?]; cbn
         end.

Section ConnectionFacts.

Import Connection.

Context {W : Type} (lib : Oracledb W).

Lemma connect_true_sets_both (h : handle) (w : W) :
  value (connect lib h w) = Returns true ->
  cursor (handle_after (connect lib h w)) = true
  /\ connection (handle_after (connect lib h w)) = true.
Proof.
  unfold connect. cbv zeta.
  destruct (opt_truthy (schema h)); library_cases lib;
    intros H; try discriminate H; split; reflexivity.
Qed.

(** X18.  A handle answers queries only after a successful [connect]: on
    a handle that was never connected, [execute_query] and
    [execute_non_query] raise [AttributeError] (which they do not catch)
    without calling the library; on the handle left by a [connect] that
    returned [True], neither of them raises, whatever the library does. *)
Theorem queries_need_a_successful_connect :
  forall (c : config) (h : handle) (w w' : W) (query : string) (p : option params),
    execute_query lib (init c) w query p
      = mkStep (Raises "AttributeError") (init c) w []
    /\ execute_non_query lib (init c) w query p
       = mkStep (Raises "AttributeError") (init c) w []
    /\ (value (connect lib h w) = Returns true ->
        let h' := handle_after (connect lib h w) in
        (exists rows, value (execute_query lib h' w' query p) = Returns rows)
        /\ (exists b, value (execute_non_query lib h' w' query p) = Returns b)).
Proof.
  intros c h w w' query p. split; [reflexivity|]. split; [reflexivity|].
  intros Hok h'. destruct (connect_true_sets_both h w Hok) as (Hcur & Hcon).
  fold h' in Hcur, Hcon. unfold execute_query, execute_non_query.
  rewrite Hcur, Hcon. cbv zeta. cbn [negb].
  split; library_cases lib; eexists; reflexivity.
Qed.

(** X19.  Connecting and then disconnecting a fresh handle, as [main]
    does, closes the connection if and only if [oracledb.connect] had
    succeeded and closing the cursor did not raise: a connection that was
    opened by a [connect] that then returned [False] is still closed, an
    error while closing the cursor leaves the connection open, and when
    [oracledb.connect] failed [disconnect] calls nothing. *)
Theorem disconnect_closes_what_connect_opened :
  forall (c : config) (w : W),
    let log := snd (connect_then_disconnect lib c w) in
    existsb is_connection_close log
      = existsb is_connect_ok log && negb (existsb is_cursor_close_failed log)
    /\ (existsb is_connect_ok log = false -> length log = 1)
    /\ (fst (connect_then_disconnect lib c w) = true ->
        existsb is_connect_ok log = true).
Proof.
  intros c w. unfold connect_then_disconnect, connect, disconnect, init.
  cbv zeta. cbn [username password dsn schema cursor connection].
  destruct (opt_truthy (get "schema" c));
    library_cases lib; repeat split; intros; try reflexivity; discriminate.
Qed.

(** X20.  [connect] executes a statement only for a handle that has a
    non-empty schema, and then it is the one ALTER SESSION statement for
    that schema, whose outcome is the result of [connect].  The
    configurations that [main] builds from the environment have no schema,
    so the tool never executes a statement while connecting. *)
Theorem connect_alters_session_only_with_schema :
  forall (h : handle) (w : W) (getenv : string -> option string),
    (existsb is_execute (calls (connect lib h w)) = true ->
     exists s b,
       schema h = Some s /\ s <> ""
       /\ In (CallExecute ("ALTER SESSION SET CURRENT_SCHEMA = " ++ s) None b)
             (calls (connect lib h w))
       /\ value (connect lib h w) = Returns b)
    /\ existsb is_execute (calls (connect lib (init (get_source_db_config getenv)) w))
       = false
    /\ existsb is_execute (calls (connect lib (init (get_target_db_config getenv)) w))
       = false.
Proof.
  intros h w getenv. split; [|split].
  - unfold connect. cbv zeta.
    destruct (schema h) as [[|a s]|] eqn:Hs; cbn [opt_truthy];
      try (library_cases lib; intros H; discriminate H).
    unfold opt_truthy. cbn.
    destruct (ora_connect lib w _ _ _) as [[|] w1]; cbn;
      [|intros H; discriminate H].
    destruct (ora_cursor lib w1) as [[|] w2]; cbn; [|intros H; discriminate H].
    intros _. exists (String a s), (fst (ora_execute lib w2
                ("ALTER SESSION SET CURRENT_SCHEMA = " ++ String a s) None)).
    split; [reflexivity|]. split; [discriminate|].
    split; [right; right; left; reflexivity | reflexivity].
  - unfold connect, init, get_source_db_config. cbn. library_cases lib; reflexivity.
  - unfold connect, init, get_target_db_config. cbn. library_cases lib; reflexivity.
Qed.

(** X21.  On a connected handle the two execute methods turn every library
    error into a value: [execute_query] returns a non-empty list only when
    both [execute] and [fetchall] succeeded and never commits;
    [execute_non_query] returns [True] exactly when the statement was
    executed and then committed, and does not commit a statement whose
    execution failed.  Neither changes the handle, and an empty parameter
    dictionary is passed on as no parameters at all. *)
Theorem execute_methods_report_library_errors :
  forall (h : handle) (w : W) (query : string) (p : option params),
    cursor h = true ->
    connection h = true ->
    let q := execute_query lib h w query p in
    let n := execute_non_query lib h w query p in
    (exists rows,
        value q = Returns rows
        /\ (rows <> [] ->
            calls q = [CallExecute query (bound_params p) true; CallFetchall true]))
    /\ existsb is_commit (calls q) = false
    /\ (value n = Returns true
        <-> calls n = [CallExecute query (bound_params p) true; CallCommit true])
    /\ (fst (ora_execute lib w query (bound_params p)) = false ->
        value n = Returns false /\ existsb is_commit (calls n) = false)
    /\ handle_after q = h /\ handle_after n = h
    /\ execute_query lib h w query (Some []) = execute_query lib h w query None
    /\ execute_non_query lib h w query (Some []) = execute_non_query lib h w query None.
Proof.
  intros h w query p Hcur Hcon q n. subst q n.
  unfold execute_query, execute_non_query. rewrite Hcur, Hcon. cbv zeta. cbn [negb].
  repeat split; try reflexivity;
    library_cases lib;
    try reflexivity; try discriminate; try (intros H; discriminate H);
    try (intros _; split; reflexivity);
    try (eexists; split; [reflexivity|]; intros H; try reflexivity; congruence).
Qed.

End ConnectionFacts.

Lemma queries_need_a_successful_connect_witness :
  let c := [("username", Some "scott"); ("password", Some "tiger");
            ("dsn", Some "db1"); ("schema", Some "HR")] in
  let w := Connection.mkWorld 0 [] [] [[PyInt 1]] in
  let h' := Connection.handle_after
              (Connection.connect Connection.scripted (Connection.init c) w) in
  Connection.value (Connection.connect Connection.scripted (Connection.init c) w)
    = Returns true
  /\ (exists rows,
        Connection.value
          (Connection.execute_query Connection.scripted h' w "SELECT 1 FROM DUAL" None)
        = Returns rows)
  /\ Connection.value
       (Connection.execute_query Connection.scripted (Connection.init c) w
          "SELECT 1 FROM DUAL" None)
     = Raises "AttributeError".
Proof.
  intros c w h'.
  destruct (queries_need_a_successful_connect Connection.scripted c
              (Connection.init c) w w "SELECT 1 FROM DUAL" None)
    as (Hraises & _ & Hafter).
  split; [reflexivity|].
  split; [exact (proj1 (Hafter eq_refl))|].
  rewrite Hraises. reflexivity.
Defined.

Lemma disconnect_closes_what_connect_opened_witness :
  let c := [("username", Some "scott"); ("password", Some "tiger");
            ("dsn", Some "db1")] in
  (* [oracledb.connect] fails *)
  length (snd (Connection.connect_then_disconnect Connection.scripted c
                 (Connection.mkWorld 0 [0] [] []))) = 1
  (* [cursor()] fails: [connect] returns [False], the connection is closed *)
  /\ Connection.connect_then_disconnect Connection.scripted c
       (Connection.mkWorld 0 [1] [] [])
     = (false,
        [Connection.CallConnect (Some "scott") (Some "tiger") (Some "db1") true;
         Connection.CallCursor false;
         Connection.CallConnectionClose true])
  (* closing the cursor fails: the connection stays open *)
  /\ existsb Connection.is_connection_close
       (snd (Connection.connect_then_disconnect Connection.scripted c
               (Connection.mkWorld 0 [2] [] []))) = false.
Proof.
  intros c.
  destruct (disconnect_closes_what_connect_opened Connection.scripted c
              (Connection.mkWorld 0 [0] [] [])) as (_ & Hnone & _).
  destruct (disconnect_closes_what_connect_opened Connection.scripted c
              (Connection.mkWorld 0 [2] [] [])) as (Hleak & _).
  split; [exact (Hnone eq_refl)|].
  split; [reflexivity|].
  rewrite Hleak. reflexivity.
Defined.

Lemma connect_alters_session_only_with_schema_witness :
  let h := Connection.init [("username", Some "scott"); ("schema", Some "HR")] in
  let w := Connection.mkWorld 0 [] ["ALTER SESSION SET CURRENT_SCHEMA = HR"] [] in
  exists s b,
    Connection.schema h = Some s /\ s <> ""
    /\ In (Connection.CallExecute ("ALTER SESSION SET CURRENT_SCHEMA = " ++ s) None b)
          (Connection.calls (Connection.connect Connection.scripted h w))
    /\ Connection.value (Connection.connect Connection.scripted h w) = Returns b.
Proof.
  intros h w.
  destruct (connect_alters_session_only_with_schema Connection.scripted h w
              (fun _ => None)) as (Hexec & _).
  exact (Hexec eq_refl).
Defined.

Lemma execute_methods_report_library_errors_witness :
  let c := [("username", Some "scott"); ("password", Some "tiger");
            ("dsn", Some "db1")] in
  let w := Connection.mkWorld 0 [] ["DROP TABLE T"] [] in
  let s := Connection.connect Connection.scripted (Connection.init c) w in
  let h := Connection.handle_after s in
  let n := Connection.execute_non_query Connection.scripted h
             (Connection.world_after s) "DROP TABLE T" None in
  Connection.value n = Returns false
  /\ existsb Connection.is_commit (Connection.calls n) = false.
Proof.
  intros c w s h n.
  destruct (execute_methods_report_library_errors Connection.scripted h
              (Connection.world_after s) "DROP TABLE T" None eq_refl eq_refl)
    as (_ & _ & _ & Hfail & _).
  exact (Hfail eq_refl).
Defined.

(* ===================================================================== *)
(** * The properties above on concrete databases *)
(* ===================================================================== *)

Lemma successful_copy_inserts_every_row_witness :
  let self := Scenario.migrator Scenario.source (Scenario.target_absent 5) true in
  let run := Scenario.migrate "PEOPLE" "full" None "drop_and_recreate" 2 self in
  result run = Returns true
  /\ committed_rows (trace run)
     = [[PyInt 1; PyStr "Ann"]; [PyInt 2; PyStr "42"]; [PyInt 3; PyNone]]
  /\ ~ In TgtRollback (trace run).
Proof.
  intros self run.
  assert (Hres : result run = Returns true) by (vm_compute; reflexivity).
  split; [exact Hres|].
  assert (Hnz : 3%Z <> 0%Z) by discriminate.
  destruct (@successful_copy_inserts_every_row _ Toy.driver (OracleHandler Toy.driver)
              self "PEOPLE" "full" None "drop_and_recreate" 2 3%Z
              (le_S 1 1 (le_n 1)) eq_refl Hnz Hres)
    as (rows & Hsel & Hrows & Hnorb).
  fold (Scenario.migrate "PEOPLE" "full" None "drop_and_recreate" 2 self) in Hrows, Hnorb.
  fold run in Hrows, Hnorb.
  split; [|exact Hnorb].
  rewrite Hrows.
  assert (Hr : Some rows = Some Scenario.people_rows)
    by (rewrite <- Hsel; reflexivity).
  injection Hr as ->. reflexivity.
Defined.


Lemma row_count_failure_returns_false_witness :
  let self := Scenario.migrator Edge.uncounted_source (Scenario.target_same 5) true in
  let run := Scenario.migrate "PEOPLE" "full" None "drop_and_recreate" 2 self in
  result run = Returns false
  /\ Forall is_non_query (trace run)
  /\ Toy.committed (target_conn (final run)) = [].
Proof.
  intros self run.
  destruct (@row_count_failure_returns_false _ Toy.driver (OracleHandler Toy.driver)
              self "PEOPLE" "full" None "drop_and_recreate" 2 eq_refl)
    as (Hres & Hnq).
  split; [exact Hres|]. split; [exact Hnq|]. reflexivity.
Defined.

Lemma migrate_table_raises_only_on_select_witness :
  let self := Scenario.migrator Edge.unreadable_source (Scenario.target_absent 5) true in
  let run := Scenario.migrate "PEOPLE" "full" None "drop_and_recreate" 2 self in
  raised (result run) = true
  /\ cursor_execute Toy.driver (source_conn self) "SELECT * FROM PEOPLE" = None
  /\ exists ddl,
       Forall is_non_query ddl
       /\ trace run
          = (ddl ++ copy_prologue Toy.driver self "PEOPLE" "full" None 2)%list.
Proof.
  intros self run.
  destruct (result run) as [b|exc] eqn:Hres; [vm_compute in Hres; discriminate|].
  split; [reflexivity|].
  destruct (@migrate_table_raises_only_on_select _ Toy.driver (OracleHandler Toy.driver)
              self "PEOPLE" "full" None "drop_and_recreate" 2 exc Hres)
    as (Hsel & _ & Htrace).
  split; [exact Hsel | exact Htrace].
Defined.

Lemma calls_are_ordered_by_stage_witness :
  let self := Scenario.migrator Scenario.source (Scenario.target_same 5) true in
  let run := Scenario.migrate "PEOPLE" "full" None "drop_and_recreate" 2 self in
  let e := TgtCreateIndex "CREATE INDEX IDX_PEOPLE_NAME ON PEOPLE (NAME)" in
  In e (trace run)
  /\ result run = Returns true
  /\ exists before after,
       trace run = (before ++ SrcCursorClose :: after)%list
       /\ Forall is_index_event after.
Proof.
  intros self run e.
  assert (Hin : In e (trace run)).
  { vm_compute. repeat (try (left; reflexivity); right). }
  split; [exact Hin|].
  destruct (@calls_are_ordered_by_stage _ Toy.driver (OracleHandler Toy.driver)
              self "PEOPLE" "full" None "drop_and_recreate" 2) as (_ & Hix).
  destruct (Hix e Hin I) as (_ & Hres & Hshape).
  split; [exact Hres | exact Hshape].
Defined.

Lemma schemas_match_characterised_witness :
  schemas_match Toy.driver Scenario.source (Scenario.target_same 5) "PEOPLE" = true
  /\ schemas_match Toy.driver Scenario.source Scenario.target_narrow "PEOPLE" = false.
Proof.
  destruct (@schemas_match_characterised _ Toy.driver Scenario.source
              (Scenario.target_same 5) "PEOPLE") as (Hsame & _).
  destruct (@schemas_match_characterised _ Toy.driver Scenario.source
              Scenario.target_narrow "PEOPLE") as (Hnarrow & _).
  split.
  - apply (proj2 Hsame). repeat split.
  - destruct (schemas_match Toy.driver Scenario.source Scenario.target_narrow "PEOPLE");
      [|reflexivity].
    destruct (proj1 Hnarrow eq_refl) as (_ & _ & Hkeys). discriminate Hkeys.
Defined.

Lemma append_inserts_into_target_columns_witness :
  let self := Scenario.migrator Scenario.source (Scenario.target_same 5) false in
  let run := Scenario.migrate "PEOPLE" "full" None "append_if_compatible" 2 self in
  let stmt := "INSERT INTO PEOPLE (ID, NAME) VALUES (:1, :2)" in
  let bound := [[PyInt 3; PyNone]] in
  In (TgtExecuteMany stmt bound true) (trace run)
  /\ stmt = prepare_insert_statement "PEOPLE"
              (map col_name (get_table_schema Toy.driver (target_conn self) "PEOPLE"))
  /\ Forall (fun e => ~ is_non_query e) (trace run).
Proof.
  intros self run stmt bound.
  assert (Hin : In (TgtExecuteMany stmt bound true) (trace run)).
  { vm_compute. repeat (try (left; reflexivity); right). }
  split; [exact Hin|].
  exact (@append_inserts_into_target_columns _ Toy.driver (OracleHandler Toy.driver)
           self "PEOPLE" "full" None 2 stmt bound true eq_refl Hin).
Defined.

Lemma create_table_needs_source_columns_witness :
  let present := Scenario.migrator Scenario.source (Scenario.target_absent 5) false in
  let missing := Scenario.migrator Edge.missing_source (Scenario.target_absent 5) false in
  create_table Toy.driver "PEOPLE" missing = mkRun (Returns false) missing []
  /\ trace (create_table Toy.driver "PEOPLE" present)
     = [TgtExecuteNonQuery Scenario.people_create_sql true].
Proof.
  intros present missing.
  destruct (@create_table_needs_source_columns _ Toy.driver missing "PEOPLE")
    as (Hnone & _).
  destruct (@create_table_needs_source_columns _ Toy.driver present "PEOPLE")
    as (_ & Hsome).
  split; [exact (Hnone eq_refl)|].
  assert (Hne : get_table_schema Toy.driver (source_conn present) "PEOPLE" <> [])
    by discriminate.
  destruct (Hsome Hne) as (_ & Hrun).
  rewrite Hrun. reflexivity.
Defined.

Lemma drop_and_recreate_without_source_drops_target_witness :
  let self := Scenario.migrator Edge.missing_source (Scenario.target_same 5) false in
  let run := Scenario.migrate "PEOPLE" "full" None "drop_and_recreate" 2 self in
  result run = Returns false
  /\ trace run = [TgtExecuteNonQuery "DROP TABLE PEOPLE" true]
  /\ table_exists Toy.driver (target_conn (final run)) "PEOPLE" = false
  /\ Toy.committed (target_conn (final run)) = [].
Proof.
  intros self run.
  destruct (@drop_and_recreate_without_source_drops_target _ Toy.driver
              (OracleHandler Toy.driver) self "PEOPLE" "full" None 2 eq_refl eq_refl)
    as (Hres & Htrace & Hfinal).
  fold (Scenario.migrate "PEOPLE" "full" None "drop_and_recreate" 2 self)
    in Hres, Htrace, Hfinal.
  fold run in Hres, Htrace, Hfinal.
  split; [exact Hres|]. split; [exact Htrace|].
  rewrite Hfinal. split; reflexivity.
Defined.

Lemma convert_value_settles_witness :
  convert_value (PyInt 42) "VARCHAR2" = PyStr "42"
  /\ convert_value (convert_value (PyInt 42) "VARCHAR2") "VARCHAR2" = PyStr "42"
  /\ convert_value (PyInt 42) "CHAR" <> PyNone.
Proof.
  destruct (convert_value_settles (PyInt 42) "VARCHAR2" [] []) as (Hidem & _).
  destruct (convert_value_settles (PyInt 42) "CHAR" [] []) as (_ & _ & _ & Hnone).
  split; [reflexivity|]. split; [rewrite Hidem; reflexivity|].
  intros H. apply (proj1 Hnone) in H. discriminate H.
Defined.

Lemma get_table_indexes_recovers_columns_witness :
  In (mkIndex "PEOPLE_UK" "PEOPLE" ["ID"; "NAME"] true (Some "USERS"))
     (get_table_indexes Toy.driver Edge.indexed_source "people").
Proof.
  destruct (@get_table_indexes_recovers_columns _ Toy.driver Edge.indexed_source "people")
    as (_ & Hcols).
  assert (Hne : ["ID"; "NAME"] <> @nil string) by discriminate.
  apply (Hcols "PEOPLE_UK" "PEOPLE" "UNIQUE" (Some "USERS") ["ID"; "NAME"] Hne).
  - repeat constructor.
  - left. reflexivity.
Defined.

Lemma oracle_handler_creates_every_index_witness :
  let self := Scenario.migrator Scenario.notes_source Scenario.notes_target true in
  let run := _migrate_indexes_for_table (OracleHandler Toy.driver) "NOTES" "NOTES" self in
  result run = Returns true /\ trace run = [].
Proof.
  intros self run.
  destruct (@oracle_handler_creates_every_index _ Toy.driver self "NOTES" "NOTES")
    as (Htrace & _ & _ & Hempty).
  split; [exact (Hempty eq_refl) | exact Htrace].
Defined.

Lemma main_loop_tally_witness :
  let self := Scenario.migrator Scenario.source (Scenario.target_absent 5) false in
  let tables := get_tables_config Edge.three_tables in
  let ops := OracleHandler Toy.driver in
  table_outcomes Toy.driver ops Edge.three_tables tables self
  = [Returns true; Returns false; Returns true]
  /\ result (main_loop Toy.driver ops Edge.three_tables tables 0 0 self)
     = Returns (2, 1).
Proof.
  intros self tables ops.
  assert (Hout : table_outcomes Toy.driver ops Edge.three_tables tables self
                 = [Returns true; Returns false; Returns true])
    by (vm_compute; reflexivity).
  split; [exact Hout|].
  destruct (@main_loop_tally _ Toy.driver ops Edge.three_tables tables 0 0 self)
    as (Hall & _).
  cbv zeta in Hall. rewrite Hout in Hall.
  destruct (Hall eq_refl) as (_ & Hres).
  exact Hres.
Defined.
Example convert_value_tests :
  convert_value PyNone "NUMBER" = PyNone /\
  convert_value (PyInt 123) "VARCHAR2" = PyStr "123" /\
  convert_value (PyBool true) "VARCHAR2" = PyStr "True" /\
  convert_value (PyInt 123) "NUMBER" = PyInt 123 /\
  convert_value (PyStr "2023-01-01") "DATE" = PyStr "2023-01-01".
Proof. repeat split; reflexivity. Qed.

Example prepare_insert_statement_test :
  prepare_insert_statement "TEST_TABLE" ["ID"; "NAME"; "CREATED_DATE"]
  = "INSERT INTO TEST_TABLE (ID, NAME, CREATED_DATE) VALUES (:1, :2, :3)".
Proof. reflexivity. Qed.

Example get_column_type_tests :
  map get_column_type
      ["NUMBER"; "VARCHAR2"; "CHAR"; "UNKNOWN_TYPE"; "NUMBER(10,2)";
       "VARCHAR2(4000)"; "TIMESTAMP(6)"; "TIMESTAMP(6) WITH TIME ZONE"; "RAW"]
  = [DB_TYPE_NUMBER; DB_TYPE_VARCHAR; DB_TYPE_CHAR; DB_TYPE_VARCHAR; DB_TYPE_NUMBER;
     DB_TYPE_VARCHAR; DB_TYPE_TIMESTAMP; DB_TYPE_TIMESTAMP; DB_TYPE_RAW].
Proof. reflexivity. Qed.

Example generate_index_ddl_test :
  generate_index_ddl (mkIndex "IDX_TBL_TEST" "TBL" ["COL1"; "COL2"] true None) "TBL2"
  = "CREATE UNIQUE INDEX IDX_TBL2_TEST ON TBL2 (COL1, COL2)".
Proof. reflexivity. Qed.

Example create_table_sql_test :
  create_table_sql_of "T"
    [mkColumn "ID" "NUMBER" (Some 22%Z) (Some 10%Z) (Some 0%Z) "N";
     mkColumn "NAME" "VARCHAR2" (Some 50%Z) None None "Y"]
  = "CREATE TABLE T (" ++ newline ++ "    ID NUMBER(10) NOT NULL," ++ newline
     ++ "    NAME VARCHAR2(50)" ++ newline ++ ")".
Proof. reflexivity. Qed.

(** A whole run: the table exists on the target and is dropped, created
    again from the source schema, and filled in batches of two rows. *)
Example migrate_people_drop_and_recreate :
  let run := Scenario.migrate "PEOPLE" "full" None "drop_and_recreate" 2
               (Scenario.migrator Scenario.source (Scenario.target_same 5) false) in
  result run = Returns true
  /\ trace run
     = [TgtExecuteNonQuery "DROP TABLE PEOPLE" true;
        TgtExecuteNonQuery Scenario.people_create_sql true;
        TgtSetInputSizes [DB_TYPE_NUMBER; DB_TYPE_VARCHAR];
        SrcCursorOpen; SrcCursorArraysize 2;
        SrcCursorExecute "SELECT * FROM PEOPLE";
        SrcFetchMany 2 2;
        TgtExecuteMany "INSERT INTO PEOPLE (ID, NAME) VALUES (:1, :2)"
          [[PyInt 1; PyStr "Ann"]; [PyInt 2; PyStr "42"]] true;
        TgtCommit true;
        SrcFetchMany 2 1;
        TgtExecuteMany "INSERT INTO PEOPLE (ID, NAME) VALUES (:1, :2)"
          [[PyInt 3; PyNone]] true;
        TgtCommit true;
        SrcFetchMany 2 0; SrcCursorClose]
  /\ Toy.committed (target_conn (final run))
     = [[PyInt 1; PyStr "Ann"]; [PyInt 2; PyStr "42"]; [PyInt 3; PyNone]].
Proof. repeat split. Qed.

(** The second batch cannot be inserted: the first batch stays committed,
    the second is rolled back, and the cursor is left open. *)
Example migrate_people_second_batch_fails :
  let run := Scenario.migrate "PEOPLE" "full" None "drop_and_recreate" 2
               (Scenario.migrator Scenario.source (Scenario.target_absent 1) true) in
  result run = Returns false
  /\ trace run
     = [TgtExecuteNonQuery Scenario.people_create_sql true;
        TgtSetInputSizes [DB_TYPE_NUMBER; DB_TYPE_VARCHAR];
        SrcCursorOpen; SrcCursorArraysize 2;
        SrcCursorExecute "SELECT * FROM PEOPLE";
        SrcFetchMany 2 2;
        TgtExecuteMany "INSERT INTO PEOPLE (ID, NAME) VALUES (:1, :2)"
          [[PyInt 1; PyStr "Ann"]; [PyInt 2; PyStr "42"]] true;
        TgtCommit true;
        SrcFetchMany 2 1;
        TgtExecuteMany "INSERT INTO PEOPLE (ID, NAME) VALUES (:1, :2)"
          [[PyInt 3; PyNone]] false;
        TgtRollback]
  /\ Toy.committed (target_conn (final run))
     = [[PyInt 1; PyStr "Ann"]; [PyInt 2; PyStr "42"]].
Proof. repeat split. Qed.

(** A table without rows is created and reported as migrated; nothing is
    fetched. *)
Example migrate_empty_table :
  let source :=
    Toy.mkDb true Scenario.people_catalog [("SELECT COUNT(*) FROM PEOPLE", 0%Z)]
             [] [] [] [] [] 0 in
  Scenario.migrate "PEOPLE" "full" None "drop_and_recreate" 2
    (Scenario.migrator source (Scenario.target_absent 5) false)
  = mkRun (Returns true)
          (Scenario.migrator source
             (Toy.with_dictionary (Scenario.target_absent 5) Scenario.people_catalog)
             false)
          [TgtExecuteNonQuery Scenario.people_create_sql true].
Proof. reflexivity. Qed.

(** The generator of the test suite: three rows in batches of two. *)
Example get_data_in_chunks_test :
  chunks_drain 2 (mkCursor [[PyInt 1; PyStr "a"]; [PyInt 2; PyStr "b"];
                            [PyInt 3; PyStr "c"]] 2 false)
  = ([[[PyInt 1; PyStr "a"]; [PyInt 2; PyStr "b"]]; [[PyInt 3; PyStr "c"]]],
     mkCursor [] 2 true,
     [SrcFetchMany 2 2; SrcFetchMany 2 1; SrcFetchMany 2 0; SrcCursorClose]).
Proof. reflexivity. Qed.

Example replace_tests :
  PyStr.replace "IDX_TBL_TEST" "TBL" "TBL2" = "IDX_TBL2_TEST"
  /\ PyStr.replace "aaa" "aa" "b" = "ba"
  /\ PyStr.replace "abc" "" "-" = "-a-b-c-"
  /\ PyStr.replace "abc" "x" "y" = "abc".
Proof. repeat split. Qed.
